(** * pythonforge: the audit / migration engine, embedded in Rocq

    A shallow embedding of [quickforge/auditor.py], [quickforge/upgrader.py]
    and of the project-name validator of [pyhatch/models.py], followed by the
    properties of the design specification that were checked against them.

    Conventions of the embedding:
    - a Python function that can raise returns a [result];
    - a function that touches the file system threads an [fs] explicitly and
      gives the file system back also when it raises;
    - the libraries the code calls (tomllib, tomlkit, configparser, ast, the
      clock) are not part of the repository: they are the fields of the record
      [Libs], and every definition below is parametrised by it;
    - strings are sequences of characters with code points below 256. *)

From Stdlib Require Import ZArith QArith String Ascii List Bool Lia.
From stdpp Require Import gmap strings list.

Set Warnings "-register-all".
Close Scope Q_scope.
Open Scope string_scope.
Open Scope list_scope.

(** ** Python values and exceptions *)

Module Py.

Inductive exn :=
| FileNotFoundError
| NotADirectoryError
| IsADirectoryError
| FileExistsError
| TypeError
| AttributeError
| KeyError
| IndexError
| ValueError
| UnicodeDecodeError
| LibraryError (tag : string).

Inductive result (A : Type) :=
| Ok (a : A)
| Raise (e : exn).
Arguments Ok {A} a.
Arguments Raise {A} e.

Definition rbind {A B} (r : result A) (k : A -> result B) : result B :=
  match r with
  | Ok a => k a
  | Raise e => Raise e
  end.

Definition is_ok {A} (r : result A) : bool :=
  match r with Ok _ => true | Raise _ => false end.

Notation "x <-? c1 ;; c2" := (rbind c1 (fun x => c2))
  (at level 100, c1 at next level, right associativity).

(** *** Strings *)

Definition code (c : ascii) : nat := nat_of_ascii c.

Definition in_range (lo hi : nat) (c : ascii) : bool :=
  (lo <=? code c)%nat && (code c <=? hi)%nat.

(** [str.isspace] on one character (code points below 256). *)
Definition is_space (c : ascii) : bool :=
  in_range 9 13 c || in_range 28 32 c
  || (code c =? 133)%nat || (code c =? 160)%nat.

(** [str.lower] on one character: A-Z and the Latin-1 capitals. *)
Definition lower_char (c : ascii) : ascii :=
  if in_range 65 90 c
     || (in_range 192 222 c && negb (code c =? 215)%nat)
  then ascii_of_nat (code c + 32)
  else c.

Fixpoint lower (s : string) : string :=
  match s with
  | EmptyString => EmptyString
  | String c r => String (lower_char c) (lower r)
  end.

Fixpoint lstrip (s : string) : string :=
  match s with
  | EmptyString => EmptyString
  | String c r => if is_space c then lstrip r else s
  end.

(** What is left of [s] once trailing white space is removed. *)
Fixpoint rstrip (s : string) : string :=
  match s with
  | EmptyString => EmptyString
  | String c r =>
      match rstrip r with
      | EmptyString => if is_space c then EmptyString else String c EmptyString
      | r' => String c r'
      end
  end.

Definition strip (s : string) : string := rstrip (lstrip s).

(** [s.startswith(p)] *)
Definition startswith (s p : string) : bool := String.prefix p s.

Fixpoint endswith_aux (rs rp : list ascii) : bool :=
  match rp, rs with
  | [], _ => true
  | _ :: _, [] => false
  | a :: rp', b :: rs' => if ascii_dec a b then endswith_aux rs' rp' else false
  end.

(** [s.endswith(p)] *)
Definition endswith (s p : string) : bool :=
  endswith_aux (rev (list_ascii_of_string s)) (rev (list_ascii_of_string p)).

(** [p in s] for two strings. *)
Fixpoint is_substring (p s : string) : bool :=
  String.prefix p s
  || match s with
     | EmptyString => false
     | String _ r => is_substring p r
     end.

(** [s[1:]] *)
Definition tail1 (s : string) : string :=
  match s with
  | EmptyString => EmptyString
  | String _ r => r
  end.

(** [s[0]], which raises on the empty string. *)
Definition head1 (s : string) : result string :=
  match s with
  | EmptyString => Raise IndexError
  | String c _ => Ok (String c EmptyString)
  end.

(** [s.split(sep)] for a one-character separator. *)
Fixpoint split_on (sep : ascii) (s : string) : list string :=
  match s with
  | EmptyString => [EmptyString]
  | String c r =>
      if ascii_dec c sep then EmptyString :: split_on sep r
      else match split_on sep r with
           | [] => [String c EmptyString]
           | w :: ws => String c w :: ws
           end
  end.

(** The lines a text-mode file iterates over (universal newlines: the
    terminators "\n", "\r\n" and "\r"); the terminator is dropped, which
    [strip] would do anyway at every use below. *)
Fixpoint lines (s : string) : list string :=
  match s with
  | EmptyString => []
  | String c r =>
      if (code c =? 10)%nat then EmptyString :: lines r
      else if (code c =? 13)%nat then
        match r with
        | String d r' =>
            if (code d =? 10)%nat then EmptyString :: lines r'
            else EmptyString :: lines r
        | EmptyString => [EmptyString]
        end
      else match lines r with
           | [] => [String c EmptyString]
           | w :: ws => String c w :: ws
           end
  end.

(** *** Structured documents

    What [tomllib.load] and [tomlkit.load] hand back, read as Python
    objects: a table is a [dict] in insertion order. *)

Inductive value :=
| VStr (s : string)
| VInt (n : Z)
| VFloat (lexeme : string)
| VBool (b : bool)
| VDate (lexeme : string)
| VList (l : list value)
| VTable (t : list (string * value)).

Definition table := list (string * value).

Fixpoint assoc {A} (k : string) (t : list (string * A)) : option A :=
  match t with
  | [] => None
  | (k', v) :: r => if String.eqb k k' then Some v else assoc k r
  end.

Definition has_key {A} (k : string) (t : list (string * A)) : bool :=
  match assoc k t with Some _ => true | None => false end.

(** [d[k] = v] on a dict: in place when the key is there, else at the end. *)
Fixpoint assoc_set {A} (k : string) (v : A) (t : list (string * A))
  : list (string * A) :=
  match t with
  | [] => [(k, v)]
  | (k', v') :: r =>
      if String.eqb k k' then (k, v) :: r else (k', v') :: assoc_set k v r
  end.

Fixpoint assoc_del {A} (k : string) (t : list (string * A))
  : list (string * A) :=
  match t with
  | [] => []
  | (k', v') :: r =>
      if String.eqb k k' then assoc_del k r else (k', v') :: assoc_del k r
  end.

(** [k in v] for a string [k]. *)
Definition contains (k : string) (v : value) : result bool :=
  match v with
  | VTable t => Ok (has_key k t)
  | VStr s => Ok (is_substring k s)
  | VList l =>
      Ok (existsb (fun x => match x with VStr s => String.eqb k s | _ => false end) l)
  | _ => Raise TypeError
  end.

(** [v[k]] for a string [k]. *)
Definition getitem (v : value) (k : string) : result value :=
  match v with
  | VTable t => match assoc k t with Some x => Ok x | None => Raise KeyError end
  | _ => Raise TypeError
  end.

(** [v.get(k, d)] *)
Definition get (v : value) (k : string) (d : value) : result value :=
  match v with
  | VTable t => Ok (match assoc k t with Some x => x | None => d end)
  | _ => Raise AttributeError
  end.

(** [v[k] = x] *)
Definition setitem (v : value) (k : string) (x : value) : result value :=
  match v with
  | VTable t => Ok (VTable (assoc_set k x t))
  | _ => Raise TypeError
  end.

(** [del v[k]] *)
Definition delitem (v : value) (k : string) : result value :=
  match v with
  | VTable t => if has_key k t then Ok (VTable (assoc_del k t)) else Raise KeyError
  | _ => Raise TypeError
  end.

(** [bool(v)] *)
Definition truthy (v : value) : bool :=
  match v with
  | VStr s => negb (String.eqb s "")
  | VInt n => negb (n =? 0)%Z
  | VFloat _ => true
  | VBool b => b
  | VDate _ => true
  | VList l => match l with [] => false | _ => true end
  | VTable t => match t with [] => false | _ => true end
  end.

(** [len(v)] *)
Definition len (v : value) : result nat :=
  match v with
  | VStr s => Ok (String.length s)
  | VList l => Ok (length l)
  | VTable t => Ok (length t)
  | _ => Raise TypeError
  end.

(** [v.startswith(p)] *)
Definition vstartswith (v : value) (p : string) : result bool :=
  match v with
  | VStr s => Ok (startswith s p)
  | _ => Raise AttributeError
  end.

(** [v.items()] *)
Definition items (v : value) : result (list (string * value)) :=
  match v with
  | VTable t => Ok t
  | _ => Raise AttributeError
  end.

(** A list of strings as a document value. *)
Definition strs (l : list string) : value := VList (map VStr l).

(** Decimal rendering of a count, as an f-string prints an [int]. *)
Definition digit (n : nat) : string :=
  String (ascii_of_nat (48 + n)) EmptyString.

Fixpoint nat_str_aux (fuel n : nat) (acc : string) : string :=
  match fuel with
  | O => acc
  | S f =>
      let acc' := digit (n mod 10) +:+ acc in
      if (n / 10 =? 0)%nat then acc' else nat_str_aux f (n / 10) acc'
  end.

Definition nat_str (n : nat) : string := nat_str_aux (S n) n "".

(** What [for x in v] yields: the items of a list, the characters of
    a string, the keys of a table. *)
Definition iterate (v : value) : result (list value) :=
  match v with
  | VList l => Ok l
  | VStr s => Ok (map (fun c => VStr (String c EmptyString)) (list_ascii_of_string s))
  | VTable t => Ok (map (fun kv => VStr (fst kv)) t)
  | _ => Raise TypeError
  end.

(** [v[k1][k2]...] *)
Fixpoint lookup_at (p : list string) (v : value) : result value :=
  match p with
  | [] => Ok v
  | k :: r => sub <-? getitem v k ;; lookup_at r sub
  end.

(** A change made through the alias [v[k1][k2]...]: it is seen from [v]. *)
Fixpoint update_at (p : list string) (v : value) (f : value -> result value)
  : result value :=
  match p with
  | [] => f v
  | k :: r =>
      sub <-? getitem v k ;;
      sub' <-? update_at r sub f ;;
      setitem v k sub'
  end.

(** [v.append(x)] *)
Definition append (v x : value) : result value :=
  match v with
  | VList l => Ok (VList (l ++ [x]))
  | _ => Raise AttributeError
  end.

(** A monadic left fold: a [for] loop that may raise. *)
Fixpoint foldM {A B} (f : B -> A -> result B) (l : list A) (acc : B) : result B :=
  match l with
  | [] => Ok acc
  | x :: r => acc' <-? f acc x ;; foldM f r acc'
  end.

End Py.

Notation "x <-? c1 ;; c2" := (Py.rbind c1 (fun x => c2))
  (at level 100, c1 at next level, right associativity).

(** ** State with exceptions

    [ST S A] is a Python call that reads and writes a state [S] and either
    returns or raises; the state at the raise is kept, as a caller that
    catches the exception sees it. *)

Module St.
Import Py.

Definition ST (S A : Type) : Type := S -> result A * S.

Definition ret {S A} (a : A) : ST S A := fun s => (Ok a, s).
Definition raise {S A} (e : exn) : ST S A := fun s => (Raise e, s).
Definition bind {S A B} (m : ST S A) (k : A -> ST S B) : ST S B :=
  fun s => match m s with
           | (Ok a, s') => k a s'
           | (Raise e, s') => (Raise e, s')
           end.
Definition lift {S A} (r : result A) : ST S A := fun s => (r, s).
Definition gets {S A} (f : S -> A) : ST S A := fun s => (Ok (f s), s).
(** A computation that only reads the state, and may raise. *)
Definition reads {S A} (f : S -> result A) : ST S A := fun s => (f s, s).
Definition modify {S} (f : S -> S) : ST S unit := fun s => (Ok tt, f s).

(** A computation on the first component of a paired state. *)
Definition zoom {S T A} (m : ST S A) : ST (S * T) A :=
  fun s => let '(r, f) := m (fst s) in (r, (f, snd s)).

(** [try: m except Exception as e: h e] *)
Definition try_catch {S A} (m : ST S A) (h : exn -> ST S A) : ST S A :=
  fun s => match m s with
           | (Ok a, s') => (Ok a, s')
           | (Raise e, s') => h e s'
           end.

(** [for x in l: body x] *)
Fixpoint for_each {S A} (l : list A) (body : A -> ST S unit) : ST S unit :=
  match l with
  | [] => ret tt
  | x :: r => bind (body x) (fun _ => for_each r body)
  end.

End St.

Notation "x <- c1 ;; c2" := (St.bind c1 (fun x => c2))
  (at level 100, c1 at next level, right associativity).
Notation "c1 ;; c2" := (St.bind c1 (fun _ => c2))
  (at level 100, right associativity).

(** ** The file system *)

Module FS.
Import Py St.

Inductive node :=
| File (content : string)
| Dir.

(** A resolved absolute path, as its components. *)
Definition path := list string.

Abbreviation fs := (gmap (list string) node).

(** [p / name] *)
Definition child (p : path) (name : string) : path := p ++ [name].

(** [p.name] *)
Definition name (p : path) : string := List.last p "".

(** [p.parent] *)
Definition parent (p : path) : path := removelast p.

Fixpoint join (sep : string) (l : list string) : string :=
  match l with
  | [] => ""
  | [x] => x
  | x :: r => x +:+ sep +:+ join sep r
  end.

(** [str(p)] *)
Definition path_str (p : path) : string := "/" +:+ join "/" p.

(** [p.exists()] *)
Definition exists_ (f : fs) (p : path) : bool :=
  match f !! p with Some _ => true | None => false end.

(** [p.is_dir()] *)
Definition is_dir (f : fs) (p : path) : bool :=
  match f !! p with Some Dir => true | _ => false end.

(** The bytes [p.open()] gives to read. *)
Definition read_file (f : fs) (p : path) : result string :=
  match f !! p with
  | Some (File c) => Ok c
  | Some Dir => Raise IsADirectoryError
  | None => Raise FileNotFoundError
  end.

(** Opening [p] for writing needs a directory to put it in. *)
Definition check_parent (f : fs) (p : path) : result unit :=
  match f !! parent p with
  | Some Dir => Ok tt
  | Some (File _) => Raise NotADirectoryError
  | None => Raise FileNotFoundError
  end.

(** [with p.open("w") as h: h.write(c)] *)
Definition write_file (p : path) (c : string) : ST fs unit :=
  fun f =>
    match f !! p with
    | Some Dir => (Raise IsADirectoryError, f)
    | _ =>
        match check_parent f p with
        | Ok _ => (Ok tt, <[p := File c]> f)
        | Raise e => (Raise e, f)
        end
    end.

(** [p.unlink()] *)
Definition unlink (p : path) : ST fs unit :=
  fun f =>
    match f !! p with
    | Some (File _) => (Ok tt, delete p f)
    | Some Dir => (Raise IsADirectoryError, f)
    | None => (Raise FileNotFoundError, f)
    end.

(** [p.mkdir(exist_ok=True)] *)
Definition mkdir_exist_ok (p : path) : ST fs unit :=
  fun f =>
    match f !! p with
    | Some Dir => (Ok tt, f)
    | Some (File _) => (Raise FileExistsError, f)
    | None =>
        match check_parent f p with
        | Ok _ => (Ok tt, <[p := Dir]> f)
        | Raise e => (Raise e, f)
        end
    end.

(** [shutil.copy2(src, dst)]: the content of a regular file, written to [dst]
    or, when [dst] is a directory, to [dst / src.name]. *)
Definition copy2 (src dst : path) : ST fs unit :=
  fun f =>
    match read_file f src with
    | Ok c => write_file (if is_dir f dst then child dst (name src) else dst) c f
    | Raise e => (Raise e, f)
    end.

(** Every proper ancestor of [p] that is [root] or below it is a directory. *)
Definition reachable (f : fs) (root p : path) : bool :=
  forallb (fun n => is_dir f (firstn n p)) (seq (length root) (length p - length root)).

Definition below (root p : path) : bool :=
  (length root <? length p)%nat && bool_decide (firstn (length root) p = root).

(** [root.glob("**/" + pattern)]: the entries at any depth below [root] whose
    name satisfies [pat]; regular files and directories alike. *)
Definition glob_rec (f : fs) (root : path) (pat : string -> bool) : list path :=
  List.filter (fun p => below root p && reachable f root p && pat (name p))
         (map fst (map_to_list f)).

(** [d.glob(pattern)]: the entries of the directory [d] whose name satisfies
    [pat]. *)
Definition glob (f : fs) (d : path) (pat : string -> bool) : list path :=
  List.filter (fun p => bool_decide (parent p = d) && negb (bool_decide (p = []))
                   && is_dir f d && pat (name p))
         (map fst (map_to_list f)).

End FS.

(** ** The libraries the code calls

    None of them belongs to the repository; the embedding takes what they
    compute as given and fixes only how the code uses it. *)

Module Ext.
Import Py.

(** One function definition met by [ast.walk]: whether it has a return
    annotation, and for each parameter of [args.args], [args.posonlyargs] and
    [args.kwonlyargs] whether it is annotated. *)
Record funcdef := {
  returns : bool;
  args : list bool;
  posonlyargs : list bool;
  kwonlyargs : list bool
}.

(** A parsed [configparser.ConfigParser]: its sections in order (DEFAULT
    apart), each with its options (defaults included, names lower-cased) and,
    per option, what [get] returns for it or the exception interpolation
    raises. *)
Definition ini := list (string * list (string * result string)).

Record Libs := {
  (** [tomllib.load] on the bytes of a file; [None] when it raises. *)
  tomllib_load : string -> option table;
  (** [tomlkit.load] on a file opened as UTF-8 text; [None] when it raises. *)
  tomlkit_load : string -> option table;
  (** [tomlkit.dumps] *)
  tomlkit_dumps : table -> string;
  (** [ConfigParser().read] on the content of a readable file; [None] when
      it raises. *)
  configparser_read : string -> option ini;
  (** Decoding a file as UTF-8, [ast.parse], and the function definitions
      [ast.walk] visits; [None] for [SyntaxError] and [UnicodeDecodeError]. *)
  ast_functions : string -> option (list funcdef);
  (** Decoding a file opened with [encoding="utf-8"]. *)
  utf8_decode : string -> option string;
  (** [f"{x:.0f}"] *)
  fmt_0f : Q -> string;
  (** [str(v)] of a document value that is not a string. *)
  repr_value : value -> string;
  (** [str(e)] of a caught exception. *)
  str_exn : exn -> string;
  (** [int(s)]; [None] is [ValueError]. *)
  int_of_str : string -> option Z;
  (** [re.match(r"(.+?)\s*<(.+?)>", s)]: groups 1 and 2. *)
  match_author : string -> option (string * string);
  (** [datetime.now(UTC).strftime("%Y%m%d_%H%M%S")] *)
  clock_stamp : string
}.

(** [str(v)], as an f-string interpolates a document value. *)
Definition py_str (L : Libs) (v : value) : string :=
  match v with
  | VStr s => s
  | _ => repr_value L v
  end.

End Ext.

(** ** quickforge/auditor.py *)

Module Auditor.
Import Py St FS Ext.

Inductive AuditCategory :=
| TOOLING | CONFIGURATION | DEPENDENCIES | SECURITY | CODE_QUALITY.

Inductive Severity := INFO | WARNING | ERROR | CRITICAL.

Definition Severity_eqb (a b : Severity) : bool :=
  match a, b with
  | INFO, INFO | WARNING, WARNING | ERROR, ERROR | CRITICAL, CRITICAL => true
  | _, _ => false
  end.

Record Recommendation := {
  category : AuditCategory;
  message : string;
  severity : Severity;
  file_path : option path;
  action : option string
}.

Record AuditResult := {
  project_path : path;
  recommendations : list Recommendation;
  score : Z;
  tooling_detected : list (string * string)
}.

Definition count_severity (s : Severity) (recs : list Recommendation) : nat :=
  length (List.filter (fun r => Severity_eqb (severity r) s) recs).

Definition critical_count (r : AuditResult) : nat :=
  count_severity CRITICAL (recommendations r).
Definition error_count (r : AuditResult) : nat :=
  count_severity ERROR (recommendations r).
Definition warning_count (r : AuditResult) : nat :=
  count_severity WARNING (recommendations r).
Definition info_count (r : AuditResult) : nat :=
  count_severity INFO (recommendations r).

(** What a detector returns: the tool, if any, and its evidence. *)
Definition detection : Type := option string * list (string * string).

Section WithLibs.
Context (L : Libs).

(** *** Config readers *)

Definition _read_toml (f : fs) (p : path) : option table :=
  match f !! p with
  | Some (File c) => tomllib_load L c
  | _ => None
  end.

(** [ConfigParser.read] skips a file it cannot open, so a directory of that
    name gives an empty parser. *)
Definition _read_ini (f : fs) (p : path) : option ini :=
  match f !! p with
  | None => None
  | Some Dir => Some []
  | Some (File c) => configparser_read L c
  end.

(** [cfg and cfg.has_section(s)]; a parser object is always true. *)
Definition ini_has_section (cfg : option ini) (s : string) : bool :=
  match cfg with
  | Some i => has_key s i
  | None => false
  end.

(** The test every detector repeats:
    [pyproject and "tool" in pyproject and k in pyproject["tool"]]. *)
Definition declares (pyproject : option table) (k : string) : result bool :=
  match pyproject with
  | None | Some [] => Ok false
  | Some t =>
      match assoc "tool" t with
      | None => Ok false
      | Some tool => contains k tool
      end
  end.

(** [pyproject["tool"][k]] *)
Definition tool_section (pyproject : option table) (k : string) : result value :=
  match pyproject with
  | None => Raise TypeError
  | Some t =>
      tool <-? getitem (VTable t) "tool" ;;
      getitem tool k
  end.

Definition in_pyproject : list (string * string) := [("config", "pyproject.toml")].

(** *** Detectors *)

Definition is_extra_requirements (n : string) : bool :=
  startswith n "requirements" && endswith n ".txt"
  && (16 <=? String.length n)%nat
  && negb (String.eqb n "requirements.txt").

Definition detect_package_manager (f : fs) (root : path) : result detection :=
  if exists_ f (child root "uv.lock") then
    Ok (Some "uv", [("lock_file", "uv.lock")])
  else if exists_ f (child root "poetry.lock") then
    Ok (Some "poetry", [("lock_file", "poetry.lock")])
  else
    let pyproject := _read_toml f (child root "pyproject.toml") in
    poetry <-? declares pyproject "poetry" ;;
    if poetry then Ok (Some "poetry", in_pyproject) else
    pdm <-? declares pyproject "pdm" ;;
    if pdm then Ok (Some "pdm", in_pyproject) else
    hatch <-? declares pyproject "hatch" ;;
    if hatch then Ok (Some "hatch", in_pyproject) else
    flit <-? declares pyproject "flit" ;;
    if flit then Ok (Some "flit", in_pyproject) else
    if exists_ f (child root "Pipfile") || exists_ f (child root "Pipfile.lock")
    then Ok (Some "pipenv", [("config", "Pipfile")])
    else if exists_ f (child root "requirements.txt") then
      Ok (Some "pip",
          fold_left (fun info q => assoc_set (name q) (name q) info)
                    (glob f root is_extra_requirements)
                    [("requirements", "requirements.txt")])
    else if exists_ f (child root "setup.py") then
      Ok (Some "setuptools", [("config", "setup.py")])
    else if exists_ f (child root "setup.cfg") then
      Ok (Some "setuptools", [("config", "setup.cfg")])
    else Ok (None, []).

Definition detect_linter (f : fs) (root : path) : result detection :=
  let pyproject := _read_toml f (child root "pyproject.toml") in
  if exists_ f (child root "ruff.toml") then Ok (Some "ruff", [("config", "ruff.toml")]) else
  ruff <-? declares pyproject "ruff" ;;
  if ruff then Ok (Some "ruff", in_pyproject) else
  if exists_ f (child root ".flake8") then Ok (Some "flake8", [("config", ".flake8")]) else
  let setup_cfg := _read_ini f (child root "setup.cfg") in
  if ini_has_section setup_cfg "flake8" then Ok (Some "flake8", [("config", "setup.cfg")]) else
  if exists_ f (child root ".pylintrc") then Ok (Some "pylint", [("config", ".pylintrc")]) else
  if exists_ f (child root "pylintrc") then Ok (Some "pylint", [("config", "pylintrc")]) else
  pylint <-? declares pyproject "pylint" ;;
  if pylint then Ok (Some "pylint", in_pyproject) else
  Ok (None, []).

Definition detect_formatter (f : fs) (root : path) : result detection :=
  let pyproject := _read_toml f (child root "pyproject.toml") in
  ruff <-? declares pyproject "ruff" ;;
  modern <-? (if ruff then
                ruff_config <-? tool_section pyproject "ruff" ;;
                fmt <-? contains "format" ruff_config ;;
                if fmt then Ok true else contains "line-length" ruff_config
              else Ok false) ;;
  if modern then Ok (Some "ruff", in_pyproject) else
  black <-? declares pyproject "black" ;;
  if black then Ok (Some "black", in_pyproject) else
  autopep8 <-? declares pyproject "autopep8" ;;
  if autopep8 then Ok (Some "autopep8", in_pyproject) else
  let setup_cfg := _read_ini f (child root "setup.cfg") in
  if ini_has_section setup_cfg "autopep8" then Ok (Some "autopep8", [("config", "setup.cfg")]) else
  if exists_ f (child root ".style.yapf") then Ok (Some "yapf", [("config", ".style.yapf")]) else
  yapf <-? declares pyproject "yapf" ;;
  if yapf then Ok (Some "yapf", in_pyproject) else
  Ok (None, []).

(** ["I" in select or any(s.startswith("I") for s in select if isinstance(s, str))] *)
Definition selects_isort (select : value) : result bool :=
  direct <-? contains "I" select ;;
  if direct then Ok true else
  its <-? iterate select ;;
  Ok (existsb (fun s => match s with VStr x => startswith x "I" | _ => false end) its).

Definition detect_import_sorter (f : fs) (root : path) : result detection :=
  let pyproject := _read_toml f (child root "pyproject.toml") in
  ruff <-? declares pyproject "ruff" ;;
  modern <-? (if ruff then
                ruff_config <-? tool_section pyproject "ruff" ;;
                lint <-? contains "lint" ruff_config ;;
                sub <-? (if lint then
                           l <-? get ruff_config "lint" (VTable []) ;;
                           contains "isort" l
                         else Ok false) ;;
                if sub then Ok true else
                lint' <-? contains "lint" ruff_config ;;
                if lint' then
                  l <-? get ruff_config "lint" (VTable []) ;;
                  select <-? get l "select" (VList []) ;;
                  selects_isort select
                else Ok false
              else Ok false) ;;
  if modern then Ok (Some "ruff", in_pyproject) else
  if exists_ f (child root ".isort.cfg") then Ok (Some "isort", [("config", ".isort.cfg")]) else
  isort <-? declares pyproject "isort" ;;
  if isort then Ok (Some "isort", in_pyproject) else
  let setup_cfg := _read_ini f (child root "setup.cfg") in
  if ini_has_section setup_cfg "isort" then Ok (Some "isort", [("config", "setup.cfg")]) else
  Ok (None, []).

Definition detect_type_checker (f : fs) (root : path) : result detection :=
  let pyproject := _read_toml f (child root "pyproject.toml") in
  based <-? declares pyproject "basedpyright" ;;
  if based then Ok (Some "basedpyright", in_pyproject) else
  if exists_ f (child root "pyrightconfig.json") then
    Ok (Some "pyright", [("config", "pyrightconfig.json")]) else
  pyright <-? declares pyproject "pyright" ;;
  if pyright then Ok (Some "pyright", in_pyproject) else
  if exists_ f (child root "mypy.ini") then Ok (Some "mypy", [("config", "mypy.ini")]) else
  if exists_ f (child root ".mypy.ini") then Ok (Some "mypy", [("config", ".mypy.ini")]) else
  mypy <-? declares pyproject "mypy" ;;
  if mypy then Ok (Some "mypy", in_pyproject) else
  let setup_cfg := _read_ini f (child root "setup.cfg") in
  if ini_has_section setup_cfg "mypy" then Ok (Some "mypy", [("config", "setup.cfg")]) else
  if exists_ f (child root "pytype.cfg") then Ok (Some "pytype", [("config", "pytype.cfg")]) else
  Ok (None, []).

Definition detect_pre_commit (f : fs) (root : path) : bool :=
  exists_ f (child root ".pre-commit-config.yaml").

Definition is_yml (n : string) : bool :=
  endswith n ".yml" && (4 <=? String.length n)%nat.

Definition detect_ci (f : fs) (root : path) : detection :=
  let gh_workflows := child (child root ".github") "workflows" in
  let workflows := glob f gh_workflows is_yml in
  if exists_ f gh_workflows && negb (length workflows =? 0)%nat then
    (Some "github-actions", [("workflows", nat_str (length workflows))])
  else if exists_ f (child root ".gitlab-ci.yml") then
    (Some "gitlab-ci", [("config", ".gitlab-ci.yml")])
  else if exists_ f (child root ".travis.yml") then
    (Some "travis-ci", [("config", ".travis.yml")])
  else if exists_ f (child (child root ".circleci") "config.yml") then
    (Some "circleci", [("config", ".circleci/config.yml")])
  else if exists_ f (child root "azure-pipelines.yml") then
    (Some "azure-pipelines", [("config", "azure-pipelines.yml")])
  else (None, []).

(** *** Type coverage *)

Definition exclude_patterns : list string :=
  ["venv"; ".venv"; "env"; ".env"; "node_modules"; "__pycache__"; ".git";
   "build"; "dist"].

Definition is_py (n : string) : bool := endswith n ".py".

(** [any(part in exclude_patterns for part in py_file.parts)]; the parts are
    those of the whole resolved path, the root's own included. *)
Definition excluded (p : path) : bool :=
  existsb (fun part => existsb (String.eqb part) exclude_patterns) p.

Definition has_annotation (fd : funcdef) : bool :=
  if returns fd then true
  else existsb (fun a => a) (args fd ++ posonlyargs fd ++ kwonlyargs fd).

(** The loop over [python_files], carrying [(total_functions, typed_functions)]. *)
Fixpoint count_functions (f : fs) (files : list path) (total typed : nat)
  : result (nat * nat) :=
  match files with
  | [] => Ok (total, typed)
  | py_file :: rest =>
      if excluded py_file then count_functions f rest total typed
      else
        source <-? read_file f py_file ;;
        match ast_functions L source with
        | None => count_functions f rest total typed
        | Some fns =>
            count_functions f rest
              (total + length fns)
              (typed + length (List.filter has_annotation fns))
        end
  end.

(** The percentage is a Python float; it is kept here as the exact
    rational, and [100.0] as the rational 100. *)
Definition analyze_type_coverage (f : fs) (root : path) : result (Q * nat * nat) :=
  let python_files := glob_rec f root is_py in
  c <-? count_functions f python_files 0 0 ;;
  let '(total_functions, typed_functions) := c in
  if (total_functions =? 0)%nat then Ok (100%Q, 0%nat, 0%nat)
  else
    let coverage :=
      ((Z.of_nat typed_functions # Pos.of_nat total_functions) * 100)%Q in
    Ok (coverage, typed_functions, total_functions).

(** *** Recommendations *)

Definition tooling (msg : string) (sev : Severity) (act : option string)
  : Recommendation :=
  {| category := TOOLING; message := msg; severity := sev;
     file_path := None; action := act |}.

Definition is_tool (x : option string) (n : string) : bool :=
  match x with Some s => String.eqb s n | None => false end.

Definition is_none {A} (x : option A) : bool :=
  match x with Some _ => false | None => true end.

(** The seven blocks of [_generate_tooling_recommendations], one per
    category: what each appends to [result.recommendations]. *)

Definition package_manager_advice (pkg_manager : option string)
  : list Recommendation :=
  if is_tool pkg_manager "poetry" then
    [tooling "Consider migrating from Poetry to uv for faster dependency resolution"
             INFO (Some "quickforge upgrade . --from poetry")]
  else if is_tool pkg_manager "pip" then
    [tooling "Consider migrating from pip/requirements.txt to uv with pyproject.toml"
             INFO (Some "quickforge upgrade . --from pip")]
  else if is_tool pkg_manager "pipenv" then
    [tooling "Consider migrating from Pipenv to uv for better performance"
             INFO (Some "quickforge upgrade . --from pipenv")]
  else if is_tool pkg_manager "setuptools" then
    [tooling "Consider migrating from setup.py to pyproject.toml (PEP 621)"
             WARNING (Some "quickforge upgrade . --from setuptools")]
  else if is_none pkg_manager then
    [tooling "No package manager detected. Consider adding a pyproject.toml"
             WARNING None]
  else [].

Definition linter_advice (linter formatter : option string)
  : list Recommendation :=
  if is_tool linter "flake8" then
    [tooling "Consider migrating from flake8 to ruff for better performance"
             INFO (Some "quickforge upgrade . (will migrate flake8 to ruff)")]
  else if is_tool linter "pylint" then
    [tooling "Consider migrating from pylint to ruff for better performance"
             INFO (Some "quickforge upgrade . (will migrate pylint to ruff)")]
  else if is_none linter && negb (is_tool formatter "ruff") then
    [tooling "No linter detected. Consider adding ruff for code quality"
             WARNING (Some "quickforge add pre-commit (includes ruff)")]
  else [].

Definition formatter_advice (formatter : option string) : list Recommendation :=
  if is_tool formatter "black" then
    [tooling "Consider migrating from black to ruff format for better performance"
             INFO (Some "quickforge upgrade . (will migrate black to ruff)")]
  else if is_tool formatter "autopep8" then
    [tooling "Consider migrating from autopep8 to ruff format" INFO None]
  else if is_tool formatter "yapf" then
    [tooling "Consider migrating from yapf to ruff format" INFO None]
  else [].

Definition import_sorter_advice (import_sorter : option string)
  : list Recommendation :=
  if is_tool import_sorter "isort" then
    [tooling "Consider migrating from isort to ruff (handles import sorting)"
             INFO (Some "quickforge upgrade . (will migrate isort to ruff)")]
  else [].

Definition type_checker_advice (type_checker : option string)
  : list Recommendation :=
  if is_tool type_checker "mypy" then
    [tooling "Consider migrating from mypy to basedpyright for stricter checking"
             INFO (Some "quickforge upgrade . (will migrate mypy to basedpyright)")]
  else if is_tool type_checker "pytype" then
    [tooling "Consider migrating from pytype to basedpyright" INFO None]
  else if is_none type_checker then
    [tooling "No type checker detected. Consider adding basedpyright" WARNING None]
  else [].

Definition pre_commit_advice (has_pre_commit : bool) : list Recommendation :=
  if negb has_pre_commit then
    [tooling "No pre-commit hooks detected. Consider adding pre-commit"
             INFO (Some "quickforge add pre-commit")]
  else [].

Definition ci_advice (ci_system : option string) : list Recommendation :=
  if is_none ci_system then
    [tooling "No CI/CD configuration detected. Consider adding GitHub Actions"
             INFO (Some "quickforge add github-actions")]
  else [].

Definition _generate_tooling_recommendations
    (recs : list Recommendation)
    (pkg_manager linter formatter import_sorter type_checker : option string)
    (has_pre_commit : bool) (ci_system : option string)
  : list Recommendation :=
  recs ++ package_manager_advice pkg_manager
       ++ linter_advice linter formatter
       ++ formatter_advice formatter
       ++ import_sorter_advice import_sorter
       ++ type_checker_advice type_checker
       ++ pre_commit_advice has_pre_commit
       ++ ci_advice ci_system.

Definition code_quality (msg : string) (sev : Severity) : Recommendation :=
  {| category := CODE_QUALITY; message := msg; severity := sev;
     file_path := None; action := None |}.

(** [x < n] for a float [x] and an integer literal [n]. *)
Definition below_pct (x : Q) (n : Z) : bool := negb (Qle_bool (inject_Z n) x).

Definition type_coverage_advice
    (type_coverage : Q) (typed_functions total_functions : nat)
  : list Recommendation :=
  if (total_functions =? 0)%nat then []
  else if below_pct type_coverage 25 then
    [code_quality
       ("Low type annotation coverage (" +:+ fmt_0f L type_coverage +:+ "%). "
        +:+ "Only " +:+ nat_str typed_functions +:+ "/"
        +:+ nat_str total_functions +:+ " functions have type hints")
       WARNING]
  else if below_pct type_coverage 50 then
    [code_quality
       ("Moderate type annotation coverage (" +:+ fmt_0f L type_coverage +:+ "%). "
        +:+ nat_str typed_functions +:+ "/"
        +:+ nat_str total_functions +:+ " functions have type hints")
       INFO]
  else if below_pct type_coverage 80 then
    [code_quality
       ("Good type annotation coverage (" +:+ fmt_0f L type_coverage +:+ "%). "
        +:+ "Consider improving to 80%+")
       INFO]
  else [].

Definition _generate_code_quality_recommendations
    (recs : list Recommendation)
    (type_coverage : Q) (typed_functions total_functions : nat)
  : list Recommendation :=
  recs ++ type_coverage_advice type_coverage typed_functions total_functions.

(** *** Score *)

Definition penalty (s : Severity) : Z :=
  match s with
  | CRITICAL => 20
  | ERROR => 10
  | WARNING => 5
  | INFO => 1
  end.

(** The loop of [_calculate_score], from a running [score]. *)
Fixpoint deduct (score : Z) (recs : list Recommendation) : Z :=
  match recs with
  | [] => score
  | rec :: rest => deduct (score - penalty (severity rec)) rest
  end.

Definition _calculate_score (recs : list Recommendation) : Z :=
  Z.max 0 (Z.min 100 (deduct 100 recs)).

(** *** The audit *)

(** [if tool: detected[key] = tool] *)
Definition record_tool (key : string) (tool : option string)
    (detected : list (string * string)) : list (string * string) :=
  match tool with
  | Some t => if String.eqb t "" then detected else assoc_set key t detected
  | None => detected
  end.

Definition audit_project (f : fs) (root : path) : result AuditResult :=
  if negb (exists_ f root) then Raise FileNotFoundError
  else if negb (is_dir f root) then Raise NotADirectoryError
  else
    pm <-? detect_package_manager f root ;;
    li <-? detect_linter f root ;;
    fo <-? detect_formatter f root ;;
    so <-? detect_import_sorter f root ;;
    tc <-? detect_type_checker f root ;;
    let pkg_manager := fst pm in
    let linter := fst li in
    let formatter := fst fo in
    let import_sorter := fst so in
    let type_checker := fst tc in
    let has_pre_commit := detect_pre_commit f root in
    let ci_system := fst (detect_ci f root) in
    let detected := record_tool "package_manager" pkg_manager [] in
    let detected := record_tool "linter" linter detected in
    let detected := record_tool "formatter" formatter detected in
    let detected := record_tool "import_sorter" import_sorter detected in
    let detected := record_tool "type_checker" type_checker detected in
    let detected :=
      if has_pre_commit then assoc_set "pre_commit" "configured" detected
      else detected in
    let detected := record_tool "ci" ci_system detected in
    cov <-? analyze_type_coverage f root ;;
    let '(type_coverage, typed_functions, total_functions) := cov in
    let detected :=
      assoc_set "type_coverage" (fmt_0f L type_coverage +:+ "%") detected in
    let is_modern :=
      is_tool pkg_manager "uv" && is_tool linter "ruff"
      && (is_tool type_checker "basedpyright" || is_tool type_checker "pyright")
      && has_pre_commit in
    let '(detected, recs) :=
      if is_modern then (assoc_set "status" "modern" detected, [])
      else
        (detected,
         _generate_code_quality_recommendations
           (_generate_tooling_recommendations [] pkg_manager linter formatter
              import_sorter type_checker has_pre_commit ci_system)
           type_coverage typed_functions total_functions) in
    Ok {| project_path := root;
          recommendations := recs;
          score := _calculate_score recs;
          tooling_detected := detected |}.

End WithLibs.
End Auditor.

(** ** pyhatch/models.py: the project name *)

Module Models.
Import Py.

Inductive ProjectType := LIBRARY | APP | CLI | API | SCRIPT.

(** The fields of [ProjectConfig] that its validators read. The other fields
    (description, versions, license, author, tooling, output directory)
    are validated on their own and are taken as valid. *)
Record ProjectConfig := {
  name : string;
  project_type : ProjectType;
  docker : bool;
  docs : bool
}.

Definition name_char (c : ascii) : bool :=
  in_range 97 122 c || in_range 48 57 c
  || (code c =? 95)%nat || (code c =? 45)%nat.

(** The tail of [^[a-z][a-z0-9_-]*$]; [$] also matches before one final
    newline. *)
Fixpoint name_tail (s : string) : bool :=
  match s with
  | EmptyString => true
  | String c r =>
      if name_char c then name_tail r
      else (code c =? 10)%nat && String.eqb r ""
  end.

(** [re.match(r"^[a-z][a-z0-9_-]*$", v)] *)
Definition name_pattern (v : string) : bool :=
  match v with
  | EmptyString => false
  | String c r => in_range 97 122 c && name_tail r
  end.

Definition reserved : list string :=
  ["and"; "as"; "assert"; "async"; "await"; "break"; "class";
   "continue"; "def"; "del"; "elif"; "else"; "except"; "finally";
   "for"; "from"; "global"; "if"; "import"; "in"; "is"; "lambda";
   "nonlocal"; "not"; "or"; "pass"; "raise"; "return"; "try";
   "while"; "with"; "yield"; "True"; "False"; "None"].

Definition validate_project_name (v : string) : result string :=
  let v := strip (lower v) in
  if negb (name_pattern v) then Raise ValueError
  else if existsb (String.eqb v) reserved then Raise ValueError
  else Ok v.

Definition validate_config_consistency (c : ProjectConfig) : result ProjectConfig :=
  match project_type c with
  | SCRIPT =>
      if docker c then Raise ValueError
      else if docs c then Raise ValueError
      else Ok c
  | _ => Ok c
  end.

(** [ProjectConfig(name=..., project_type=..., features=...)]: the length
    bounds of the field, then the field validator, then the model
    validator. Every failure reaches the caller as a validation error, a
    [ValueError]. *)
Definition new_ProjectConfig (nm : string) (ty : ProjectType) (dk dc : bool)
  : result ProjectConfig :=
  if (String.length nm <? 1)%nat then Raise ValueError
  else if (100 <? String.length nm)%nat then Raise ValueError
  else
    v <-? validate_project_name nm ;;
    validate_config_consistency
      {| name := v; project_type := ty; docker := dk; docs := dc |}.

(** [keyword.kwlist] of the language. *)
Definition python_keywords : list string :=
  ["False"; "None"; "True"; "and"; "as"; "assert"; "async"; "await";
   "break"; "class"; "continue"; "def"; "del"; "elif"; "else"; "except";
   "finally"; "for"; "from"; "global"; "if"; "import"; "in"; "is";
   "lambda"; "nonlocal"; "not"; "or"; "pass"; "raise"; "return"; "try";
   "while"; "with"; "yield"].

End Models.

(** ** quickforge/upgrader.py *)

Module Upgrader.
Import Py St FS Ext Auditor.

Inductive SourceTool := POETRY | PIP | PIPENV | SETUPTOOLS.

Inductive MigrationType :=
| PACKAGE_MANAGER | LINTER | FORMATTER | TYPE_CHECKER | CONFIG | CI_CD.

Record MigrationStep := {
  migration_type : MigrationType;
  description : string;
  source : string;
  target : string;
  files_affected : list path;
  reversible : bool
}.

Record UpgradeResult := {
  success : bool;
  project_path : path;
  changes_made : list string;
  backup_path : option path;
  errors : list string;
  migration_steps : list MigrationStep
}.

Section WithLibs.
Context (L : Libs).

(** *** Backup *)

Definition backup_files : list string :=
  ["pyproject.toml"; "poetry.lock"; "requirements.txt"; "requirements-dev.txt";
   "setup.py"; "setup.cfg"; ".flake8"; ".isort.cfg"; "mypy.ini"; ".mypy.ini";
   "Pipfile"; "Pipfile.lock"; ".pre-commit-config.yaml"].

Definition backup_dir_of (root : path) : path :=
  child root (".quickforge_backup_" +:+ clock_stamp L).

Definition create_backup (root : path) : ST fs path :=
  let backup_dir := backup_dir_of root in
  mkdir_exist_ok backup_dir ;;
  for_each backup_files
    (fun filename =>
       present <- gets (fun f => exists_ f (child root filename)) ;;
       if present then copy2 (child root filename) (child backup_dir filename)
       else ret tt) ;;
  ret backup_dir.

(** *** Documents *)

Definition _read_toml_doc (f : fs) (p : path) : option table :=
  match f !! p with
  | Some (File c) => tomlkit_load L c
  | _ => None
  end.

Definition _write_toml_doc (p : path) (doc : table) : ST fs unit :=
  write_file p (tomlkit_dumps L doc).

(** [bool(doc)] for what a reader returned. *)
Definition nonempty (doc : option table) : option table :=
  match doc with
  | Some ((_ :: _) as t) => Some t
  | _ => None
  end.

Definition _ensure_pyproject_exists (f : fs) (root : path) : table :=
  match nonempty (_read_toml_doc f (child root "pyproject.toml")) with
  | Some doc => doc
  | None =>
      [("project", VTable [("name", VStr (name root));
                           ("version", VStr "0.1.0");
                           ("requires-python", VStr ">=3.11")]);
       ("build-system", VTable [("requires", strs ["hatchling"]);
                                ("build-backend", VStr "hatchling.build")])]
  end.

(** [if "project" not in doc: doc["project"] = tomlkit.table()] *)
Definition ensure_table (k : string) (v : value) : result value :=
  present <-? contains k v ;;
  if present then Ok v else setitem v k (VTable []).

(** *** Poetry to uv *)

(** The conversion of a version given as a string, written three times in
    the source: caret and tilde become a minimum, a leading operator is
    kept, anything else is pinned. *)
Definition pin (nm spec : string) : result string :=
  if startswith spec "^" || startswith spec "~" then
    Ok (nm +:+ ">=" +:+ tail1 spec)
  else
    c <-? head1 spec ;;
    Ok (if is_substring c "<>=!" then nm +:+ spec else nm +:+ "==" +:+ spec).

(** One turn of the loop over [poetry["dependencies"].items()]. *)
Definition dependency (deps : list string) (item : string * value)
  : result (list string) :=
  let '(nm, spec) := item in
  if String.eqb nm "python" then Ok deps
  else
    match spec with
    | VStr s => r <-? pin nm s ;; Ok (deps ++ [r])
    | VTable t =>
        match (match assoc "version" t with Some x => x | None => VStr "" end) with
        | VStr version =>
            if startswith version "^" || startswith version "~" then
              Ok (deps ++ [nm +:+ ">=" +:+ tail1 version])
            else if negb (String.eqb version "") then
              c <-? head1 version ;;
              Ok (deps ++ [if is_substring c "<>=!" then nm +:+ version
                           else nm +:+ "==" +:+ version])
            else Ok (deps ++ [nm])
        | _ => Raise AttributeError
        end
    | _ => Ok deps
    end.

(** One turn of either loop over development dependencies. *)
Definition dev_dependency (dev_deps : list string) (item : string * value)
  : result (list string) :=
  let '(nm, spec) := item in
  match spec with
  | VStr s => r <-? pin nm s ;; Ok (dev_deps ++ [r])
  | _ => Ok (dev_deps ++ [nm])
  end.

(** One turn of the loop over [poetry["authors"]]. *)
Definition author_entry (authors : list value) (author : value) : list value :=
  match author with
  | VStr a =>
      match match_author L a with
      | Some (n, e) =>
          authors ++ [VTable [("name", VStr (strip n)); ("email", VStr e)]]
      | None => authors ++ [VTable [("name", VStr a)]]
      end
  | _ => authors
  end.

(** [if k in poetry: project[k] = poetry[k]; changes.append(msg)] *)
Definition carry (poetry : value) (k : string) (msg : value -> list string)
    (st : value * list string) : result (value * list string) :=
  let '(project, changes) := st in
  present <-? contains k poetry ;;
  if present then
    x <-? getitem poetry k ;;
    project <-? setitem project k x ;;
    Ok (project, changes ++ msg x)
  else Ok st.

(** The rewriting of the document by [_migrate_poetry_to_uv], between
    reading and writing the file: [None] when there is no [tool.poetry],
    else the new document and the changes logged so far. [readme] is
    [(path / "README.md").exists()]. *)
Definition poetry_to_pep621 (readme : bool) (doc : table)
  : result (option (table * list string)) :=
  has_tool <-? contains "tool" (VTable doc) ;;
  has_poetry <-? (if has_tool then
                    tool <-? getitem (VTable doc) "tool" ;; contains "poetry" tool
                  else Ok false) ;;
  if negb has_poetry then Ok None else
  poetry <-? lookup_at ["tool"; "poetry"] (VTable doc) ;;
  doc <-? ensure_table "project" (VTable doc) ;;
  project <-? getitem doc "project" ;;
  st <-? carry poetry "name"
           (fun x => ["Migrated project name: " +:+ py_str L x]) (project, []) ;;
  st <-? carry poetry "version"
           (fun x => ["Migrated version: " +:+ py_str L x]) st ;;
  st <-? carry poetry "description" (fun _ => ["Migrated description"]) st ;;
  let '(project, changes) := st in
  has_authors <-? contains "authors" poetry ;;
  st <-? (if has_authors then
            al <-? getitem poetry "authors" ;;
            its <-? iterate al ;;
            match fold_left author_entry its [] with
            | [] => Ok (project, changes)
            | authors =>
                project <-? setitem project "authors" (VList authors) ;;
                Ok (project, changes ++ ["Migrated authors"])
            end
          else Ok (project, changes)) ;;
  let '(project, changes) := st in
  has_readme <-? contains "readme" poetry ;;
  project <-? (if has_readme then
                 x <-? getitem poetry "readme" ;; setitem project "readme" x
               else if readme then setitem project "readme" (VStr "README.md")
               else Ok project) ;;
  has_license <-? contains "license" poetry ;;
  st <-? (if has_license then
            x <-? getitem poetry "license" ;;
            project <-? setitem project "license" (VTable [("text", x)]) ;;
            Ok (project, changes ++ ["Migrated license: " +:+ py_str L x])
          else Ok (project, changes)) ;;
  st <-? carry poetry "keywords" (fun _ => ["Migrated keywords"]) st ;;
  st <-? carry poetry "classifiers" (fun _ => ["Migrated classifiers"]) st ;;
  let '(project, changes) := st in
  dv <-? get poetry "dependencies" (VTable []) ;;
  has_python <-? contains "python" dv ;;
  st <-? (if has_python then
            python_req <-? lookup_at ["dependencies"; "python"] poetry ;;
            match python_req with
            | VStr r =>
                let req := if startswith r "^" || startswith r "~"
                           then ">=" +:+ tail1 r else r in
                project <-? setitem project "requires-python" (VStr req) ;;
                Ok (project, changes ++ ["Migrated Python requirement: " +:+ req])
            | _ => Raise AttributeError
            end
          else Ok (project, changes)) ;;
  let '(project, changes) := st in
  has_deps <-? contains "dependencies" poetry ;;
  deps <-? (if has_deps then
              d <-? getitem poetry "dependencies" ;;
              its <-? items d ;;
              foldM dependency its []
            else Ok []) ;;
  st <-? (match deps with
          | [] => Ok (project, changes)
          | _ =>
              project <-? setitem project "dependencies" (strs deps) ;;
              Ok (project,
                  changes ++ ["Migrated " +:+ nat_str (length deps) +:+ " dependencies"])
          end) ;;
  let '(project, changes) := st in
  has_group <-? contains "group" poetry ;;
  has_dev <-? (if has_group then
                 g <-? getitem poetry "group" ;; contains "dev" g
               else Ok false) ;;
  dev_deps <-? (if has_dev then
                  dev_section <-? lookup_at ["group"; "dev"] poetry ;;
                  has <-? contains "dependencies" dev_section ;;
                  if has then
                    d <-? getitem dev_section "dependencies" ;;
                    its <-? items d ;;
                    foldM dev_dependency its []
                  else Ok []
                else Ok []) ;;
  has_old <-? contains "dev-dependencies" poetry ;;
  dev_deps <-? (if has_old then
                  d <-? getitem poetry "dev-dependencies" ;;
                  its <-? items d ;;
                  foldM dev_dependency its dev_deps
                else Ok dev_deps) ;;
  st <-? (match dev_deps with
          | [] => Ok (project, changes)
          | _ =>
              project <-? ensure_table "optional-dependencies" project ;;
              project <-? update_at ["optional-dependencies"] project
                            (fun od => setitem od "dev" (strs dev_deps)) ;;
              Ok (project,
                  changes ++ ["Migrated " +:+ nat_str (length dev_deps)
                              +:+ " dev dependencies"])
          end) ;;
  st <-? carry poetry "scripts" (fun _ => ["Migrated scripts/entry points"]) st ;;
  let '(project, changes) := st in
  doc <-? setitem doc "project" project ;;
  doc <-? setitem doc "build-system"
            (VTable [("requires", strs ["hatchling"]);
                     ("build-backend", VStr "hatchling.build")]) ;;
  let changes := changes ++ ["Updated build-system to use hatchling"] in
  doc <-? update_at ["tool"] doc (fun tool => delitem tool "poetry") ;;
  let changes := changes ++ ["Removed [tool.poetry] section"] in
  has_tool <-? contains "tool" doc ;;
  doc <-? (if has_tool then
             tool <-? getitem doc "tool" ;;
             n <-? len tool ;;
             if (n =? 0)%nat then delitem doc "tool" else Ok doc
           else Ok doc) ;;
  match doc with
  | VTable t => Ok (Some (t, changes))
  | _ => Raise TypeError
  end.

Definition _migrate_poetry_to_uv (root : path) (dry_run : bool)
  : ST fs (list string) :=
  let pyproject_path := child root "pyproject.toml" in
  present <- gets (fun f => exists_ f pyproject_path) ;;
  if negb present then ret ["No pyproject.toml found"] else
  doc <- gets (fun f => nonempty (_read_toml_doc f pyproject_path)) ;;
  match doc with
  | None => ret ["Could not parse pyproject.toml"]
  | Some doc =>
      readme <- gets (fun f => exists_ f (child root "README.md")) ;;
      out <- lift (poetry_to_pep621 readme doc) ;;
      match out with
      | None => ret ["No [tool.poetry] section found"]
      | Some (doc, changes) =>
          if dry_run then ret changes
          else
            _write_toml_doc pyproject_path doc ;;
            let changes := changes ++ ["Wrote updated pyproject.toml"] in
            let poetry_lock := child root "poetry.lock" in
            locked <- gets (fun f => exists_ f poetry_lock) ;;
            if locked then
              unlink poetry_lock ;;
              ret (changes ++ ["Removed poetry.lock"])
            else ret changes
      end
  end.

(** *** requirements.txt to uv *)

(** The text of a file opened with [encoding="utf-8"]. *)
Definition read_text (f : fs) (p : path) : result string :=
  raw <-? read_file f p ;;
  match utf8_decode L raw with
  | Some t => Ok t
  | None => Raise UnicodeDecodeError
  end.

(** The requirement lines kept from [requirements.txt]. *)
Definition requirement_lines (text : string) : list string :=
  List.filter (fun line =>
            negb (String.eqb line "") && negb (startswith line "#")
            && negb (startswith line "-r" || startswith line "-e"))
         (map strip (lines text)).

(** The requirement lines kept from [requirements-dev.txt]. *)
Definition dev_requirement_lines (text : string) : list string :=
  List.filter (fun line =>
            negb (String.eqb line "") && negb (startswith line "#")
            && negb (startswith line "-"))
         (map strip (lines text)).

(** [doc["project"]["optional-dependencies"]["dev"] = dev_deps], the
    sub-table being created when it is missing. *)
Definition set_dev_group (doc : value) (dev_deps : list string) : result value :=
  update_at ["project"] doc
    (fun project =>
       project <-? ensure_table "optional-dependencies" project ;;
       update_at ["optional-dependencies"] project
         (fun od => setitem od "dev" (strs dev_deps))).

Definition as_table (v : value) : result table :=
  match v with
  | VTable t => Ok t
  | _ => Raise TypeError
  end.

Definition _migrate_requirements_to_uv (root : path) (dry_run : bool)
  : ST fs (list string) :=
  let req_file := child root "requirements.txt" in
  present <- gets (fun f => exists_ f req_file) ;;
  if negb present then ret ["No requirements.txt found"] else
  text <- reads (fun f => read_text f req_file) ;;
  match requirement_lines text with
  | [] => ret ["No dependencies found in requirements.txt"]
  | deps =>
      doc <- gets (fun f => _ensure_pyproject_exists f root) ;;
      doc <- lift (ensure_table "project" (VTable doc)) ;;
      doc <- lift (update_at ["project"] doc
                     (fun project => setitem project "dependencies" (strs deps))) ;;
      let changes := ["Migrated " +:+ nat_str (length deps)
                      +:+ " dependencies from requirements.txt"] in
      let req_dev := child root "requirements-dev.txt" in
      has_dev <- gets (fun f => exists_ f req_dev) ;;
      st <- (if has_dev then
               dev_text <- reads (fun f => read_text f req_dev) ;;
               match dev_requirement_lines dev_text with
               | [] => ret (doc, changes)
               | dev_deps =>
                   doc <- lift (set_dev_group doc dev_deps) ;;
                   ret (doc, changes ++ ["Migrated " +:+ nat_str (length dev_deps)
                                         +:+ " dev dependencies from requirements-dev.txt"])
               end
             else ret (doc, changes)) ;;
      let '(doc, changes) := st in
      if dry_run then ret changes
      else
        t <- lift (as_table doc) ;;
        _write_toml_doc (child root "pyproject.toml") t ;;
        ret (changes ++ ["Wrote pyproject.toml"])
  end.

(** *** Pipenv to uv *)

(** One turn of the loops over [packages] and [dev-packages]. *)
Definition pipfile_entry (deps : list string) (item : string * value)
  : result (list string) :=
  let '(nm, spec) := item in
  match spec with
  | VStr s => Ok (deps ++ [if String.eqb s "*" then nm else nm +:+ s])
  | VTable t =>
      match assoc "version" t with
      | Some v => Ok (deps ++ [nm +:+ py_str L v])
      | None => Ok (deps ++ [nm])
      end
  | _ => Ok (deps ++ [nm])
  end.

(** [if k in pipfile_data: for name, spec in pipfile_data[k].items(): ...] *)
Definition pipfile_section (pipfile_data : table) (k : string) : result (list string) :=
  match assoc k pipfile_data with
  | Some sec => its <-? items sec ;; foldM pipfile_entry its []
  | None => Ok []
  end.

Definition toml_decode_error : exn := LibraryError "tomllib.TOMLDecodeError".

Definition _migrate_pipenv_to_uv (root : path) (dry_run : bool)
  : ST fs (list string) :=
  let pipfile := child root "Pipfile" in
  present <- gets (fun f => exists_ f pipfile) ;;
  if negb present then ret ["No Pipfile found"] else
  parsed <- gets (fun f =>
                    raw <-? read_file f pipfile ;;
                    match tomllib_load L raw with
                    | Some t => Ok t
                    | None => Raise toml_decode_error
                    end) ;;
  match parsed with
  | Raise e => ret ["Could not parse Pipfile: " +:+ str_exn L e]
  | Ok pipfile_data =>
      doc <- gets (fun f => _ensure_pyproject_exists f root) ;;
      doc <- lift (ensure_table "project" (VTable doc)) ;;
      deps <- lift (pipfile_section pipfile_data "packages") ;;
      st <- (match deps with
             | [] => ret (doc, [])
             | _ =>
                 doc <- lift (update_at ["project"] doc
                                (fun project => setitem project "dependencies" (strs deps))) ;;
                 ret (doc, ["Migrated " +:+ nat_str (length deps)
                            +:+ " dependencies from Pipfile"])
             end) ;;
      let '(doc, changes) := st in
      dev_deps <- lift (pipfile_section pipfile_data "dev-packages") ;;
      st <- (match dev_deps with
             | [] => ret (doc, changes)
             | _ =>
                 doc <- lift (set_dev_group doc dev_deps) ;;
                 ret (doc, changes ++ ["Migrated " +:+ nat_str (length dev_deps)
                                       +:+ " dev dependencies from Pipfile"])
             end) ;;
      let '(doc, changes) := st in
      pinned <- lift (match assoc "requires" pipfile_data with
                      | Some req =>
                          has <-? contains "python_version" req ;;
                          if has then
                            v <-? getitem req "python_version" ;; Ok (Some v)
                          else Ok None
                      | None => Ok None
                      end) ;;
      st <- (match pinned with
             | Some py_version =>
                 let req := ">=" +:+ py_str L py_version in
                 doc <- lift (update_at ["project"] doc
                                (fun project => setitem project "requires-python" (VStr req))) ;;
                 ret (doc, changes ++ ["Migrated Python requirement: " +:+ req])
             | None => ret (doc, changes)
             end) ;;
      let '(doc, changes) := st in
      if dry_run then ret changes
      else
        t <- lift (as_table doc) ;;
        _write_toml_doc (child root "pyproject.toml") t ;;
        ret (changes ++ ["Wrote pyproject.toml"])
  end.

(** *** setup.cfg to pyproject.toml *)

Definition has_option (cfg : ini) (section opt : string) : bool :=
  match assoc section cfg with
  | Some opts => has_key opt opts
  | None => false
  end.

(** [config.get(section, opt)] after [has_option] said yes. *)
Definition ini_get (cfg : ini) (section opt : string) : result string :=
  match assoc section cfg with
  | Some opts =>
      match assoc opt opts with
      | Some r => r
      | None => Raise (LibraryError "configparser.NoOptionError")
      end
  | None => Raise (LibraryError "configparser.NoSectionError")
  end.

(** [if config.has_option(s, o): project[k] = wrap(config.get(s, o))] *)
Definition option_to (cfg : ini) (section opt k : string)
    (wrap : string -> value) (project : value) : result value :=
  if has_option cfg section opt then
    x <-? ini_get cfg section opt ;; setitem project k (wrap x)
  else Ok project.

Definition setup_metadata (cfg : ini) (project : value) : result value :=
  project <-? option_to cfg "metadata" "name" "name" VStr project ;;
  project <-? option_to cfg "metadata" "version" "version" VStr project ;;
  project <-? option_to cfg "metadata" "description" "description" VStr project ;;
  project <-? (if has_option cfg "metadata" "author" then
                 a <-? ini_get cfg "metadata" "author" ;;
                 author <-? (if has_option cfg "metadata" "author_email" then
                               e <-? ini_get cfg "metadata" "author_email" ;;
                               Ok [("name", VStr a); ("email", VStr e)]
                             else Ok [("name", VStr a)]) ;;
                 setitem project "authors" (VList [VTable author])
               else Ok project) ;;
  option_to cfg "metadata" "license" "license"
    (fun x => VTable [("text", VStr x)]) project.

Definition newline : ascii := ascii_of_nat 10.

(** The part of [_migrate_setuptools_to_uv] inside [try], on the changes
    logged so far: what it appends before raising is kept. *)
Definition setup_cfg_body (root : path) (dry_run : bool)
  : ST (fs * list string) unit :=
  let log (msg : string) : ST (fs * list string) unit :=
    modify (fun s => (fst s, snd s ++ [msg])) in
  parsed <- gets (fun s => _read_ini L (fst s) (child root "setup.cfg")) ;;
  match parsed with
  | None => raise (LibraryError "configparser.Error")
  | Some config =>
      doc <- gets (fun s => _ensure_pyproject_exists (fst s) root) ;;
      doc <- lift (ensure_table "project" (VTable doc)) ;;
      project <- lift (getitem doc "project") ;;
      project <- (if has_key "metadata" config then
                    project <- lift (setup_metadata config project) ;;
                    log "Migrated metadata from setup.cfg" ;;
                    ret project
                  else ret project) ;;
      project <- (if has_key "options" config then
                    project <- lift (option_to config "options" "python_requires"
                                       "requires-python" VStr project) ;;
                    if has_option config "options" "install_requires" then
                      raw <- lift (ini_get config "options" "install_requires") ;;
                      let deps :=
                        List.filter (fun d => negb (String.eqb d ""))
                               (map strip (split_on newline (strip raw))) in
                      project <- lift (setitem project "dependencies" (strs deps)) ;;
                      log ("Migrated " +:+ nat_str (length deps) +:+ " dependencies") ;;
                      ret project
                    else ret project
                  else ret project) ;;
      if dry_run then ret tt
      else
        doc <- lift (setitem doc "project" project) ;;
        t <- lift (as_table doc) ;;
        zoom (_write_toml_doc (child root "pyproject.toml") t) ;;
        log "Wrote pyproject.toml"
  end.

Definition _migrate_setuptools_to_uv (root : path) (dry_run : bool)
  : ST fs (list string) :=
  fun f =>
    let setup_cfg := child root "setup.cfg" in
    let '(f', changes) :=
      if exists_ f setup_cfg then
        match setup_cfg_body root dry_run (f, []) with
        | (Ok _, s) => s
        | (Raise e, (f', changes)) =>
            (f', changes ++ ["Warning: Could not fully parse setup.cfg: " +:+ str_exn L e])
        end
      else (f, []) in
    let changes :=
      if exists_ f' (child root "setup.py") && negb (exists_ f' setup_cfg) then
        changes ++ ["Found setup.py - manual migration recommended";
                    "Tip: Run 'python setup.py egg_info' to extract metadata"]
      else changes in
    (Ok changes, f').

(** *** The document shared by the steps

    The steps after the package manager's change one in-memory document in
    place, through aliases such as [tool = doc["tool"]]; an alias is the
    list of keys that leads to it. What a step changed before raising stays
    changed. *)

Definition world : Type := fs * value.

Definition doc_read {A} (g : value -> result A) : ST world A :=
  fun w => (g (snd w), w).

Definition doc_update (g : value -> result value) : ST world unit :=
  fun w => match g (snd w) with
           | Ok d => (Ok tt, (fst w, d))
           | Raise e => (Raise e, w)
           end.

Definition fs_run {A} (m : ST fs A) : ST world A := zoom m.

(** [if k not in alias: alias[k] = tomlkit.table()] *)
Definition ensure_at (alias : list string) (k : string) : ST world unit :=
  doc_update (fun d => update_at alias d (ensure_table k)).

(** [alias[k] = x] *)
Definition set_at (alias : list string) (k : string) (x : value) : ST world unit :=
  doc_update (fun d => update_at alias d (fun v => setitem v k x)).

(** [k in alias] *)
Definition in_at (alias : list string) (k : string) : ST world bool :=
  doc_read (fun d => v <-? lookup_at alias d ;; contains k v).

(** [if k in alias: del alias[k]; changes.append(msg)] *)
Definition drop_at (alias : list string) (k msg : string) : ST world (list string) :=
  present <- in_at alias k ;;
  if present then
    doc_update (fun d => update_at alias d (fun v => delitem v k)) ;;
    ret [msg]
  else ret [].

(** [if p.exists() and not dry_run: p.unlink(); changes.append(msg)] *)
Definition remove_file (p : path) (dry_run : bool) (msg : string)
  : ST world (list string) :=
  present <- gets (fun w => exists_ (fst w) p) ;;
  if present && negb dry_run then
    fs_run (unlink p) ;;
    ret [msg]
  else ret [].

(** *** Black to ruff *)

(** [target[2]] and [target[3:]] *)
Definition third (s : string) : result string :=
  match String.get 2 s with
  | Some c => Ok (String c EmptyString)
  | None => Raise IndexError
  end.

Definition from_third (s : string) : string :=
  String.substring 3 (String.length s - 3) s.

(** [versions[-1] if isinstance(versions, list) else versions], for a
    [versions] that is true. *)
Definition last_version (versions : value) : value :=
  match versions with
  | VList l => List.last l versions
  | _ => versions
  end.

Definition _migrate_black_to_ruff (root : path) (dry_run : bool)
  : ST world (list string) :=
  ensure_at [] "tool" ;;
  black_config <- doc_read (fun d => tool <-? getitem d "tool" ;;
                                     get tool "black" (VTable [])) ;;
  ensure_at ["tool"] "ruff" ;;
  let ruff := ["tool"; "ruff"] in
  has_length <- lift (contains "line-length" black_config) ;;
  changes <- (if has_length then
                x <- lift (getitem black_config "line-length") ;;
                set_at ruff "line-length" x ;;
                ret ["Migrated line-length: " +:+ py_str L x]
              else
                present <- in_at ruff "line-length" ;;
                if present then ret []
                else
                  set_at ruff "line-length" (VInt 88) ;;
                  ret ["Set line-length to 88 (Black default)"]) ;;
  has_target <- lift (contains "target-version" black_config) ;;
  changes <- (if has_target then
                versions <- lift (getitem black_config "target-version") ;;
                if truthy versions then
                  match last_version versions with
                  | VStr target =>
                      if startswith target "py" then
                        major <- lift (third target) ;;
                        let v := "py" +:+ major +:+ from_third target in
                        set_at ruff "target-version" (VStr v) ;;
                        ret (changes ++ ["Migrated target-version: " +:+ v])
                      else ret changes
                  | _ => ret changes
                  end
                else ret changes
              else ret changes) ;;
  ensure_at ruff "format" ;;
  set_at ["tool"; "ruff"; "format"] "quote-style" (VStr "double") ;;
  has_skip <- lift (contains "skip-magic-trailing-comma" black_config) ;;
  (if has_skip then
     x <- lift (getitem black_config "skip-magic-trailing-comma") ;;
     set_at ["tool"; "ruff"; "format"] "skip-magic-trailing-comma" x
   else ret tt) ;;
  removed <- drop_at ["tool"] "black" "Removed [tool.black] section" ;;
  ret (changes ++ removed).

(** *** isort to ruff *)

(** [if isort_key in isort_config: ruff_isort[ruff_key] = isort_config[isort_key];
     changes.append(msg)] *)
Definition carry_isort (isort_config : value) (isort_key ruff_key msg : string)
  : ST world (list string) :=
  present <- lift (contains isort_key isort_config) ;;
  if present then
    x <- lift (getitem isort_config isort_key) ;;
    set_at ["tool"; "ruff"; "lint"; "isort"] ruff_key x ;;
    ret [msg]
  else ret [].

Definition _migrate_isort_to_ruff (root : path) (dry_run : bool)
  : ST world (list string) :=
  ensure_at [] "tool" ;;
  isort_config <- doc_read (fun d => tool <-? getitem d "tool" ;;
                                     get tool "isort" (VTable [])) ;;
  ensure_at ["tool"] "ruff" ;;
  ensure_at ["tool"; "ruff"] "lint" ;;
  ensure_at ["tool"; "ruff"; "lint"] "isort" ;;
  c1 <- carry_isort isort_config "known_first_party" "known-first-party"
          "Migrated known_first_party" ;;
  c2 <- carry_isort isort_config "known_third_party" "known-third-party"
          "Migrated known_third_party" ;;
  c3 <- carry_isort isort_config "known_local_folder" "known-local-folder"
          "Migrated known_local_folder" ;;
  c4 <- carry_isort isort_config "force_single_line" "force-single-line"
          "Migrated force_single_line" ;;
  c5 <- carry_isort isort_config "combine_as_imports" "combine-as-imports"
          "Migrated combine_as_imports" ;;
  let lint := ["tool"; "ruff"; "lint"] in
  has_select <- in_at lint "select" ;;
  c6 <- (if negb has_select then
           set_at lint "select" (strs ["E"; "F"; "I"]) ;;
           ret ["Added I (isort) rules to ruff lint.select"]
         else
           has_i <- in_at ["tool"; "ruff"; "lint"; "select"] "I" ;;
           if negb has_i then
             doc_update (fun d => update_at ["tool"; "ruff"; "lint"; "select"] d
                                    (fun sel => append sel (VStr "I"))) ;;
             ret ["Added I (isort) to ruff lint.select"]
           else ret []) ;;
  c7 <- drop_at ["tool"] "isort" "Removed [tool.isort] section" ;;
  c8 <- remove_file (child root ".isort.cfg") dry_run "Removed .isort.cfg file" ;;
  ret (c1 ++ c2 ++ c3 ++ c4 ++ c5 ++ c6 ++ c7 ++ c8).

(** *** flake8 to ruff *)

(** [dict(config.items("flake8"))], or [{}] when there is no such section or
    anything raised on the way. *)
Definition read_flake8 (f : fs) (p : path) : list (string * string) :=
  match f !! p with
  | Some (File c) =>
      match configparser_read L c with
      | Some cfg =>
          match assoc "flake8" cfg with
          | Some opts =>
              match foldM (fun acc (o : string * result string) =>
                             x <-? snd o ;; Ok (assoc_set (fst o) x acc)) opts [] with
              | Ok d => d
              | Raise _ => []
              end
          | None => []
          end
      | None => []
      end
  | _ => []
  end.

(** [[i.strip() for i in s.split(",") if i.strip()]] *)
Definition comma_list (s : string) : list string :=
  List.filter (fun i => negb (String.eqb i "")) (map strip (split_on "," s)).

Definition _migrate_flake8_to_ruff (root : path) (dry_run : bool)
  : ST world (list string) :=
  ensure_at [] "tool" ;;
  ensure_at ["tool"] "ruff" ;;
  ensure_at ["tool"; "ruff"] "lint" ;;
  let ruff_lint := ["tool"; "ruff"; "lint"] in
  let flake8_file := child root ".flake8" in
  flake8_config <- gets (fun w => read_flake8 (fst w) flake8_file) ;;
  c1 <- (match assoc "max-line-length" flake8_config with
         | Some m =>
             match int_of_str L m with
             | Some n =>
                 set_at ["tool"; "ruff"] "line-length" (VInt n) ;;
                 ret ["Migrated max-line-length: " +:+ m]
             | None => raise ValueError
             end
         | None => ret []
         end) ;;
  c2 <- (match assoc "ignore" flake8_config with
         | Some i =>
             let ignored := comma_list i in
             set_at ruff_lint "ignore" (strs ignored) ;;
             ret ["Migrated " +:+ nat_str (length ignored) +:+ " ignore rules"]
         | None => ret []
         end) ;;
  c3 <- (match assoc "exclude" flake8_config with
         | Some e =>
             let excluded := comma_list e in
             set_at ["tool"; "ruff"] "exclude" (strs excluded) ;;
             ret ["Migrated " +:+ nat_str (length excluded) +:+ " exclude patterns"]
         | None => ret []
         end) ;;
  has_select <- in_at ruff_lint "select" ;;
  c4 <- (if negb has_select then
           set_at ruff_lint "select" (strs ["E"; "F"; "W"]) ;;
           ret ["Added E, F, W rules to ruff lint.select"]
         else ret []) ;;
  c5 <- remove_file flake8_file dry_run "Removed .flake8 file" ;;
  ret (c1 ++ c2 ++ c3 ++ c4 ++ c5).

(** *** mypy to basedpyright *)

(** [bool(config.get(k))] *)
Definition flag (config : value) (k : string) : result bool :=
  v <-? get config k (VBool false) ;; Ok (truthy v).

Definition _migrate_mypy_to_basedpyright (root : path) (dry_run : bool)
  : ST world (list string) :=
  ensure_at [] "tool" ;;
  mypy_config <- doc_read (fun d => tool <-? getitem d "tool" ;;
                                    get tool "mypy" (VTable [])) ;;
  ensure_at ["tool"] "basedpyright" ;;
  let pyright := ["tool"; "basedpyright"] in
  strict <- lift (flag mypy_config "strict") ;;
  c1 <- (if strict then
           set_at pyright "typeCheckingMode" (VStr "strict") ;;
           ret ["Set typeCheckingMode to strict (from mypy strict)"]
         else
           warn <- lift (flag mypy_config "warn_return_any") ;;
           std <- (if warn then ret true
                   else lift (flag mypy_config "disallow_untyped_defs")) ;;
           if std then
             set_at pyright "typeCheckingMode" (VStr "standard") ;;
             ret ["Set typeCheckingMode to standard"]
           else
             set_at pyright "typeCheckingMode" (VStr "basic") ;;
             ret ["Set typeCheckingMode to basic"]) ;;
  has_version <- lift (contains "python_version" mypy_config) ;;
  c2 <- (if has_version then
           x <- lift (getitem mypy_config "python_version") ;;
           set_at pyright "pythonVersion" x ;;
           ret ["Migrated python_version: " +:+ py_str L x]
         else ret []) ;;
  ignore <- lift (flag mypy_config "ignore_missing_imports") ;;
  c3 <- (if ignore then
           set_at pyright "reportMissingImports" (VBool false) ;;
           ret ["Migrated ignore_missing_imports"]
         else ret []) ;;
  c4 <- drop_at ["tool"] "mypy" "Removed [tool.mypy] section" ;;
  c5 <- remove_file (child root "mypy.ini") dry_run "Removed mypy.ini" ;;
  c6 <- remove_file (child root ".mypy.ini") dry_run "Removed .mypy.ini" ;;
  ret (c1 ++ c2 ++ c3 ++ c4 ++ c5 ++ c6).

(** *** The plan *)

(** [tool_map.get(name)], which is also [SourceTool(name)] with its
    [ValueError] caught. *)
Definition tool_map (nm : string) : option SourceTool :=
  if String.eqb nm "poetry" then Some POETRY
  else if String.eqb nm "pip" then Some PIP
  else if String.eqb nm "pipenv" then Some PIPENV
  else if String.eqb nm "setuptools" then Some SETUPTOOLS
  else None.

Definition detect_source_tool (f : fs) (root : path) : result (option SourceTool) :=
  d <-? detect_package_manager L f root ;;
  Ok (match fst d with
      | Some pkg_manager => tool_map pkg_manager
      | None => None
      end).

Definition step (ty : MigrationType) (descr src tgt : string) (files : list path)
  : MigrationStep :=
  {| migration_type := ty; description := descr; source := src; target := tgt;
     files_affected := files; reversible := true |}.

Definition package_manager_step (root : path) (t : SourceTool) : MigrationStep :=
  match t with
  | POETRY =>
      step PACKAGE_MANAGER "Convert Poetry pyproject.toml to PEP 621 format for uv"
        "poetry" "uv" [child root "pyproject.toml"; child root "poetry.lock"]
  | PIP =>
      step PACKAGE_MANAGER "Convert requirements.txt to pyproject.toml for uv"
        "pip" "uv" [child root "requirements.txt"; child root "pyproject.toml"]
  | PIPENV =>
      step PACKAGE_MANAGER "Convert Pipfile to pyproject.toml for uv"
        "pipenv" "uv" [child root "Pipfile"; child root "pyproject.toml"]
  | SETUPTOOLS =>
      step PACKAGE_MANAGER "Convert setup.py/setup.cfg to pyproject.toml"
        "setuptools" "uv"
        [child root "setup.py"; child root "setup.cfg"; child root "pyproject.toml"]
  end.

Definition create_migration_plan (f : fs) (root : path) (from_tool : option string)
  : result (list MigrationStep) :=
  source_tool <-? (match from_tool with
                   | None => detect_source_tool f root
                   | Some t => if String.eqb t "" then detect_source_tool f root
                               else Ok (tool_map t)
                   end) ;;
  let steps := match source_tool with
               | Some t => [package_manager_step root t]
               | None => []
               end in
  formatter <-? detect_formatter L f root ;;
  let steps :=
    if is_tool (fst formatter) "black" then
      steps ++ [step FORMATTER "Migrate Black configuration to ruff format"
                  "black" "ruff" [child root "pyproject.toml"]]
    else steps in
  sorter <-? detect_import_sorter L f root ;;
  let steps :=
    if is_tool (fst sorter) "isort" then
      steps ++ [step LINTER "Migrate isort configuration to ruff lint.isort"
                  "isort" "ruff" [child root "pyproject.toml"; child root ".isort.cfg"]]
    else steps in
  linter <-? detect_linter L f root ;;
  let steps :=
    if is_tool (fst linter) "flake8" then
      steps ++ [step LINTER "Migrate flake8 configuration to ruff lint"
                  "flake8" "ruff" [child root "pyproject.toml"; child root ".flake8"]]
    else steps in
  type_checker <-? detect_type_checker L f root ;;
  let steps :=
    if is_tool (fst type_checker) "mypy" then
      steps ++ [step TYPE_CHECKER "Migrate mypy configuration to basedpyright"
                  "mypy" "basedpyright" [child root "pyproject.toml"; child root "mypy.ini"]]
    else steps in
  Ok steps.

(** *** The upgrade *)

(** [doc = _read_toml_doc(pyproject_path) or doc] *)
Definition reread (pyproject_path : path) : ST world unit :=
  fun w => match nonempty (_read_toml_doc (fst w) pyproject_path) with
           | Some t => (Ok tt, (fst w, VTable t))
           | None => (Ok tt, w)
           end.

(** The body of [try] for one step: the changes it reports. *)
Definition run_step (root : path) (dry_run : bool) (st : MigrationStep)
  : ST world (list string) :=
  let pyproject_path := child root "pyproject.toml" in
  let src := source st in
  match migration_type st with
  | PACKAGE_MANAGER =>
      if String.eqb src "poetry" then
        changes <- fs_run (_migrate_poetry_to_uv root dry_run) ;;
        reread pyproject_path ;; ret changes
      else if String.eqb src "pip" then
        changes <- fs_run (_migrate_requirements_to_uv root dry_run) ;;
        reread pyproject_path ;; ret changes
      else if String.eqb src "pipenv" then
        changes <- fs_run (_migrate_pipenv_to_uv root dry_run) ;;
        reread pyproject_path ;; ret changes
      else if String.eqb src "setuptools" then
        changes <- fs_run (_migrate_setuptools_to_uv root dry_run) ;;
        reread pyproject_path ;; ret changes
      else ret ["Unknown source tool: " +:+ src]
  | FORMATTER =>
      if String.eqb src "black" then _migrate_black_to_ruff root dry_run
      else ret []
  | LINTER =>
      if String.eqb src "isort" then _migrate_isort_to_ruff root dry_run
      else if String.eqb src "flake8" then _migrate_flake8_to_ruff root dry_run
      else ret []
  | TYPE_CHECKER =>
      if String.eqb src "mypy" then _migrate_mypy_to_basedpyright root dry_run
      else ret []
  | _ => ret []
  end.

(** The loop over the steps, on [(changes_made, errors)]. *)
Fixpoint execute (root : path) (dry_run : bool) (steps : list MigrationStep)
    (log : list string * list string) : ST world (list string * list string) :=
  match steps with
  | [] => ret log
  | st :: rest =>
      log <- try_catch
               (changes <- run_step root dry_run st ;;
                ret (fst log ++ changes, snd log))
               (fun e => ret (fst log,
                              snd log ++ ["Error during " +:+ description st
                                          +:+ ": " +:+ str_exn L e])) ;;
      execute root dry_run rest log
  end.

Definition failed (root : path) (msg : string) : UpgradeResult :=
  {| success := false; project_path := root; changes_made := [];
     backup_path := None; errors := [msg]; migration_steps := [] |}.

(** [upgrade_project] from the plan onwards: [backup_path] and [changes] are
    what the backup step left in the result. *)
Definition migrate (root : path) (from_tool : option string) (dry_run : bool)
    (backup_path : option path) (changes : list string) : ST fs UpgradeResult :=
  steps <- reads (fun f => create_migration_plan f root from_tool) ;;
  match steps with
  | [] =>
      ret {| success := true; project_path := root;
             changes_made :=
               changes ++ ["No migrations needed - project may already use modern tooling"];
             backup_path := backup_path; errors := []; migration_steps := [] |}
  | _ =>
      let pyproject_path := child root "pyproject.toml" in
      fun f =>
        let doc := match nonempty (_read_toml_doc f pyproject_path) with
                   | Some t => VTable t
                   | None => VTable []
                   end in
        match execute root dry_run steps (changes, []) (f, doc) with
        | (Raise e, (f, _)) => (Raise e, f)
        | (Ok (changes, errors), (f, doc)) =>
            let finish (changes : list string) :=
              {| success := (length errors =? 0)%nat; project_path := root;
                 changes_made := changes; backup_path := backup_path;
                 errors := errors; migration_steps := steps |} in
            if negb dry_run && truthy doc then
              match as_table doc with
              | Ok t =>
                  match _write_toml_doc pyproject_path t f with
                  | (Ok _, f) =>
                      (Ok (finish (changes ++ ["Wrote updated pyproject.toml"])), f)
                  | (Raise e, f) => (Raise e, f)
                  end
              | Raise e => (Raise e, f)
              end
            else (Ok (finish changes), f)
        end
  end.

Definition upgrade_project (root : path) (from_tool : option string)
    (dry_run backup : bool) : ST fs UpgradeResult :=
  present <- gets (fun f => exists_ f root) ;;
  if negb present then
    ret (failed root ("Path does not exist: " +:+ path_str root)) else
  directory <- gets (fun f => is_dir f root) ;;
  if negb directory then
    ret (failed root ("Path is not a directory: " +:+ path_str root)) else
  saved <- (if backup && negb dry_run then
              b <- create_backup root ;;
              ret (Some b, ["Created backup at " +:+ path_str b])
            else ret (None, [])) ;;
  migrate root from_tool dry_run (fst saved) (snd saved).

End WithLibs.
End Upgrader.

(** ** A small concrete setting

    A stand-in for the libraries that knows a handful of files, and the
    project trees built from them; the general statements below are
    instantiated on these. *)

Module Sample.
Import Py St FS Ext.

Definition modern_toml : string :=
"[project]
name = 'demo'

[tool.ruff]
line-length = 88

[tool.basedpyright]
typeCheckingMode = 'standard'
".

Definition modern_doc : table :=
  [("project", VTable [("name", VStr "demo")]);
   ("tool", VTable [("ruff", VTable [("line-length", VInt 88)]);
                    ("basedpyright", VTable [("typeCheckingMode", VStr "standard")])])].

(** The modern manifest with a left-over Black section. *)
Definition black_toml : string :=
"[tool.ruff]
target-version = 'py311'

[tool.basedpyright]
typeCheckingMode = 'standard'

[tool.black]
line-length = 100
".

Definition black_doc : table :=
  [("tool", VTable [("ruff", VTable [("target-version", VStr "py311")]);
                    ("basedpyright", VTable [("typeCheckingMode", VStr "standard")]);
                    ("black", VTable [("line-length", VInt 100)])])].

(** A manifest whose ruff rule selection is a number. *)
Definition odd_select_toml : string :=
"[tool.ruff.lint]
select = 5

[tool.basedpyright]
".

Definition odd_select_doc : table :=
  [("tool", VTable [("ruff", VTable [("lint", VTable [("select", VInt 5)])]);
                    ("basedpyright", VTable [])])].

(** A Poetry manifest whose one dependency is the interpreter. *)
Definition poetry_python_toml : string :=
"[tool.poetry]
name = 'demo'
version = '0.1.0'

[tool.poetry.dependencies]
python = '^3.11'

[tool.poetry.group.dev.dependencies]
pytest = '^7.0'
".

Definition poetry_section (dep spec : string) : value :=
  VTable [("name", VStr "demo");
          ("version", VStr "0.1.0");
          ("dependencies", VTable [(dep, VStr spec)]);
          ("group", VTable [("dev",
             VTable [("dependencies", VTable [("pytest", VStr "^7.0")])])])].

Definition poetry_python_doc : table :=
  [("tool", VTable [("poetry", poetry_section "python" "^3.11")])].

(** The same manifest with a library as its one dependency. *)
Definition poetry_requests_toml : string :=
"[tool.poetry]
name = 'demo'
version = '0.1.0'

[tool.poetry.dependencies]
requests = '^2.28'

[tool.poetry.group.dev.dependencies]
pytest = '^7.0'
".

Definition poetry_requests_doc : table :=
  [("tool", VTable [("poetry", poetry_section "requests" "^2.28")])].

(** A manifest in which [ruff] is a number under [tool]. *)
Definition odd_ruff_toml : string :=
"[tool]
ruff = 5

[tool.basedpyright]
".

Definition odd_ruff_doc : table :=
  [("tool", VTable [("ruff", VInt 5); ("basedpyright", VTable [])])].

(** A Poetry manifest whose dev dependency has an empty specification. *)
Definition poetry_empty_spec_doc : table :=
  [("tool", VTable [("poetry",
      VTable [("name", VStr "demo");
              ("version", VStr "0.1.0");
              ("dependencies", VTable [("requests", VStr "^2.28")]);
              ("group", VTable [("dev",
                 VTable [("dependencies", VTable [("pytest", VStr "")])])])])])].

(** A Poetry manifest with a top-level [project] that is not a table. *)
Definition poetry_odd_project_doc : table :=
  [("project", VStr "demo");
   ("tool", VTable [("poetry", poetry_section "requests" "^2.28")])].

Definition known_documents : list (string * table) :=
  [(modern_toml, modern_doc);
   (black_toml, black_doc);
   (odd_select_toml, odd_select_doc);
   (odd_ruff_toml, odd_ruff_doc);
   (poetry_python_toml, poetry_python_doc);
   (poetry_requests_toml, poetry_requests_doc)].

Definition plain_source : string := "def f(x): return x".
Definition typed_source : string := "def g(x: int) -> int: return x".

Definition known_sources : list (string * list funcdef) :=
  [("", []);
   (plain_source,
    [{| returns := false; args := [false]; posonlyargs := []; kwonlyargs := [] |}]);
   (typed_source,
    [{| returns := true; args := [true]; posonlyargs := []; kwonlyargs := [] |}])].

Definition libs : Libs :=
  {| tomllib_load := fun c => assoc c known_documents;
     tomlkit_load := fun c => assoc c known_documents;
     tomlkit_dumps := fun t => join "," (map fst t);
     configparser_read := fun _ => Some [];
     ast_functions := fun c => assoc c known_sources;
     utf8_decode := fun c => Some c;
     fmt_0f := fun q => nat_str (Z.to_nat ((2 * Qnum q + Zpos (Qden q))
                                            / (2 * Zpos (Qden q))));
     repr_value := fun _ => "<value>";
     str_exn := fun _ => "<exception>";
     int_of_str := fun _ => None;
     match_author := fun _ => None;
     clock_stamp := "20250101_120000" |}.

Definition root : path := ["home"; "demo"].

Definition tree (entries : list (string * node)) : fs :=
  list_to_map (([], Dir) :: (["home"], Dir) :: (root, Dir)
               :: map (fun e => (child root (fst e), snd e)) entries).

(** The tree of the plan-emptiness property. *)
Definition modern_tree : fs :=
  tree [("uv.lock", File ""); ("pyproject.toml", File modern_toml);
        (".pre-commit-config.yaml", File "repos: []")].

Definition black_tree : fs :=
  tree [("uv.lock", File ""); ("pyproject.toml", File black_toml);
        (".pre-commit-config.yaml", File "repos: []")].


Definition odd_ruff_tree : fs :=
  tree [("uv.lock", File ""); ("pyproject.toml", File odd_ruff_toml);
        (".pre-commit-config.yaml", File "repos: []")].

(** The modern tree with a directory whose name ends in [.py]. *)
Definition modern_vendored_tree : fs :=
  tree [("uv.lock", File ""); ("pyproject.toml", File modern_toml);
        (".pre-commit-config.yaml", File "repos: []"); ("discord.py", Dir)].

(** The modern tree with a left-over isort file. *)
Definition isort_tree : fs :=
  tree [("uv.lock", File ""); ("pyproject.toml", File modern_toml);
        (".pre-commit-config.yaml", File "repos: []"); (".isort.cfg", File "[settings]")].

(** The modern tree with a regular file where the backup directory goes. *)
Definition occupied_tree : fs :=
  tree [("uv.lock", File ""); ("pyproject.toml", File modern_toml);
        (".quickforge_backup_20250101_120000", File "")].


(** A legacy project: requirements file, flake8, one untyped function. *)
Definition legacy_tree : fs :=
  tree [("requirements.txt", File "requests>=2.28");
        (".flake8", File "[flake8]");
        ("app.py", File plain_source)].

Definition poetry_tree : fs :=
  tree [("pyproject.toml", File poetry_requests_toml); ("poetry.lock", File "")].

(** A project in which [setup.cfg] is a directory. *)
Definition odd_setup_tree : fs :=
  tree [("pyproject.toml", File modern_toml); ("setup.cfg", Dir);
        (".pre-commit-config.yaml", File "repos: []")].

End Sample.

(** ** The vocabulary of the properties *)

Module Props.
Import Py St FS Ext Auditor.
Local Open Scope Z_scope.

(** The deductions of a list of severities, added up. *)
Fixpoint penalty_sum (l : list Severity) : Z :=
  match l with
  | [] => 0
  | s :: r => penalty s + penalty_sum r
  end.

Definition clamp (z : Z) : Z := Z.max 0 (Z.min 100 z).

Definition low_severity (r : Recommendation) : Prop :=
  severity r = INFO \/ severity r = WARNING.



(** A detector came back with this tool. *)
Definition detects (r : result detection) (tool : string) : Prop :=
  exists evidence, r = Ok (Some tool, evidence).

(** A detector came back, and not with this tool. *)
Definition detects_other (r : result detection) (tool : string) : Prop :=
  exists t evidence, r = Ok (t, evidence) /\ t <> Some tool.

(** The files a migration may rewrite or delete. *)
Definition migrated (root : path) : list path :=
  map (child root)
      ["pyproject.toml"; "poetry.lock"; ".isort.cfg"; ".flake8"; "mypy.ini"; ".mypy.ini"].

(** [f'] is [f] except perhaps at the migrated files, and is [f] throughout
    in a dry run. *)
Definition frame (dry_run : bool) (root : path) (f f' : fs) : Prop :=
  forall p, dry_run = true \/ ~ In p (migrated root) -> f' !! p = f !! p.

(** A computation whose state holds the file system at [proj] respects the
    frame, whether it returns or raises. *)
Definition keeps {S A : Type} (proj : S -> fs) (dry_run : bool) (root : path)
    (m : ST S A) : Prop :=
  forall s, frame dry_run root (proj s) (proj (snd (m s))).


(** The well-known configuration names that exist in the project are
    regular files. *)
Definition config_files_regular (f : fs) (root : path) : Prop :=
  forall n, In n Upgrader.backup_files -> f !! child root n <> Some Dir.

(** Nothing stands in the way of the backup directory: its path is free or
    a directory, and no well-known name inside it is a directory. *)
Definition backup_location_usable (L : Libs) (f : fs) (root : path) : Prop :=
  (forall c, f !! Upgrader.backup_dir_of L root <> Some (File c))
  /\ (forall n, In n Upgrader.backup_files ->
                f !! child (Upgrader.backup_dir_of L root) n <> Some Dir).

(** The manifest of the project has sections [tool.ruff] and
    [tool.basedpyright]. *)
Definition modern_manifest (L : Libs) (f : fs) (root : path) : Prop :=
  exists doc tool ruff based,
    _read_toml L f (child root "pyproject.toml") = Some doc
    /\ assoc "tool" doc = Some (VTable tool)
    /\ assoc "ruff" tool = Some (VTable ruff)
    /\ assoc "basedpyright" tool = Some (VTable based).




End Props.

(** ** pyhatch/models.py: the computed properties of a configuration *)

Module Layout.
Import Py FS Models.

(** [self in {LIBRARY, CLI, API}] *)
Definition uses_src_layout (t : ProjectType) : bool :=
  match t with
  | LIBRARY | CLI | API => true
  | APP | SCRIPT => false
  end.

(** [s.replace(a, b)] for two one-character strings. *)
Fixpoint replace_char (a b : ascii) (s : string) : string :=
  match s with
  | EmptyString => EmptyString
  | String c r =>
      String (if Ascii.eqb c a then b else c) (replace_char a b r)
  end.

(** [self.name.replace("-", "_")] *)
Definition package_name (c : ProjectConfig) : string :=
  replace_char "-" "_" (Models.name c).

(** The relative path of the source directory, as its components. *)
Definition get_src_path (c : ProjectConfig) : path :=
  if uses_src_layout (project_type c) then ["src"; package_name c]
  else [package_name c].

Definition get_test_path (c : ProjectConfig) : path := ["tests"].

End Layout.

(** ** quickforge/generator.py: the directories of a new project *)

Module Generator.
Import Py St FS Models Layout.

(** What [create_directory_structure] reads of a [ProjectConfig]: the
    validated fields above, two more feature flags and the output
    directory. The configuration is the [ProjectConfig] that
    [pyhatch/models.py] defines; its two layouts are the ones that the
    function documents, [src/package_name] and [package_name] beside
    [tests]. *)
Record Target := {
  config : ProjectConfig;
  github_actions : bool;
  vscode : bool;
  output_dir : path
}.

(** [self.output_dir / self.name] *)
Definition project_dir (t : Target) : path :=
  child (output_dir t) (Models.name (config t)).

(** [os.mkdir(p)] *)
Definition os_mkdir (p : path) : ST fs unit :=
  fun f =>
    match f !! p with
    | Some _ => (Raise FileExistsError, f)
    | None =>
        match check_parent f p with
        | Ok _ => (Ok tt, <[p := Dir]> f)
        | Raise e => (Raise e, f)
        end
    end.

(** [p.mkdir(parents=False, exist_ok=exist_ok)] *)
Definition mkdir (p : path) (exist_ok : bool) : ST fs unit :=
  fun f =>
    match os_mkdir p f with
    | (Ok _, f') => (Ok tt, f')
    | (Raise FileNotFoundError, _) => (Raise FileNotFoundError, f)
    | (Raise e, _) => if exist_ok && is_dir f p then (Ok tt, f) else (Raise e, f)
    end.

(** [p.mkdir(parents=True, exist_ok=exist_ok)], for a path of [n]
    components: a missing parent is made first, with its own parents, and
    the root has no parent to make. *)
Fixpoint mkdir_parents (n : nat) (p : path) (exist_ok : bool) : ST fs unit :=
  fun f =>
    match os_mkdir p f with
    | (Ok _, f') => (Ok tt, f')
    | (Raise FileNotFoundError, _) =>
        match n with
        | O => (Raise FileNotFoundError, f)
        | S n' =>
            match mkdir_parents n' (parent p) true f with
            | (Ok _, f1) => mkdir p exist_ok f1
            | (Raise e, f1) => (Raise e, f1)
            end
        end
    | (Raise e, _) => if exist_ok && is_dir f p then (Ok tt, f) else (Raise e, f)
    end.

(** [p.mkdir(parents=True)] *)
Definition mkdir_p (p : path) : ST fs unit := mkdir_parents (length p) p false.

(** [if flag: d.mkdir(parents=True); created_dirs.append(d)] *)
Definition optional_dir (flag : bool) (d : path) (created_dirs : list path)
  : ST fs (list path) :=
  if flag then mkdir_p d ;; ret (created_dirs ++ [d]) else ret created_dirs.

Definition create_directory_structure (t : Target) : ST fs (list path) :=
  let project_dir := project_dir t in
  present <- gets (fun f => exists_ f project_dir) ;;
  if present then raise FileExistsError else
  mkdir_p project_dir ;;
  let created_dirs := [project_dir] in
  let src_path := project_dir ++ get_src_path (config t) in
  mkdir_p src_path ;;
  let created_dirs := created_dirs ++ [src_path] in
  let tests_path := project_dir ++ get_test_path (config t) in
  mkdir_p tests_path ;;
  let created_dirs := created_dirs ++ [tests_path] in
  created_dirs <- optional_dir (github_actions t)
                    (child (child project_dir ".github") "workflows") created_dirs ;;
  created_dirs <- optional_dir (vscode t) (child project_dir ".vscode") created_dirs ;;
  optional_dir (docs (config t)) (child project_dir "docs") created_dirs.

End Generator.

(** ** More concrete projects *)

Module Cases.
Import Py St FS Ext Models.

(** A manifest that configures Black and nothing else. *)
Definition black_only_toml : string :=
"[tool.black]
".

Definition black_only_doc : table := [("tool", VTable [("black", VTable [])])].

Definition documents : list (string * table) :=
  (black_only_toml, black_only_doc) :: Sample.known_documents.

(** The libraries of [Sample], knowing one more manifest. *)
Definition libs : Libs :=
  {| tomllib_load := fun c => assoc c documents;
     tomlkit_load := fun c => assoc c documents;
     tomlkit_dumps := tomlkit_dumps Sample.libs;
     configparser_read := configparser_read Sample.libs;
     ast_functions := ast_functions Sample.libs;
     utf8_decode := utf8_decode Sample.libs;
     fmt_0f := fmt_0f Sample.libs;
     repr_value := repr_value Sample.libs;
     str_exn := str_exn Sample.libs;
     int_of_str := int_of_str Sample.libs;
     match_author := match_author Sample.libs;
     clock_stamp := clock_stamp Sample.libs |}.

(** A project with none of the modern tools: Black, an isort file, one
    function without annotations. *)
Definition neglected_tree : fs :=
  Sample.tree [("pyproject.toml", File black_only_toml);
               (".isort.cfg", File "[settings]");
               ("app.py", File Sample.plain_source)].

(** A project that lives in a directory called [build]. *)
Definition build_root : path := ["home"; "build"].

Definition build_tree : fs :=
  list_to_map [([], Dir); (["home"], Dir); (build_root, Dir);
               (child build_root "app.py", File Sample.plain_source)].

(** A project with one annotated and one plain function. *)
Definition half_typed_tree : fs :=
  Sample.tree [("a.py", File Sample.plain_source);
               ("b.py", File Sample.typed_source)].

(** An empty home directory, and two projects to generate in it. *)
Definition home : fs := list_to_map [([], Dir); (["home"], Dir)].

Definition library_target : Generator.Target :=
  {| Generator.config :=
       {| name := "my-lib"; project_type := LIBRARY; docker := false; docs := true |};
     Generator.github_actions := true;
     Generator.vscode := true;
     Generator.output_dir := ["home"] |}.

Definition tests_target : Generator.Target :=
  {| Generator.config :=
       {| name := "tests"; project_type := APP; docker := false; docs := false |};
     Generator.github_actions := true;
     Generator.vscode := true;
     Generator.output_dir := ["home"] |}.

(** An application called [docs], with or without its documentation. *)
Definition docs_target (with_docs : bool) : Generator.Target :=
  {| Generator.config :=
       {| name := "docs"; project_type := APP; docker := false; docs := with_docs |};
     Generator.github_actions := false;
     Generator.vscode := false;
     Generator.output_dir := ["home"] |}.

(** A project with nothing but its setup script. *)
Definition setup_py_tree : fs :=
  Sample.tree [("setup.py", File "from setuptools import setup")].

(** The empty project with one more file in it. *)
Definition with_file (n c : string) : fs :=
  <[child Sample.root n := File c]> (Sample.tree []).

Definition strict_mypy_ini : string :=
"[mypy]
strict = True
".

Definition isort_cfg : string :=
"[settings]
known_first_party = demo
".

Definition flake8_section : string :=
"[flake8]
max-line-length = 100
".

(** Projects with a GitHub workflow: one named [ci.yml], one [ci.yaml]. *)
Definition workflows : path := child (child Sample.root ".github") "workflows".

Definition ci_tree (n : string) : fs :=
  <[child workflows n := File "on: push"]>
    (<[workflows := Dir]> (Sample.tree [(".github", Dir)])).

End Cases.

(** ** The vocabulary of the invariants *)

Module Invariants.
Import Py St FS Ext Auditor Upgrader Props Layout Generator.
Local Open Scope Z_scope.

(** *** The audit *)

(** What a list of recommendations takes off the score. *)
Definition cost (l : list Recommendation) : Z := penalty_sum (map severity l).

(** The manifest is missing, unreadable, or has no [tool] entry. *)
Definition no_tool_table (L : Libs) (f : fs) (root : path) : Prop :=
  match _read_toml L f (child root "pyproject.toml") with
  | None => True
  | Some t => assoc "tool" t = None
  end.

(** An entry of the directory [d] whose name ends in [.yml]. *)
Definition yml_entry (f : fs) (d p : path) : Prop :=
  is_Some (f !! p) /\ p <> [] /\ parent p = d /\ endswith (FS.name p) ".yml" = true.

(** *** The plan and its execution *)


Definition is_package_manager_step (s : MigrationStep) : bool :=
  match migration_type s with PACKAGE_MANAGER => true | _ => false end.


(** An error message of the loop over the steps. *)
Definition step_error (L : Libs) (steps : list MigrationStep) (msg : string) : Prop :=
  exists st e, In st steps
               /\ msg = "Error during " +:+ description st +:+ ": " +:+ str_exn L e.

(** *** What is touched *)

(** [p] is [d] or lies below it. *)
Definition inside (d p : path) : Prop := exists rest, p = d ++ rest.

(** A computation on the file system that leaves every path outside [P] as
    it was, whether it returns or raises. *)
Definition changes_only {A : Type} (P : path -> Prop) (m : ST fs A) : Prop :=
  forall (f : fs) (p : path), ~ P p -> snd (m f) !! p = f !! p.

(** Two file systems that hold the same entries, except perhaps for the
    content of the regular files at [ps]. *)
Definition same_but_content (ps : list path) (f1 f2 : fs) : Prop :=
  forall p, f1 !! p = f2 !! p
            \/ (In p ps /\ exists c1 c2, f1 !! p = Some (File c1)
                                         /\ f2 !! p = Some (File c2)).

(** Two file systems that hold the same at [p]. *)
Definition same_at (p : path) (f1 f2 : fs) : Prop := f1 !! p = f2 !! p.

Definition related (R : fs -> fs -> Prop) (w1 w2 : world) : Prop :=
  R (fst w1) (fst w2) /\ snd w1 = snd w2.

(** A migration that cannot tell related file systems apart: it returns or
    raises the same, and leaves the same document and file systems that
    are still related. *)
Definition blind {A : Type} (R : fs -> fs -> Prop) (m : ST world A) : Prop :=
  forall w1 w2, related R w1 w2 ->
                fst (m w1) = fst (m w2) /\ related R (snd (m w1)) (snd (m w2)).

(** A step that leaves the file system alone. *)
Definition doc_only {A : Type} (m : ST world A) : Prop :=
  forall w, fst (snd (m w)) = fst w.

(** [Q] holds of the file system in which [m], started in [f], returns. *)
Definition after {A : Type} (m : ST world A) (f : fs) (Q : fs -> Prop) : Prop :=
  forall d a w', m (f, d) = (Ok a, w') -> Q (fst w').

(** *** Requirements *)

(** A requirement produced for one of the entries [its]: it starts with the
    name of an entry that is not the interpreter. *)
Definition names_entry (its : list (string * value)) (req : string) : Prop :=
  exists nm spec, In (nm, spec) its /\ nm <> "python" /\ startswith req nm = true.

(** What the development requirements file contributes: nothing when it is
    missing. *)
Definition dev_requirements (L : Libs) (f : fs) (root : path)
  : result (list string) :=
  if exists_ f (child root "requirements-dev.txt") then
    text <-? read_text L f (child root "requirements-dev.txt") ;;
    Ok (dev_requirement_lines text)
  else Ok [].

(** The manifest of a project that had none: the skeleton of
    [_ensure_pyproject_exists] with the dependencies in it. *)
Definition fresh_manifest (root : path) (deps dev_deps : list string) : table :=
  [("project",
    VTable ([("name", VStr (FS.name root));
             ("version", VStr "0.1.0");
             ("requires-python", VStr ">=3.11");
             ("dependencies", strs deps)]
            ++ match dev_deps with
               | [] => []
               | _ => [("optional-dependencies", VTable [("dev", strs dev_deps)])]
               end));
   ("build-system", VTable [("requires", strs ["hatchling"]);
                            ("build-backend", VStr "hatchling.build")])].

(** *** Names *)

Fixpoint all_chars (P : ascii -> bool) (s : string) : bool :=
  match s with
  | EmptyString => true
  | String c r => P c && all_chars P r
  end.

(** [a-z], [0-9] and the underscore. *)
Definition identifier_char (c : ascii) : bool :=
  in_range 97 122 c || in_range 48 57 c || (code c =? 95)%nat.

(** A letter followed by characters that satisfy [P]. *)
Definition letter_then (P : ascii -> bool) (s : string) : bool :=
  match s with
  | EmptyString => false
  | String c r => in_range 97 122 c && all_chars P r
  end.

(** The last character of [s] is white space. *)
Fixpoint ends_with_space (s : string) : bool :=
  match s with
  | EmptyString => false
  | String c EmptyString => is_space c
  | String _ r => ends_with_space r
  end.

(** *** Generated directories *)

Definition optional (flag : bool) (d : path) : list path :=
  if flag then [d] else [].

(** The directories of a project, in the order they are made. *)
Definition planned_dirs (t : Target) : list path :=
  let pd := project_dir t in
  [pd; pd ++ get_src_path (config t); pd ++ get_test_path (config t)]
  ++ optional (github_actions t) (child (child pd ".github") "workflows")
  ++ optional (vscode t) (child pd ".vscode")
  ++ optional (Models.docs (config t)) (child pd "docs").

(** The output directory is there and nothing is in the way of the project. *)
Definition fresh_location (f : fs) (t : Target) : Prop :=
  f !! output_dir t = Some Dir
  /\ forall p, inside (project_dir t) p -> f !! p = None.

(** In the flat layout the package directory stands beside the others. *)
Definition clashes (t : Target) : bool :=
  negb (uses_src_layout (Models.project_type (config t)))
  && (String.eqb (package_name (config t)) "tests"
      || (Models.docs (config t) && String.eqb (package_name (config t)) "docs")).

End Invariants.

(** ** Dictionaries *)

Module DictFacts.
Import Py.

Lemma assoc_set_eq {A} k (v : A) t : assoc k (assoc_set k v t) = Some v.
Proof.
  induction t as [|[k' v'] t IH]; simpl.
  - rewrite String.eqb_refl. reflexivity.
  - destruct (String.eqb k k') eqn:E; simpl.
    + rewrite String.eqb_refl. reflexivity.
    + rewrite E. exact IH.
Qed.

Lemma assoc_set_ne {A} k k' (v : A) t :
  String.eqb k k' = false -> assoc k (assoc_set k' v t) = assoc k t.
Proof.
  intros Hne. induction t as [|[k0 v0] t IH]; simpl.
  - rewrite Hne. reflexivity.
  - destruct (String.eqb k' k0) eqn:E; simpl.
    + apply String.eqb_eq in E. subst k0. rewrite Hne. reflexivity.
    + destruct (String.eqb k k0); [reflexivity|exact IH].
Qed.





Lemma prefix_app (a b : string) : String.prefix a (a +:+ b) = true.
Proof.
  induction a as [|c a IH]; simpl.
  - destruct b; reflexivity.
  - destruct (ascii_dec c c); [exact IH|congruence].
Qed.

Lemma prefix_refl (a : string) : String.prefix a a = true.
Proof.
  induction a as [|c a IH]; simpl; [reflexivity|].
  destruct (ascii_dec c c); [exact IH|congruence].
Qed.

End DictFacts.

(** ** Properties of the audit *)

Module AuditorProps.
Import Py St FS Ext Auditor Props DictFacts.
Local Open Scope Z_scope.

Lemma deduct_penalty_sum recs : forall s,
  deduct s recs = s - penalty_sum (map severity recs).
Proof.
  induction recs as [|r recs IH]; intros s; simpl.
  - lia.
  - rewrite IH. lia.
Qed.

Lemma penalty_sum_counts recs :
  penalty_sum (map severity recs)
  = 20 * Z.of_nat (count_severity CRITICAL recs)
    + 10 * Z.of_nat (count_severity ERROR recs)
    + 5 * Z.of_nat (count_severity WARNING recs)
    + 1 * Z.of_nat (count_severity INFO recs).
Proof.
  unfold count_severity.
  induction recs as [|r recs IH]; simpl; [reflexivity|].
  rewrite IH. destruct (severity r); simpl; lia.
Qed.

Lemma penalty_sum_perm l1 l2 :
  Permutation l1 l2 -> penalty_sum l1 = penalty_sum l2.
Proof.
  induction 1; simpl; lia.
Qed.

Lemma score_bounds recs : 0 <= _calculate_score recs <= 100.
Proof. unfold _calculate_score. lia. Qed.

Lemma score_by_counts recs :
  _calculate_score recs
  = clamp (100 - 20 * Z.of_nat (count_severity CRITICAL recs)
               - 10 * Z.of_nat (count_severity ERROR recs)
               - 5 * Z.of_nat (count_severity WARNING recs)
               - 1 * Z.of_nat (count_severity INFO recs)).
Proof.
  unfold _calculate_score, clamp.
  rewrite deduct_penalty_sum, penalty_sum_counts. f_equal. f_equal. lia.
Qed.

(** What [audit_project] returns is assembled from the detectors it ran. *)
Lemma audit_project_inv L f root r :
  audit_project L f root = Ok r ->
  exists pm li fo so tc cov ty tot,
    detect_package_manager L f root = Ok pm
    /\ detect_linter L f root = Ok li
    /\ detect_formatter L f root = Ok fo
    /\ detect_import_sorter L f root = Ok so
    /\ detect_type_checker L f root = Ok tc
    /\ analyze_type_coverage L f root = Ok (cov, ty, tot)
    /\ score r = _calculate_score (recommendations r)
    /\ (is_tool (fst pm) "uv" && is_tool (fst li) "ruff"
        && (is_tool (fst tc) "basedpyright" || is_tool (fst tc) "pyright")
        && detect_pre_commit f root = true ->
        recommendations r = []
        /\ assoc "status" (tooling_detected r) = Some "modern")
    /\ (is_tool (fst pm) "uv" && is_tool (fst li) "ruff"
        && (is_tool (fst tc) "basedpyright" || is_tool (fst tc) "pyright")
        && detect_pre_commit f root = false ->
        recommendations r =
          _generate_code_quality_recommendations L
            (_generate_tooling_recommendations [] (fst pm) (fst li) (fst fo)
               (fst so) (fst tc) (detect_pre_commit f root) (fst (detect_ci f root)))
            cov ty tot).
Proof.
  unfold audit_project. intros H.
  destruct (exists_ f root); simpl in H; [|discriminate].
  destruct (is_dir f root); simpl in H; [|discriminate].
  destruct (detect_package_manager L f root) as [pm|]; simpl in H; [|discriminate].
  destruct (detect_linter L f root) as [li|]; simpl in H; [|discriminate].
  destruct (detect_formatter L f root) as [fo|]; simpl in H; [|discriminate].
  destruct (detect_import_sorter L f root) as [so|]; simpl in H; [|discriminate].
  destruct (detect_type_checker L f root) as [tc|]; simpl in H; [|discriminate].
  destruct (analyze_type_coverage L f root) as [[[cov ty] tot]|]; simpl in H;
    [|discriminate].
  exists pm, li, fo, so, tc, cov, ty, tot.
  repeat (split; [reflexivity|]).
  match type of H with
  | context [if ?c then _ else _] => destruct c
  end; inversion H; subst r; clear H; simpl.
  - split; [reflexivity|]. split; [|discriminate].
    intros _. split; [reflexivity|]. apply assoc_set_eq.
  - split; [reflexivity|]. split; [discriminate|]. intros _. reflexivity.
Qed.

(** *** Score *)

(** C3. The score is 100 minus 20 per critical, 10 per error, 5 per warning
    and 1 per info recommendation, clamped to [0,100]; so every result of
    [audit_project] has a score between 0 and 100; and two lists of
    recommendations with the same severities, in whatever order, have the
    same score. *)
Theorem score_formula_bounds_order :
  (forall recs,
     _calculate_score recs
     = clamp (100 - 20 * Z.of_nat (count_severity CRITICAL recs)
                  - 10 * Z.of_nat (count_severity ERROR recs)
                  - 5 * Z.of_nat (count_severity WARNING recs)
                  - 1 * Z.of_nat (count_severity INFO recs)))
  /\ (forall L f root r, audit_project L f root = Ok r -> 0 <= score r <= 100)
  /\ (forall recs1 recs2,
        Permutation (map severity recs1) (map severity recs2) ->
        _calculate_score recs1 = _calculate_score recs2).
Proof.
  split; [|split].
  - exact score_by_counts.
  - intros L f root r H.
    destruct (audit_project_inv _ _ _ _ H)
      as (pm & li & fo & so & tc & cov & ty & tot & _ & _ & _ & _ & _ & _ & Hs & _).
    rewrite Hs. apply score_bounds.
  - intros recs1 recs2 HP. unfold _calculate_score.
    rewrite !deduct_penalty_sum, (penalty_sum_perm _ _ HP). reflexivity.
Qed.

Lemma score_formula_bounds_order_witness :
  (exists r, audit_project Sample.libs Sample.legacy_tree Sample.root = Ok r
             /\ 0 <= score r <= 100)
  /\ _calculate_score [tooling "a" WARNING None; tooling "b" INFO None]
     = _calculate_score [tooling "c" INFO None; tooling "d" WARNING None].
Proof.
  destruct score_formula_bounds_order as (_ & Hbounds & Horder).
  split.
  - eexists. split; [vm_compute; reflexivity|].
    apply (Hbounds Sample.libs Sample.legacy_tree Sample.root).
    vm_compute. reflexivity.
  - apply Horder. simpl. apply perm_swap.
Defined.

(** *** Severities *)

Lemma low_tooling msg act : low_severity (tooling msg INFO act)
                            /\ low_severity (tooling msg WARNING act).
Proof. split; [left|right]; reflexivity. Qed.

Ltac low_list :=
  repeat match goal with
         | |- Forall _ (if ?c then _ else _) => destruct c
         | |- Forall _ [] => constructor
         | |- Forall _ [_] => constructor; [|constructor]
         | |- low_severity _ => first [left; reflexivity | right; reflexivity]
         end.

Lemma tooling_recommendations_low recs pm li fo so tc pc ci :
  Forall low_severity recs ->
  Forall low_severity (_generate_tooling_recommendations recs pm li fo so tc pc ci).
Proof.
  intros H. unfold _generate_tooling_recommendations.
  repeat (apply Forall_app; split); [exact H| | | | | | |].
  - unfold package_manager_advice. low_list.
  - unfold linter_advice. low_list.
  - unfold formatter_advice. low_list.
  - unfold import_sorter_advice. low_list.
  - unfold type_checker_advice. low_list.
  - unfold pre_commit_advice. low_list.
  - unfold ci_advice. low_list.
Qed.

Lemma code_quality_recommendations_low L recs cov ty tot :
  Forall low_severity recs ->
  Forall low_severity (_generate_code_quality_recommendations L recs cov ty tot).
Proof.
  intros H. unfold _generate_code_quality_recommendations.
  apply Forall_app; split; [exact H|].
  unfold type_coverage_advice. low_list.
Qed.

Lemma low_counts recs :
  Forall low_severity recs ->
  count_severity CRITICAL recs = 0%nat /\ count_severity ERROR recs = 0%nat.
Proof.
  unfold count_severity.
  induction 1 as [|r recs [Hr|Hr] _ IH]; simpl; [split; reflexivity| |];
    rewrite Hr; simpl; exact IH.
Qed.

(** C9. Every recommendation in a result of [audit_project] has severity
    info or warning; its critical and error counts are 0, and the score is
    100 minus 5 per warning and 1 per info, clamped: the deductions of 20
    and of 10 are never applied. *)
Theorem recommendations_are_info_or_warning L f root r :
  audit_project L f root = Ok r ->
  Forall low_severity (recommendations r)
  /\ critical_count r = 0%nat
  /\ error_count r = 0%nat
  /\ score r = clamp (100 - 5 * Z.of_nat (warning_count r)
                          - 1 * Z.of_nat (info_count r)).
Proof.
  intros H.
  destruct (audit_project_inv _ _ _ _ H)
    as (pm & li & fo & so & tc & cov & ty & tot
        & _ & _ & _ & _ & _ & _ & Hs & Hmodern & Hlegacy).
  assert (Hlow : Forall low_severity (recommendations r)).
  { match type of Hmodern with ?c = true -> _ => destruct c end.
    - destruct (Hmodern eq_refl) as [-> _]. constructor.
    - rewrite (Hlegacy eq_refl).
      apply code_quality_recommendations_low, tooling_recommendations_low.
      constructor. }
  destruct (low_counts _ Hlow) as [Hc He].
  unfold critical_count, error_count, warning_count, info_count.
  repeat split; try assumption.
  rewrite Hs, score_by_counts, Hc, He. f_equal.
Qed.

Lemma recommendations_are_info_or_warning_witness :
  exists r, audit_project Sample.libs Sample.legacy_tree Sample.root = Ok r
            /\ Forall low_severity (recommendations r)
            /\ critical_count r = 0%nat /\ error_count r = 0%nat
            /\ score r = 86.
Proof.
  eexists. split; [vm_compute; reflexivity|].
  match goal with
  | |- Forall _ (recommendations ?r) /\ _ =>
      destruct (recommendations_are_info_or_warning
                  Sample.libs Sample.legacy_tree Sample.root r)
        as (Hl & Hc & He & _); [vm_compute; reflexivity|]
  end.
  repeat split; assumption.
Defined.

(** *** The modern short-circuit *)





(** The other two conditions are needed as well: the formatter detector
    raises on a [ruff] entry that is a number, and the coverage analysis on
    a directory named like a source file. *)
Lemma modern_tooling_formatter_can_raise :
  detects (detect_linter Sample.libs Sample.odd_ruff_tree Sample.root) "ruff"
  /\ detect_formatter Sample.libs Sample.odd_ruff_tree Sample.root = Raise TypeError
  /\ audit_project Sample.libs Sample.odd_ruff_tree Sample.root = Raise TypeError.
Proof.
  repeat split; try (eexists; vm_compute; reflexivity); vm_compute; reflexivity.
Qed.

Lemma modern_tooling_coverage_can_raise :
  detects (detect_linter Sample.libs Sample.modern_vendored_tree Sample.root) "ruff"
  /\ analyze_type_coverage Sample.libs Sample.modern_vendored_tree Sample.root
     = Raise IsADirectoryError
  /\ audit_project Sample.libs Sample.modern_vendored_tree Sample.root
     = Raise IsADirectoryError.
Proof.
  repeat split; try (eexists; vm_compute; reflexivity); vm_compute; reflexivity.
Qed.

(** *** Vacuous coverage *)






End AuditorProps.

(** ** Properties of the project name *)

Module ModelsProps.
Import Py Models.

(** The reserved set of the validator is the keyword list of the
    language. *)
Lemma reserved_is_keyword_list : Permutation reserved python_keywords.
Proof.
  apply (Permutation_trans
           (l' := ["True"; "False"; "None"] ++ firstn 32 reserved)).
  - change reserved with (firstn 32 reserved ++ ["True"; "False"; "None"]) at 1.
    apply Permutation_app_comm.
  - apply (Permutation_app_tail (firstn 32 reserved)
             (l := ["True"; "False"; "None"]) (l' := ["False"; "None"; "True"])).
    apply (Permutation_cons_append ["False"; "None"] "True").
Qed.

(** A keyword written in lower case is rejected, whatever the other
    fields. *)
Lemma lowercase_keywords_rejected k ty dk dc :
  In k python_keywords -> lower k = k ->
  new_ProjectConfig k ty dk dc = Raise ValueError.
Proof.
  intros Hin Hlow.
  repeat (destruct Hin as [<-|Hin];
          [first [discriminate Hlow | reflexivity]|]).
  destruct Hin.
Qed.

(** C6, where the code departs from it. The names "True", "False" and
    "None" are keywords, and constructing a [ProjectConfig] with any of them
    succeeds: the validator lower-cases the name before it looks it up in a
    reserved set that spells these three with a capital, so the lookup
    never finds them, and the configuration is named "true", "false" or
    "none". *)
Theorem capitalised_keywords_are_accepted :
  In "True" python_keywords /\ In "False" python_keywords
  /\ In "None" python_keywords
  /\ new_ProjectConfig "True" LIBRARY false false
     = Ok {| name := "true"; project_type := LIBRARY; docker := false; docs := false |}
  /\ new_ProjectConfig "False" LIBRARY false false
     = Ok {| name := "false"; project_type := LIBRARY; docker := false; docs := false |}
  /\ new_ProjectConfig "None" LIBRARY false false
     = Ok {| name := "none"; project_type := LIBRARY; docker := false; docs := false |}.
Proof.
  repeat split; try reflexivity; simpl; tauto.
Qed.

End ModelsProps.

(** ** What an upgrade may touch *)

Module Frame.
Import Py St FS Ext Auditor Upgrader Props.

Lemma frame_refl (dr : bool) (root : path) (f : fs) : frame dr root f f.
Proof. intros p _. reflexivity. Qed.

Lemma frame_trans (dr : bool) (root : path) (f g h : fs) :
  frame dr root f g -> frame dr root g h -> frame dr root f h.
Proof. intros H1 H2 p Hp. rewrite (H2 p Hp). apply H1, Hp. Qed.

(** In a dry run the frame leaves nothing to change. *)
Lemma frame_dry_run (root : path) (f f' : fs) : frame true root f f' -> f' = f.
Proof. intros H. apply map_eq. intros p. apply H. left. reflexivity. Qed.

Section Rules.
Context {S : Type} (proj : S -> fs) (dr : bool) (root : path).

Lemma keeps_ret {A} (a : A) : keeps proj dr root (ret a).
Proof. intros s. apply frame_refl. Qed.

Lemma keeps_raise {A} e : keeps proj dr root (@raise S A e).
Proof. intros s. apply frame_refl. Qed.

Lemma keeps_lift {A} (r : result A) : keeps proj dr root (lift r).
Proof. intros s. apply frame_refl. Qed.

Lemma keeps_gets {A} (g : S -> A) : keeps proj dr root (gets g).
Proof. intros s. apply frame_refl. Qed.

Lemma keeps_reads {A} (g : S -> result A) : keeps proj dr root (reads g).
Proof. intros s. apply frame_refl. Qed.

Lemma keeps_bind {A B} (m : ST S A) (k : A -> ST S B) :
  keeps proj dr root m -> (forall a, keeps proj dr root (k a)) ->
  keeps proj dr root (St.bind m k).
Proof.
  intros Hm Hk s. unfold St.bind.
  specialize (Hm s). destruct (m s) as [[a|e] s']; simpl in *.
  - eapply frame_trans; [exact Hm | apply Hk].
  - exact Hm.
Qed.

Lemma keeps_try_catch {A} (m : ST S A) (h : exn -> ST S A) :
  keeps proj dr root m -> (forall e, keeps proj dr root (h e)) ->
  keeps proj dr root (try_catch m h).
Proof.
  intros Hm Hh s. unfold try_catch.
  specialize (Hm s). destruct (m s) as [[a|e] s']; simpl in *.
  - exact Hm.
  - eapply frame_trans; [exact Hm | apply Hh].
Qed.

Lemma keeps_for_each {A} (l : list A) (body : A -> ST S unit) :
  (forall x, keeps proj dr root (body x)) ->
  keeps proj dr root (for_each l body).
Proof.
  intros Hb. induction l as [|x l IH]; simpl.
  - apply keeps_ret.
  - apply keeps_bind; [apply Hb | intros _; exact IH].
Qed.

End Rules.

Lemma keeps_zoom {T A : Type} (dr : bool) (root : path) (m : ST fs A) :
  keeps (fun f => f) dr root m ->
  keeps (fst : fs * T -> fs) dr root (zoom m).
Proof.
  intros Hm s. unfold zoom. specialize (Hm (fst s)).
  destruct (m (fst s)) as [r f]. exact Hm.
Qed.

Lemma keeps_modify_snd {T : Type} (dr : bool) (root : path) (g : fs * T -> fs * T) :
  (forall s, fst (g s) = fst s) ->
  keeps (fst : fs * T -> fs) dr root (modify g).
Proof. intros Hg s. simpl. rewrite Hg. apply frame_refl. Qed.

Lemma keeps_write (root p : path) (c : string) :
  In p (migrated root) -> keeps (fun f => f) false root (write_file p c).
Proof.
  intros Hp f. unfold write_file.
  destruct (f !! p) as [[|]|]; try apply frame_refl;
    (destruct (check_parent f p); [|apply frame_refl]);
    intros q [Hq|Hq]; [discriminate| |discriminate|]; simpl;
    apply lookup_insert_ne; intros ->; exact (Hq Hp).
Qed.

Lemma keeps_unlink (root p : path) :
  In p (migrated root) -> keeps (fun f => f) false root (unlink p).
Proof.
  intros Hp f. unfold unlink.
  destruct (f !! p) as [[|]|]; try apply frame_refl.
  intros q [Hq|Hq]; [discriminate|]. simpl.
  apply lookup_delete_ne. intros ->. exact (Hq Hp).
Qed.

Lemma keeps_doc_read {A : Type} (dr : bool) (root : path) (g : value -> result A) :
  keeps (fst : world -> fs) dr root (doc_read g).
Proof. intros s. apply frame_refl. Qed.

Lemma keeps_doc_update (dr : bool) (root : path) (g : value -> result value) :
  keeps (fst : world -> fs) dr root (doc_update g).
Proof. intros s. unfold doc_update. destruct (g (snd s)); apply frame_refl. Qed.

Lemma keeps_reread (dr : bool) (root : path) (L : Libs) (p : path) :
  keeps (fst : world -> fs) dr root (reread L p).
Proof. intros s. unfold reread. destruct (nonempty _); apply frame_refl. Qed.

(** One step of a proof that a computation respects the frame: follow its
    structure. *)
Ltac keeps_step :=
  lazymatch goal with
  | |- keeps _ _ _ (St.bind _ _) => apply keeps_bind; [|intros]
  | |- keeps _ _ _ (St.ret _) => apply keeps_ret
  | |- keeps _ _ _ (St.raise _) => apply keeps_raise
  | |- keeps _ _ _ (St.lift _) => apply keeps_lift
  | |- keeps _ _ _ (St.gets _) => apply keeps_gets
  | |- keeps _ _ _ (St.reads _) => apply keeps_reads
  | |- keeps _ _ _ (St.try_catch _ _) => apply keeps_try_catch; [|intros]
  | |- keeps _ _ _ (St.zoom _) => apply keeps_zoom
  | |- keeps _ _ _ (fs_run _) => apply keeps_zoom
  | |- keeps _ _ _ (St.modify _) => apply keeps_modify_snd; intros; reflexivity
  | |- keeps _ _ _ (doc_read _) => apply keeps_doc_read
  | |- keeps _ _ _ (doc_update _) => apply keeps_doc_update
  | |- keeps _ _ _ (reread _ _) => apply keeps_reread
  | |- keeps _ _ _ (ensure_at _ _) => apply keeps_doc_update
  | |- keeps _ _ _ (set_at _ _ _) => apply keeps_doc_update
  | |- keeps _ _ _ (in_at _ _) => apply keeps_doc_read
  | |- keeps _ false _ (write_file _ _) => apply keeps_write; simpl; tauto
  | |- keeps _ false _ (_write_toml_doc _ _ _) => apply keeps_write; simpl; tauto
  | |- keeps _ false _ (unlink _) => apply keeps_unlink; simpl; tauto
  | |- keeps _ _ _ (if ?c then _ else _) => destruct c
  | |- keeps _ _ _ (match ?x with _ => _ end) => destruct x
  end.

Ltac keeps_auto := cbv zeta; repeat keeps_step.

Section Migrations.
Context (L : Libs) (root : path).

Lemma keeps_poetry dr :
  keeps (fun f => f) dr root (_migrate_poetry_to_uv L root dr).
Proof. unfold _migrate_poetry_to_uv. destruct dr; keeps_auto. Qed.

Lemma keeps_requirements dr :
  keeps (fun f => f) dr root (_migrate_requirements_to_uv L root dr).
Proof. unfold _migrate_requirements_to_uv. destruct dr; keeps_auto. Qed.

Lemma keeps_pipenv dr :
  keeps (fun f => f) dr root (_migrate_pipenv_to_uv L root dr).
Proof. unfold _migrate_pipenv_to_uv. destruct dr; keeps_auto. Qed.

Lemma keeps_setup_cfg_body dr :
  keeps (fst : fs * list string -> fs) dr root (setup_cfg_body L root dr).
Proof. unfold setup_cfg_body. destruct dr; keeps_auto. Qed.

Lemma keeps_setuptools dr :
  keeps (fun f => f) dr root (_migrate_setuptools_to_uv L root dr).
Proof.
  intros f. unfold _migrate_setuptools_to_uv.
  destruct (exists_ f (child root "setup.cfg")); [|apply frame_refl].
  pose proof (keeps_setup_cfg_body dr (f, [])) as H.
  destruct (setup_cfg_body L root dr (f, [])) as [[u|e] [f' changes]];
    exact H.
Qed.

Lemma keeps_remove_file dr p msg :
  In p (migrated root) ->
  keeps (fst : world -> fs) dr root (remove_file p dr msg).
Proof.
  intros Hp. unfold remove_file.
  apply keeps_bind; [apply keeps_gets|]. intros present.
  destruct present, dr; simpl; keeps_auto.
Qed.

Lemma keeps_drop_at dr alias k msg :
  keeps (fst : world -> fs) dr root (drop_at alias k msg).
Proof. unfold drop_at. keeps_auto. Qed.

Lemma keeps_black dr :
  keeps (fst : world -> fs) dr root (_migrate_black_to_ruff L root dr).
Proof.
  unfold _migrate_black_to_ruff. keeps_auto; apply keeps_drop_at.
Qed.

Lemma keeps_carry_isort dr cfg a b msg :
  keeps (fst : world -> fs) dr root (carry_isort cfg a b msg).
Proof. unfold carry_isort. keeps_auto. Qed.

Lemma keeps_isort dr :
  keeps (fst : world -> fs) dr root (_migrate_isort_to_ruff root dr).
Proof.
  unfold _migrate_isort_to_ruff. keeps_auto;
    first [apply keeps_carry_isort | apply keeps_drop_at
          | apply keeps_remove_file; simpl; tauto].
Qed.

Lemma keeps_flake8 dr :
  keeps (fst : world -> fs) dr root (_migrate_flake8_to_ruff L root dr).
Proof.
  unfold _migrate_flake8_to_ruff. keeps_auto;
    apply keeps_remove_file; simpl; tauto.
Qed.

Lemma keeps_mypy dr :
  keeps (fst : world -> fs) dr root (_migrate_mypy_to_basedpyright L root dr).
Proof.
  unfold _migrate_mypy_to_basedpyright. keeps_auto;
    first [apply keeps_drop_at | apply keeps_remove_file; simpl; tauto].
Qed.

Lemma keeps_run_step dr st :
  keeps (fst : world -> fs) dr root (run_step L root dr st).
Proof.
  unfold run_step. keeps_auto;
    first [apply keeps_poetry | apply keeps_requirements | apply keeps_pipenv
          | apply keeps_setuptools | apply keeps_black | apply keeps_isort
          | apply keeps_flake8 | apply keeps_mypy].
Qed.

Lemma keeps_execute dr steps : forall log,
  keeps (fst : world -> fs) dr root (execute L root dr steps log).
Proof.
  induction steps as [|st steps IH]; intros log; simpl.
  - apply keeps_ret.
  - apply keeps_bind; [|intros; apply IH].
    apply keeps_try_catch; [|intros; apply keeps_ret].
    apply keeps_bind; [apply keeps_run_step | intros; apply keeps_ret].
Qed.

Lemma keeps_migrate dr from_tool backup_path changes :
  keeps (fun f => f) dr root (migrate L root from_tool dr backup_path changes).
Proof.
  unfold migrate. apply keeps_bind; [apply keeps_reads|].
  intros [|st steps]; [apply keeps_ret|].
  intros f. cbv zeta.
  match goal with
  | |- context [execute L root dr ?ss ?log ?w] =>
      pose proof (keeps_execute dr ss log w) as H;
      destruct (execute L root dr ss log w) as [[[ch er]|e] [f' doc]]
  end; simpl in H; [|exact H].
  destruct dr; simpl; [exact H|].
  destruct (truthy doc); simpl; [|exact H].
  destruct (as_table doc) as [t|e]; simpl; [|exact H].
  pose proof (keeps_write root (child root "pyproject.toml") (tomlkit_dumps L t)) as Hw.
  specialize (Hw ltac:(simpl; tauto) f').
  unfold _write_toml_doc.
  destruct (write_file (child root "pyproject.toml") (tomlkit_dumps L t) f')
    as [[u|e] f'']; simpl in *; eapply frame_trans; eauto.
Qed.

(** With [dry_run=True] the whole of [upgrade_project] respects the frame,
    with or without [backup]. *)
Lemma keeps_upgrade_dry_run from_tool backup :
  keeps (fun f => f) true root (upgrade_project L root from_tool true backup).
Proof.
  unfold upgrade_project.
  replace (backup && negb true) with false by (destruct backup; reflexivity).
  keeps_auto; apply keeps_migrate.
Qed.

End Migrations.
End Frame.

(** ** Properties of the upgrade *)

Module UpgraderProps.
Import Py St FS Ext Auditor Upgrader Props DictFacts.

(** *** Invalid root paths *)




(** *** Dry run *)

(** C4. With [dry_run=True], whatever the tree, the source-tool override
    and the [backup] flag, and whether the call returns or raises, the file
    system after [upgrade_project] is the file system before it: every
    path holds what it held, nothing is deleted, and no backup directory
    appears. *)
Theorem dry_run_changes_nothing (L : Libs) (f : fs) (root : path)
    (from_tool : option string) (backup : bool) :
  let f' := snd (upgrade_project L root from_tool true backup f) in
  f' = f
  /\ (forall p, f' !! p = f !! p)
  /\ f' !! backup_dir_of L root = f !! backup_dir_of L root.
Proof.
  intros f'.
  assert (E : f' = f).
  { apply (Frame.frame_dry_run root).
    apply (Frame.keeps_upgrade_dry_run L root from_tool backup f). }
  rewrite E. auto.
Qed.

(** *** Plan emptiness *)

Lemma is_tool_other t n : t <> Some n -> is_tool t n = false.
Proof.
  destruct t as [s|]; simpl; [|reflexivity].
  intros H. apply String.eqb_neq. congruence.
Qed.

Lemma declares_section (L : Libs) (f : fs) (root : path) (doc tool : table)
    (k : string) :
  _read_toml L f (child root "pyproject.toml") = Some doc ->
  assoc "tool" doc = Some (VTable tool) ->
  declares (_read_toml L f (child root "pyproject.toml")) k = Ok (has_key k tool).
Proof.
  intros -> Ht. unfold declares.
  destruct doc as [|e doc]; [discriminate|]. rewrite Ht. reflexivity.
Qed.

(** C7, as the code has it. In a tree with [uv.lock], a manifest with
    [tool.ruff] and [tool.basedpyright] sections and the pre-commit file,
    where moreover the formatter detector does not answer black and the
    import-sorter detector does not answer isort, [create_migration_plan]
    without a source-tool override returns the empty list. *)
Theorem modern_tree_has_empty_plan (L : Libs) (f : fs) (root : path) :
  exists_ f (child root "uv.lock") = true ->
  modern_manifest L f root ->
  detect_pre_commit f root = true ->
  detects_other (detect_formatter L f root) "black" ->
  detects_other (detect_import_sorter L f root) "isort" ->
  create_migration_plan L f root None = Ok [].
Proof.
  intros Hlock (doc & tool & ruff & based & Hdoc & Htool & Hruff & Hbased) _
         (fo & e1 & Efo & Hfo) (so & e2 & Eso & Hso).
  unfold create_migration_plan, detect_source_tool, detect_package_manager.
  rewrite Hlock. simpl.
  rewrite Efo. simpl. rewrite (is_tool_other _ _ Hfo).
  rewrite Eso. simpl. rewrite (is_tool_other _ _ Hso).
  assert (Eli : detect_linter L f root = Ok (Some "ruff", [("config", "ruff.toml")])
                \/ detect_linter L f root = Ok (Some "ruff", in_pyproject)).
  { unfold detect_linter.
    destruct (exists_ f (child root "ruff.toml")); [left; reflexivity|].
    rewrite (declares_section _ _ _ _ _ "ruff" Hdoc Htool).
    unfold has_key. rewrite Hruff. right. reflexivity. }
  assert (Etc : detect_type_checker L f root = Ok (Some "basedpyright", in_pyproject)).
  { unfold detect_type_checker.
    rewrite (declares_section _ _ _ _ _ "basedpyright" Hdoc Htool).
    unfold has_key. rewrite Hbased. reflexivity. }
  rewrite Etc. destruct Eli as [-> | ->]; reflexivity.
Qed.

Lemma modern_tree_has_empty_plan_witness :
  create_migration_plan Sample.libs Sample.modern_tree Sample.root None = Ok [].
Proof.
  apply modern_tree_has_empty_plan.
  - vm_compute. reflexivity.
  - eexists _, _, _, _. repeat split; vm_compute; reflexivity.
  - vm_compute. reflexivity.
  - eexists _, _. split; [vm_compute; reflexivity | discriminate].
  - eexists _, _. split; [vm_compute; reflexivity | discriminate].
Defined.

(** C7 as it was stated fails: this tree has the lock file, the two
    sections and the pre-commit file, and also a [tool.black] section; its
    plan holds the Black step. *)
Lemma modern_tree_with_black_has_a_step :
  exists_ Sample.black_tree (child Sample.root "uv.lock") = true
  /\ modern_manifest Sample.libs Sample.black_tree Sample.root
  /\ detect_pre_commit Sample.black_tree Sample.root = true
  /\ create_migration_plan Sample.libs Sample.black_tree Sample.root None
     = Ok [step FORMATTER "Migrate Black configuration to ruff format"
             "black" "ruff" [child Sample.root "pyproject.toml"]].
Proof.
  split; [vm_compute; reflexivity|].
  split; [eexists _, _, _, _; repeat split; vm_compute; reflexivity|].
  split; vm_compute; reflexivity.
Qed.

(** The import sorter counts as well: a left-over [.isort.cfg] gives the
    isort step. *)
Lemma modern_tree_with_isort_has_a_step :
  modern_manifest Sample.libs Sample.isort_tree Sample.root
  /\ create_migration_plan Sample.libs Sample.isort_tree Sample.root None
     = Ok [step LINTER "Migrate isort configuration to ruff lint.isort"
             "isort" "ruff"
             [child Sample.root "pyproject.toml"; child Sample.root ".isort.cfg"]].
Proof.
  split; [eexists _, _, _, _; repeat split; vm_compute; reflexivity|].
  vm_compute. reflexivity.
Qed.

(** *** Backup *)

Lemma parent_child (root : path) (n : string) : parent (child root n) = root.
Proof. unfold parent, child. apply removelast_last. Qed.

Lemma child_inj (root : path) (a b : string) : child root a = child root b -> a = b.
Proof. unfold child. intros H. apply app_inj_tail in H. tauto. Qed.

Lemma child_not_grandchild (root : path) (a b c : string) :
  child root a <> child (child root b) c.
Proof.
  unfold child. intros H. apply (f_equal (@length string)) in H.
  rewrite !length_app in H. simpl in H. lia.
Qed.

Lemma child_not_self (root : path) (a : string) : child root a <> root.
Proof.
  unfold child. intros H. apply (f_equal (@length string)) in H.
  rewrite length_app in H. simpl in H. lia.
Qed.

(** No well-known configuration name, and no migrated file, is called like
    the backup directory. *)
Lemma backup_name_is_fresh (L : Libs) (n : string) :
  In n backup_files
  \/ In n ["pyproject.toml"; "poetry.lock"; ".isort.cfg"; ".flake8";
           "mypy.ini"; ".mypy.ini"] ->
  n <> ".quickforge_backup_" +:+ clock_stamp L.
Proof.
  intros [H|H]; simpl in H;
    repeat (destruct H as [<-|H]; [discriminate|]); destruct H.
Qed.

Lemma backup_dir_not_migrated (L : Libs) (root : path) :
  ~ In (backup_dir_of L root) (migrated root).
Proof.
  unfold migrated, backup_dir_of. rewrite in_map_iff. intros (n & E & Hn).
  apply child_inj in E. subst n.
  exact (backup_name_is_fresh L _ (or_intror Hn) eq_refl).
Qed.

Lemma backup_copy_not_migrated (L : Libs) (root : path) (n : string) :
  ~ In (child (backup_dir_of L root) n) (migrated root).
Proof.
  unfold migrated, backup_dir_of. rewrite in_map_iff. intros (m & E & _).
  exact (child_not_grandchild _ _ _ _ E).
Qed.

(** The loop of [create_backup], once the directory is there. *)
Lemma backup_loop (L : Libs) (root : path) (names : list string) : forall f : fs,
  f !! backup_dir_of L root = Some Dir ->
  (forall n, In n names -> f !! child root n <> Some Dir) ->
  (forall n, In n names -> f !! child (backup_dir_of L root) n <> Some Dir) ->
  exists f' : fs,
    for_each names
      (fun filename =>
         present <- gets (fun f => exists_ f (child root filename)) ;;
         if present
         then copy2 (child root filename) (child (backup_dir_of L root) filename)
         else ret tt) f
    = (Ok tt, f')
    /\ (forall p, (forall n, In n names -> p <> child (backup_dir_of L root) n) ->
                  f' !! p = f !! p)
    /\ (forall n c, In n names -> f !! child root n = Some (File c) ->
                    f' !! child (backup_dir_of L root) n = Some (File c)).
Proof.
  set (bdir := backup_dir_of L root).
  induction names as [|n names IH]; intros f Hdir Hsrc Hdst.
  - exists f. simpl. repeat split; auto. intros n c [].
  - assert (Hstep : exists f1 : fs,
               (present <- gets (fun f => exists_ f (child root n)) ;;
                if present then copy2 (child root n) (child bdir n) else ret tt) f
               = (Ok tt, f1)
               /\ (forall p, p <> child bdir n -> f1 !! p = f !! p)
               /\ (forall c, f !! child root n = Some (File c) ->
                             f1 !! child bdir n = Some (File c))
               /\ f1 !! child bdir n <> Some Dir).
    { pose proof (Hdst n (in_eq _ _)) as Hd.
      pose proof (Hsrc n (in_eq _ _)) as Hs.
      unfold St.bind, gets, exists_.
      destruct (f !! child root n) as [[c|]|] eqn:E.
      - unfold copy2, read_file, is_dir. rewrite E.
        destruct (f !! child bdir n) as [[c'|]|] eqn:E'; try congruence;
          unfold write_file, check_parent;
          rewrite E', parent_child; fold bdir; rewrite Hdir;
          (eexists; split; [reflexivity|]; split;
           [intros p Hp; apply lookup_insert_ne; congruence|]; split;
           [intros c0 Hc0; inversion Hc0; subst; apply lookup_insert_eq
           |rewrite lookup_insert_eq; discriminate]).
      - congruence.
      - exists f. repeat split; auto. discriminate. }
    destruct Hstep as (f1 & E1 & Hframe1 & Hcopy1 & Hnd1).
    destruct (IH f1) as (f' & E' & Hframe & Hcopy).
    + rewrite Hframe1; [exact Hdir|]. intros H. symmetry in H.
      exact (child_not_self _ _ H).
    + intros m Hm. rewrite Hframe1; [apply Hsrc; right; exact Hm|].
      apply child_not_grandchild.
    + intros m Hm. destruct (String.eq_dec m n) as [->|Hne]; [exact Hnd1|].
      rewrite Hframe1; [apply Hdst; right; exact Hm|].
      intros H. apply child_inj in H. contradiction.
    + exists f'. split; [|split].
      * simpl. unfold St.bind at 1. fold bdir. rewrite E1. exact E'.
      * intros p Hp. rewrite Hframe; [apply Hframe1; apply Hp; left; reflexivity|].
        intros m Hm. apply Hp. right. exact Hm.
      * intros m c [->|Hm] Hc.
        -- destruct (in_dec String.eq_dec m names) as [Hin|Hnin].
           ++ apply Hcopy; [exact Hin|]. rewrite Hframe1; [exact Hc|].
              apply child_not_grandchild.
           ++ rewrite Hframe; [exact (Hcopy1 c Hc)|].
              intros m' Hm' H. apply child_inj in H. subst m'. contradiction.
        -- apply Hcopy; [exact Hm|]. rewrite Hframe1; [exact Hc|].
           apply child_not_grandchild.
Qed.

(** [create_backup] on a usable location returns the backup directory, makes
    it a directory, puts in it a copy of every well-known file of the
    project, and changes nothing outside it. *)
Lemma create_backup_spec (L : Libs) (f : fs) (root : path) :
  is_dir f root = true ->
  config_files_regular f root ->
  backup_location_usable L f root ->
  exists f1 : fs,
    create_backup L root f = (Ok (backup_dir_of L root), f1)
    /\ f1 !! backup_dir_of L root = Some Dir
    /\ (forall n c, In n backup_files -> f !! child root n = Some (File c) ->
                    f1 !! child (backup_dir_of L root) n = Some (File c))
    /\ (forall p, p <> backup_dir_of L root ->
                  (forall n, In n backup_files -> p <> child (backup_dir_of L root) n) ->
                  f1 !! p = f !! p).
Proof.
  intros Hroot Hreg [Hfree Hsub].
  set (bdir := backup_dir_of L root) in *.
  assert (Hmk : exists f0 : fs,
             mkdir_exist_ok bdir f = (Ok tt, f0)
             /\ f0 !! bdir = Some Dir
             /\ (forall p, p <> bdir -> f0 !! p = f !! p)).
  { unfold mkdir_exist_ok, check_parent.
    destruct (f !! bdir) as [[c|]|] eqn:E.
    - exfalso. exact (Hfree c eq_refl).
    - exists f. auto.
    - unfold bdir, backup_dir_of. rewrite parent_child.
      unfold is_dir in Hroot. destruct (f !! root) as [[c|]|]; try discriminate.
      eexists. split; [reflexivity|]. split; [apply lookup_insert_eq|].
      intros p Hp. apply lookup_insert_ne. congruence. }
  destruct Hmk as (f0 & Emk & Hdir0 & Hframe0).
  destruct (backup_loop L root backup_files f0) as (f1 & Eloop & Hframe1 & Hcopy1).
  - exact Hdir0.
  - intros n Hn. rewrite Hframe0; [apply Hreg, Hn|].
    unfold bdir, backup_dir_of. intros H. apply child_inj in H.
    exact (backup_name_is_fresh L n (or_introl Hn) H).
  - intros n Hn. rewrite Hframe0; [apply Hsub, Hn|]. apply child_not_self.
  - exists f1. split; [|split; [|split]].
    + unfold create_backup. cbv zeta. fold bdir.
      unfold St.bind at 1. rewrite Emk.
      unfold St.bind at 1. fold bdir in Eloop. rewrite Eloop. reflexivity.
    + rewrite Hframe1; [exact Hdir0|]. intros n _ H. symmetry in H.
      exact (child_not_self _ _ H).
    + intros n c Hn Hc. apply Hcopy1; [exact Hn|].
      rewrite Hframe0; [exact Hc|].
      unfold bdir, backup_dir_of. intros H. apply child_inj in H.
      exact (backup_name_is_fresh L n (or_introl Hn) H).
    + intros p Hp Hpn. rewrite Hframe1; [apply Hframe0, Hp | exact Hpn].
Qed.

(** Whatever [migrate] returns carries the backup path it was given. *)
Lemma migrate_backup_path (L : Libs) (root : path) (from_tool : option string)
    (dr : bool) (bp : option path) (changes : list string) (f : fs)
    (r : UpgradeResult) :
  fst (migrate L root from_tool dr bp changes f) = Ok r -> backup_path r = bp.
Proof.
  unfold migrate, St.bind, reads.
  destruct (create_migration_plan L f root from_tool) as [[|st steps]|e];
    cbv beta iota zeta;
    [simpl; intros H; inversion H; reflexivity| |simpl; discriminate].
  match goal with
  | |- context [execute L root dr ?ss ?log ?w] =>
      destruct (execute L root dr ss log w) as [[[ch er]|e] [f' doc]]
  end; simpl; [|discriminate].
  destruct (negb dr && truthy doc); simpl;
    [|intros H; inversion H; reflexivity].
  destruct (as_table doc) as [t|e]; simpl; [|discriminate].
  destruct (_write_toml_doc L (child root "pyproject.toml") t f') as [[u|e] f''];
    simpl; [intros H; inversion H; reflexivity | discriminate].
Qed.

(** C10, as the code has it. In a project directory whose well-known
    configuration entries are regular files and whose backup location is
    usable, [upgrade_project] with [backup=True] and [dry_run=False] leaves
    behind, whatever the plan (the empty one included) and whether the
    migration then returns or raises, a directory
    [.quickforge_backup_<timestamp>] in the root that holds a copy of each
    well-known configuration file of the project; a returned result names
    it as its [backup_path]. *)
Theorem backup_is_made_before_the_plan (L : Libs) (f : fs) (root : path)
    (from_tool : option string) :
  is_dir f root = true ->
  config_files_regular f root ->
  backup_location_usable L f root ->
  let out := upgrade_project L root from_tool false true f in
  snd out !! backup_dir_of L root = Some Dir
  /\ name (backup_dir_of L root) = ".quickforge_backup_" +:+ clock_stamp L
  /\ parent (backup_dir_of L root) = root
  /\ (forall n c, In n backup_files -> f !! child root n = Some (File c) ->
                  snd out !! child (backup_dir_of L root) n = Some (File c))
  /\ (forall r, fst out = Ok r -> backup_path r = Some (backup_dir_of L root)).
Proof.
  intros Hroot Hreg Husable out.
  destruct (create_backup_spec L f root Hroot Hreg Husable)
    as (f1 & Eb & Hdir & Hcopy & _).
  assert (Eout : out = migrate L root from_tool false (Some (backup_dir_of L root))
                         ["Created backup at " +:+ path_str (backup_dir_of L root)] f1).
  { unfold out, upgrade_project, St.bind at 1, gets.
    assert (Hex : exists_ f root = true).
    { unfold is_dir in Hroot. unfold exists_.
      destruct (f !! root); [reflexivity|discriminate]. }
    rewrite Hex. simpl. unfold St.bind at 1, gets. rewrite Hroot. simpl.
    unfold St.bind at 1. unfold St.bind at 1. rewrite Eb. reflexivity. }
  pose proof (Frame.keeps_migrate L root false from_tool
                (Some (backup_dir_of L root))
                ["Created backup at " +:+ path_str (backup_dir_of L root)] f1) as Hk.
  rewrite <- Eout in Hk. simpl in Hk.
  split; [|split; [|split; [|split]]].
  - rewrite Hk; [exact Hdir|]. right. apply backup_dir_not_migrated.
  - unfold backup_dir_of, name, child. apply last_last.
  - apply parent_child.
  - intros n c Hn Hc. rewrite Hk; [exact (Hcopy n c Hn Hc)|].
    right. apply backup_copy_not_migrated.
  - intros r Hr. rewrite Eout in Hr. exact (migrate_backup_path _ _ _ _ _ _ _ _ Hr).
Qed.

Lemma sample_modern_regular : config_files_regular Sample.modern_tree Sample.root.
Proof.
  intros n Hn. simpl in Hn.
  repeat (destruct Hn as [<-|Hn]; [vm_compute; discriminate|]). destruct Hn.
Qed.

Lemma sample_modern_usable :
  backup_location_usable Sample.libs Sample.modern_tree Sample.root.
Proof.
  split.
  - intros c. vm_compute. discriminate.
  - intros n Hn. simpl in Hn.
    repeat (destruct Hn as [<-|Hn]; [vm_compute; discriminate|]). destruct Hn.
Qed.

Lemma backup_is_made_before_the_plan_witness :
  let out := upgrade_project Sample.libs Sample.root None false true Sample.modern_tree in
  snd out !! backup_dir_of Sample.libs Sample.root = Some Dir
  /\ snd out !! child (backup_dir_of Sample.libs Sample.root) "pyproject.toml"
     = Some (File Sample.modern_toml)
  /\ (exists r, fst out = Ok r /\ migration_steps r = []
                /\ backup_path r = Some (backup_dir_of Sample.libs Sample.root)).
Proof.
  destruct (backup_is_made_before_the_plan Sample.libs Sample.modern_tree
              Sample.root None)
    as (Hdir & _ & _ & Hcopy & Hpath).
  - vm_compute. reflexivity.
  - exact sample_modern_regular.
  - exact sample_modern_usable.
  - split; [exact Hdir|]. split.
    + apply Hcopy; [simpl; tauto | vm_compute; reflexivity].
    + eexists. split; [vm_compute; reflexivity|]. split; reflexivity.
Defined.

(** C10 as it was stated fails: this project directory passes the checks
    of [upgrade_project], one of its well-known names is a directory, and
    the upgrade raises inside the backup, before the pre-commit file is
    copied. *)
Lemma backup_stops_at_a_directory :
  let out := upgrade_project Sample.libs Sample.root None false true
               Sample.odd_setup_tree in
  is_dir Sample.odd_setup_tree Sample.root = true
  /\ Sample.odd_setup_tree !! child Sample.root "setup.cfg" = Some Dir
  /\ Sample.odd_setup_tree !! child Sample.root ".pre-commit-config.yaml"
     = Some (File "repos: []")
  /\ fst out = Raise IsADirectoryError
  /\ snd out !! child (backup_dir_of Sample.libs Sample.root) ".pre-commit-config.yaml"
     = None.
Proof. repeat split; vm_compute; reflexivity. Qed.

(** The backup location counts as well: a regular file of that name makes
    [mkdir] raise. *)
Lemma backup_stops_at_an_occupied_location :
  is_dir Sample.occupied_tree Sample.root = true
  /\ config_files_regular Sample.occupied_tree Sample.root
  /\ fst (upgrade_project Sample.libs Sample.root None false true Sample.occupied_tree)
     = Raise FileExistsError.
Proof.
  split; [vm_compute; reflexivity|]. split; [|vm_compute; reflexivity].
  intros n Hn. simpl in Hn.
  repeat (destruct Hn as [<-|Hn]; [vm_compute; discriminate|]). destruct Hn.
Qed.

(** *** Poetry to uv *)



Lemma pin_total (nm s : string) :
  s <> "" -> exists e, pin nm s = Ok e /\ startswith e nm = true.
Proof.
  intros Hs. unfold pin, startswith.
  destruct (String.prefix "^" s || String.prefix "~" s).
  - eexists. split; [reflexivity|apply prefix_app].
  - destruct s as [|c s]; [congruence|]. simpl.
    match goal with |- context [if ?b then _ else _] => destruct b end;
      eexists; (split; [reflexivity|apply prefix_app]).
Qed.












(** The other conditions are needed as well: an empty specification of the
    dev dependency makes the migration raise, and so does a [project] entry
    that is not a table. *)
Lemma poetry_empty_dev_spec_raises :
  poetry_to_pep621 Sample.libs false Sample.poetry_empty_spec_doc = Raise IndexError.
Proof. vm_compute. reflexivity. Qed.

Lemma poetry_odd_project_raises :
  poetry_to_pep621 Sample.libs false Sample.poetry_odd_project_doc = Raise TypeError.
Proof. vm_compute. reflexivity. Qed.

End UpgraderProps.

(** ** Invariants of the audit *)

Module AuditorInvariants.
Import Py St FS Ext Auditor Props DictFacts AuditorProps Invariants.
Local Open Scope Z_scope.

(** *** Score *)

Lemma penalty_positive (s : Severity) : 1 <= penalty s <= 20.
Proof. destruct s; simpl; lia. Qed.

Lemma penalty_sum_app (a b : list Severity) :
  penalty_sum (a ++ b) = penalty_sum a + penalty_sum b.
Proof. induction a as [|s a IH]; simpl; lia. Qed.

Lemma penalty_sum_length (l : list Severity) : Z.of_nat (length l) <= penalty_sum l.
Proof.
  induction l as [|s l IH]; [simpl; lia|].
  cbn [penalty_sum]. pose proof (penalty_positive s). rewrite length_cons. lia.
Qed.

Lemma cost_app (a b : list Recommendation) : cost (a ++ b) = cost a + cost b.
Proof. unfold cost. rewrite map_app. apply penalty_sum_app. Qed.

(** X1. Adding recommendations to a list never raises its score. *)
Theorem more_recommendations_lower_score (recs more : list Recommendation) :
  _calculate_score (recs ++ more) <= _calculate_score recs.
Proof.
  unfold _calculate_score. rewrite !deduct_penalty_sum, map_app, penalty_sum_app.
  pose proof (penalty_sum_length (map severity more)). lia.
Qed.

(** X2. The score of a list of recommendations is 100 exactly when the list
    is empty: every recommendation, whatever its severity, costs at least
    one point. *)
Theorem perfect_score_iff_no_recommendation (recs : list Recommendation) :
  _calculate_score recs = 100 <-> recs = [].
Proof.
  unfold _calculate_score. rewrite deduct_penalty_sum.
  pose proof (penalty_sum_length (map severity recs)) as H.
  rewrite length_map in H. split.
  - intros E. destruct recs; [reflexivity|]. simpl length in H. lia.
  - intros ->. reflexivity.
Qed.

Lemma perfect_score_iff_no_recommendation_witness :
  _calculate_score [] = 100
  /\ _calculate_score [tooling "a" INFO None] <> 100.
Proof.
  split.
  - apply (proj2 (perfect_score_iff_no_recommendation [])). reflexivity.
  - intros H. apply (proj1 (perfect_score_iff_no_recommendation _)) in H.
    discriminate H.
Defined.

(** One step of a case analysis over the tests of an advice function. *)
Ltac advice_cases :=
  repeat match goal with
         | |- context [if ?c then _ else _] => destruct c
         end; simpl; lia.

Lemma tooling_advice_bounds (pm li fo so tc : option string) (pc : bool)
    (ci : option string) :
  cost (_generate_tooling_recommendations [] pm li fo so tc pc ci) <= 19
  /\ (length (_generate_tooling_recommendations [] pm li fo so tc pc ci) <= 7)%nat.
Proof.
  unfold _generate_tooling_recommendations. rewrite !cost_app, !length_app.
  assert (cost (package_manager_advice pm) <= 5
          /\ (length (package_manager_advice pm) <= 1)%nat)
    by (unfold package_manager_advice, cost; split; advice_cases).
  assert (cost (linter_advice li fo) <= 5
          /\ (length (linter_advice li fo) <= 1)%nat)
    by (unfold linter_advice, cost; split; advice_cases).
  assert (cost (formatter_advice fo) <= 1
          /\ (length (formatter_advice fo) <= 1)%nat)
    by (unfold formatter_advice, cost; split; advice_cases).
  assert (cost (import_sorter_advice so) <= 1
          /\ (length (import_sorter_advice so) <= 1)%nat)
    by (unfold import_sorter_advice, cost; split; advice_cases).
  assert (cost (type_checker_advice tc) <= 5
          /\ (length (type_checker_advice tc) <= 1)%nat)
    by (unfold type_checker_advice, cost; split; advice_cases).
  assert (cost (pre_commit_advice pc) <= 1
          /\ (length (pre_commit_advice pc) <= 1)%nat)
    by (unfold pre_commit_advice, cost; split; advice_cases).
  assert (cost (ci_advice ci) <= 1 /\ (length (ci_advice ci) <= 1)%nat)
    by (unfold ci_advice, cost; split; advice_cases).
  simpl. unfold cost at 1. simpl. lia.
Qed.

Lemma coverage_advice_bounds (L : Libs) (cov : Q) (ty tot : nat) :
  cost (type_coverage_advice L cov ty tot) <= 5
  /\ (length (type_coverage_advice L cov ty tot) <= 1)%nat.
Proof. unfold type_coverage_advice, cost; split; advice_cases. Qed.

(** X3. No audit scores below 76: a result of [audit_project] holds at most
    eight recommendations (one per tooling category and one on type
    coverage), which together cost at most 24 points. *)
Theorem audit_score_at_least_76 (L : Libs) (f : fs) (root : path) (r : AuditResult) :
  audit_project L f root = Ok r ->
  76 <= score r /\ (length (recommendations r) <= 8)%nat.
Proof.
  intros H.
  destruct (audit_project_inv _ _ _ _ H)
    as (pm & li & fo & so & tc & cov & ty & tot
        & _ & _ & _ & _ & _ & _ & Hs & Hmodern & Hlegacy).
  rewrite Hs.
  match type of Hmodern with ?c = true -> _ => destruct c end.
  - destruct (Hmodern eq_refl) as [-> _]. unfold _calculate_score. simpl. lia.
  - rewrite (Hlegacy eq_refl).
    unfold _calculate_score, _generate_code_quality_recommendations.
    rewrite deduct_penalty_sum.
    match goal with
    | |- context [penalty_sum (map severity ?l)] => fold (cost l)
    end.
    rewrite cost_app, length_app.
    pose proof (tooling_advice_bounds (fst pm) (fst li) (fst fo) (fst so) (fst tc)
                  (detect_pre_commit f root) (fst (detect_ci f root))).
    pose proof (coverage_advice_bounds L cov ty tot). lia.
Qed.

(** The bound is reached: a project with Black, isort and one function
    without annotations, and nothing else, scores 76 with eight
    recommendations. *)
Lemma audit_score_at_least_76_witness :
  exists r, audit_project Cases.libs Cases.neglected_tree Sample.root = Ok r
            /\ score r = 76 /\ length (recommendations r) = 8%nat
            /\ 76 <= score r.
Proof.
  eexists. split; [vm_compute; reflexivity|].
  split; [reflexivity|]. split; [reflexivity|].
  match goal with
  | |- 76 <= score ?r =>
      apply (audit_score_at_least_76 Cases.libs Cases.neglected_tree Sample.root r)
  end.
  vm_compute. reflexivity.
Defined.

(** *** Detectors *)

Lemma declares_nothing (L : Libs) (f : fs) (root : path) (k : string) :
  no_tool_table L f root ->
  declares (_read_toml L f (child root "pyproject.toml")) k = Ok false.
Proof.
  unfold no_tool_table, declares.
  destruct (_read_toml L f (child root "pyproject.toml")) as [[|e t]|];
    [reflexivity| |reflexivity].
  intros ->. reflexivity.
Qed.

Ltac branch :=
  repeat match goal with
         | |- context [if ?c then _ else _] => destruct c
         end.

Lemma ruff_table_behind (L : Libs) (f : fs) (root : path) :
  detects (detect_formatter L f root) "ruff"
  \/ detects (detect_import_sorter L f root) "ruff" ->
  declares (_read_toml L f (child root "pyproject.toml")) "ruff" = Ok true.
Proof.
  intros [[e H]|[e H]].
  - unfold detect_formatter in H. cbv zeta in H.
    destruct (declares _ "ruff") as [[|]|]; [reflexivity| |discriminate H].
    exfalso. cbn [rbind] in H.
    repeat match type of H with
           | rbind ?c _ = _ => destruct c as [[|]|]; cbn [rbind] in H
           | (if ?c then _ else _) = _ => destruct c
           end; discriminate H.
  - unfold detect_import_sorter in H. cbv zeta in H.
    destruct (declares _ "ruff") as [[|]|]; [reflexivity| |discriminate H].
    exfalso. cbn [rbind] in H.
    repeat match type of H with
           | rbind ?c _ = _ => destruct c as [[|]|]; cbn [rbind] in H
           | (if ?c then _ else _) = _ => destruct c
           end; discriminate H.
Qed.

Lemma ruff_linter_of_table (L : Libs) (f : fs) (root : path) :
  declares (_read_toml L f (child root "pyproject.toml")) "ruff" = Ok true ->
  detects (detect_linter L f root) "ruff".
Proof.
  intros Hd. unfold detects, detect_linter. cbv zeta. rewrite Hd. cbn [rbind].
  destruct (exists_ f (child root "ruff.toml")); eexists; reflexivity.
Qed.

(** X4. When the formatter detector or the import-sorter detector answers
    ruff, so does the linter detector: both read it off the [tool.ruff]
    table, which is enough for the linter. *)
Theorem ruff_formatter_implies_ruff_linter (L : Libs) (f : fs) (root : path) :
  detects (detect_formatter L f root) "ruff"
  \/ detects (detect_import_sorter L f root) "ruff" ->
  detects (detect_linter L f root) "ruff".
Proof. intros H. apply ruff_linter_of_table, ruff_table_behind, H. Qed.

Lemma ruff_formatter_implies_ruff_linter_witness :
  detects (detect_formatter Sample.libs Sample.modern_tree Sample.root) "ruff"
  /\ detects (detect_linter Sample.libs Sample.modern_tree Sample.root) "ruff".
Proof.
  assert (H : detects (detect_formatter Sample.libs Sample.modern_tree Sample.root)
                "ruff")
    by (eexists; vm_compute; reflexivity).
  split; [exact H|].
  apply ruff_formatter_implies_ruff_linter. left. exact H.
Defined.

(** X5. On a project whose manifest is missing, unreadable or without a
    [tool] table, none of the five tool detectors raises; the audit of such
    a project directory returns as soon as the type-coverage analysis
    does. *)
Theorem detectors_return_without_tool_table (L : Libs) (f : fs) (root : path) :
  no_tool_table L f root ->
  is_ok (detect_package_manager L f root) = true
  /\ is_ok (detect_linter L f root) = true
  /\ is_ok (detect_formatter L f root) = true
  /\ is_ok (detect_import_sorter L f root) = true
  /\ is_ok (detect_type_checker L f root) = true
  /\ (is_dir f root = true ->
      is_ok (analyze_type_coverage L f root) = true ->
      is_ok (audit_project L f root) = true).
Proof.
  intros H.
  assert (Hpm : is_ok (detect_package_manager L f root) = true).
  { unfold detect_package_manager. cbv zeta.
    rewrite !(declares_nothing L f root _ H). cbn [rbind]. branch; reflexivity. }
  assert (Hli : is_ok (detect_linter L f root) = true).
  { unfold detect_linter. cbv zeta.
    rewrite !(declares_nothing L f root _ H). cbn [rbind]. branch; reflexivity. }
  assert (Hfo : is_ok (detect_formatter L f root) = true).
  { unfold detect_formatter. cbv zeta.
    rewrite !(declares_nothing L f root _ H). cbn [rbind]. branch; reflexivity. }
  assert (Hso : is_ok (detect_import_sorter L f root) = true).
  { unfold detect_import_sorter. cbv zeta.
    rewrite !(declares_nothing L f root _ H). cbn [rbind]. branch; reflexivity. }
  assert (Htc : is_ok (detect_type_checker L f root) = true).
  { unfold detect_type_checker. cbv zeta.
    rewrite !(declares_nothing L f root _ H). cbn [rbind]. branch; reflexivity. }
  repeat (split; [assumption|]).
  intros Hdir Hcov. unfold audit_project.
  assert (Hex : exists_ f root = true).
  { unfold is_dir in Hdir. unfold exists_. destruct (f !! root); [reflexivity|discriminate]. }
  rewrite Hex, Hdir. cbn [negb].
  destruct (detect_package_manager L f root); [|discriminate].
  destruct (detect_linter L f root); [|discriminate].
  destruct (detect_formatter L f root); [|discriminate].
  destruct (detect_import_sorter L f root); [|discriminate].
  destruct (detect_type_checker L f root); [|discriminate].
  destruct (analyze_type_coverage L f root) as [[[cov ty] tot]|]; [|discriminate].
  cbn [rbind].
  match goal with |- context [if ?c then _ else _] => destruct c end; reflexivity.
Qed.

Lemma detectors_return_without_tool_table_witness :
  no_tool_table Sample.libs Sample.legacy_tree Sample.root
  /\ is_ok (detect_linter Sample.libs Sample.legacy_tree Sample.root) = true
  /\ is_ok (audit_project Sample.libs Sample.legacy_tree Sample.root) = true.
Proof.
  assert (H : no_tool_table Sample.libs Sample.legacy_tree Sample.root)
    by (vm_compute; exact I).
  destruct (detectors_return_without_tool_table
              Sample.libs Sample.legacy_tree Sample.root H)
    as (_ & Hli & _ & _ & _ & Haudit).
  split; [exact H|]. split; [exact Hli|].
  apply Haudit; vm_compute; reflexivity.
Defined.

(** *** Type coverage *)

Lemma count_functions_le (L : Libs) (f : fs) (files : list path) :
  forall total typed total' typed' : nat,
    count_functions L f files total typed = Ok (total', typed') ->
    (typed <= total)%nat ->
    (typed' <= total')%nat /\ (total <= total')%nat.
Proof.
  induction files as [|p files IH]; intros total typed total' typed' H Hle; simpl in H.
  - inversion H; subst. lia.
  - destruct (excluded p); [exact (IH _ _ _ _ H Hle)|].
    destruct (read_file f p) as [c|e]; [|discriminate H]. cbn [rbind] in H.
    destruct (ast_functions L c) as [fns|]; [|exact (IH _ _ _ _ H Hle)].
    pose proof (List.filter_length_le has_annotation fns) as Hf.
    destruct (IH _ _ _ _ H); lia.
Qed.

(** X6. Whatever [analyze_type_coverage] returns is coherent: no more
    functions are typed than there are, the percentage lies between 0 and
    100, it is 100.0 when there is no function, and it is 100 when every
    function is typed. *)
Theorem type_coverage_invariants (L : Libs) (f : fs) (root : path)
    (cov : Q) (ty tot : nat) :
  analyze_type_coverage L f root = Ok (cov, ty, tot) ->
  (ty <= tot)%nat
  /\ (0 <= cov)%Q /\ (cov <= 100)%Q
  /\ (tot = 0%nat -> cov = 100%Q)
  /\ (ty = tot -> (cov == 100)%Q).
Proof.
  unfold analyze_type_coverage. intros H.
  destruct (count_functions L f (glob_rec f root is_py) 0 0) as [[total typed]|e] eqn:E;
    [|discriminate H].
  cbn [rbind] in H.
  destruct (count_functions_le _ _ _ _ _ _ _ E (Nat.le_refl 0)) as [Hle _].
  destruct (total =? 0)%nat eqn:Ez.
  - inversion H; subst. repeat split; try lia; try reflexivity; discriminate.
  - apply Nat.eqb_neq in Ez. inversion H; subst. clear H.
    assert (Hp : Z.pos (Pos.of_nat tot) = Z.of_nat tot).
    { destruct tot; [congruence|]. rewrite <- Pos.of_nat_succ.
      rewrite Zpos_P_of_succ_nat. lia. }
    repeat split; try lia.
    + unfold Qle, Qmult. simpl. lia.
    + unfold Qle, Qmult. simpl. rewrite Pos.mul_1_r, Hp. lia.
    + intros ->. unfold Qeq, Qmult. simpl. rewrite Pos.mul_1_r, Hp. lia.
Qed.

Lemma type_coverage_invariants_witness :
  analyze_type_coverage Sample.libs Cases.half_typed_tree Sample.root
  = Ok ((1 # 2) * 100, 1%nat, 2%nat)%Q
  /\ (1 <= 2)%nat /\ ((1 # 2) * 100 <= 100)%Q.
Proof.
  assert (E : analyze_type_coverage Sample.libs Cases.half_typed_tree Sample.root
              = Ok ((1 # 2) * 100, 1%nat, 2%nat)%Q)
    by (vm_compute; reflexivity).
  destruct (type_coverage_invariants _ _ _ _ _ _ E) as (Hle & _ & Hhi & _).
  split; [exact E|]. split; [exact Hle|exact Hhi].
Defined.

Lemma excluded_below (root p : path) :
  excluded root = true -> below root p = true -> excluded p = true.
Proof.
  unfold below, excluded. intros Hr Hb.
  apply andb_true_iff in Hb. destruct Hb as [_ Hb]. apply bool_decide_eq_true in Hb.
  rewrite <- (firstn_skipn (length root) p), Hb, existsb_app, Hr. reflexivity.
Qed.

Lemma count_functions_excluded (L : Libs) (f : fs) (files : list path) :
  forall total typed : nat,
    Forall (fun p => excluded p = true) files ->
    count_functions L f files total typed = Ok (total, typed).
Proof.
  induction files as [|p files IH]; intros total typed H; simpl; [reflexivity|].
  inversion H; subst. rewrite H2. apply IH. assumption.
Qed.

(** X7. The exclusion test looks at every component of a file's path, the
    project root's own components included: for a project that lives in or
    below a directory called [venv], [.venv], [env], [.env],
    [node_modules], [__pycache__], [.git], [build] or [dist], every source
    file is skipped and the analysis returns (100.0, 0, 0), whatever the
    project contains. *)
Theorem excluded_root_hides_every_source (L : Libs) (f : fs) (root : path) :
  excluded root = true ->
  analyze_type_coverage L f root = Ok (100%Q, 0%nat, 0%nat).
Proof.
  intros Hr. unfold analyze_type_coverage.
  rewrite count_functions_excluded; [reflexivity|].
  apply List.Forall_forall. intros p Hp. unfold glob_rec in Hp.
  apply List.filter_In in Hp. destruct Hp as [_ Hp].
  apply andb_true_iff in Hp. destruct Hp as [Hp _].
  apply andb_true_iff in Hp. destruct Hp as [Hp _].
  exact (excluded_below root p Hr Hp).
Qed.

(** The project in [/home/build] has one function, without annotations, and
    is reported as fully covered. *)
Lemma excluded_root_hides_every_source_witness :
  glob_rec Cases.build_tree Cases.build_root is_py
  = [child Cases.build_root "app.py"]
  /\ ast_functions Sample.libs Sample.plain_source
     = Some [{| returns := false; args := [false]; posonlyargs := [];
                kwonlyargs := [] |}]
  /\ analyze_type_coverage Sample.libs Cases.build_tree Cases.build_root
     = Ok (100%Q, 0%nat, 0%nat).
Proof.
  split; [vm_compute; reflexivity|]. split; [reflexivity|].
  apply excluded_root_hides_every_source. reflexivity.
Defined.

(** *** Pre-commit *)

Lemma penalty_sum_nonneg (l : list Severity) : 0 <= penalty_sum l.
Proof. pose proof (penalty_sum_length l). lia. Qed.

Lemma record_tool_other (key k : string) (tool : option string)
    (detected : list (string * string)) :
  String.eqb k key = false ->
  assoc k (record_tool key tool detected) = assoc k detected.
Proof.
  intros Hk. unfold record_tool. destruct tool as [t|]; [|reflexivity].
  destruct (String.eqb t ""); [reflexivity|]. apply assoc_set_ne, Hk.
Qed.

(** X8. An audit of a project without [.pre-commit-config.yaml] always
    holds the pre-commit recommendation, scores at most 99, and is never
    marked "modern", whatever else the project uses. *)
Theorem missing_pre_commit_is_reported (L : Libs) (f : fs) (root : path)
    (r : AuditResult) :
  audit_project L f root = Ok r ->
  detect_pre_commit f root = false ->
  In (tooling "No pre-commit hooks detected. Consider adding pre-commit"
              INFO (Some "quickforge add pre-commit"))
     (recommendations r)
  /\ score r <= 99
  /\ assoc "status" (tooling_detected r) = None.
Proof.
  intros H Hpc.
  pose proof H as H0.
  destruct (audit_project_inv _ _ _ _ H)
    as (pm & li & fo & so & tc & cov & ty & tot
        & Epm & Eli & Efo & Eso & Etc & Ecov & Hs & _ & Hlegacy).
  rewrite Hpc, andb_false_r in Hlegacy. specialize (Hlegacy eq_refl).
  assert (Hin : In (tooling "No pre-commit hooks detected. Consider adding pre-commit"
              INFO (Some "quickforge add pre-commit")) (recommendations r)).
  { rewrite Hlegacy. unfold _generate_code_quality_recommendations,
      _generate_tooling_recommendations.
    rewrite !in_app_iff. left. do 6 right. left. left. reflexivity. }
  split; [exact Hin|]. split.
  - rewrite Hs. apply in_split in Hin. destruct Hin as (a & b & ->).
    unfold _calculate_score. rewrite deduct_penalty_sum, map_app, penalty_sum_app.
    simpl map. cbn [penalty_sum tooling severity penalty].
    pose proof (penalty_sum_nonneg (map severity a)).
    pose proof (penalty_sum_nonneg (map severity b)). lia.
  - unfold audit_project in H0.
    destruct (exists_ f root); [|discriminate H0].
    destruct (is_dir f root); [|discriminate H0].
    rewrite Epm, Eli, Efo, Eso, Etc, Ecov, Hpc in H0.
    cbn [negb rbind] in H0. rewrite andb_false_r in H0.
    inversion H0; subst r; clear H0. cbn [tooling_detected].
    rewrite assoc_set_ne by reflexivity.
    rewrite !record_tool_other by reflexivity. reflexivity.
Qed.

Lemma missing_pre_commit_is_reported_witness :
  exists r, audit_project Sample.libs Sample.legacy_tree Sample.root = Ok r
            /\ score r <= 99
            /\ assoc "status" (tooling_detected r) = None.
Proof.
  eexists. split; [vm_compute; reflexivity|].
  match goal with
  | |- score ?r <= 99 /\ _ =>
      destruct (missing_pre_commit_is_reported
                  Sample.libs Sample.legacy_tree Sample.root r)
        as (_ & Hs & Hst); [vm_compute; reflexivity | vm_compute; reflexivity |]
  end.
  split; [exact Hs|exact Hst].
Defined.

(** *** Linter *)

(** X25. An audit in which the linter detector found nothing always holds
    the "No linter detected" warning and scores at most 95: the test that
    the formatter is not ruff, which guards that warning, never fails when
    there is no linter. *)
Theorem missing_linter_is_always_reported (L : Libs) (f : fs) (root : path)
    (r : AuditResult) (evidence : list (string * string)) :
  audit_project L f root = Ok r ->
  detect_linter L f root = Ok (None, evidence) ->
  In (tooling "No linter detected. Consider adding ruff for code quality"
              WARNING (Some "quickforge add pre-commit (includes ruff)"))
     (recommendations r)
  /\ score r <= 95.
Proof.
  intros H Hli.
  destruct (audit_project_inv _ _ _ _ H)
    as (pm & li & fo & so & tc & cov & ty & tot
        & Epm & Eli & Efo & Eso & Etc & Ecov & Hs & _ & Hlegacy).
  rewrite Hli in Eli. inversion Eli; subst li; clear Eli. cbn [fst] in Hlegacy.
  assert (Hfo : is_tool (fst fo) "ruff" = false).
  { destruct (is_tool (fst fo) "ruff") eqn:E; [|reflexivity]. exfalso.
    destruct fo as [[t|] e]; [|discriminate E]. cbn [fst is_tool] in E.
    apply String.eqb_eq in E. subst t.
    assert (Hd : detects (detect_formatter L f root) "ruff")
      by (exists e; exact Efo).
    destruct (ruff_linter_of_table L f root (ruff_table_behind L f root (or_introl Hd)))
      as [e' He'].
    rewrite Hli in He'. discriminate He'. }
  match type of Hlegacy with
  | ?c = false -> _ =>
      assert (Hc : c = false) by (destruct (is_tool (fst pm) "uv"); reflexivity)
  end.
  specialize (Hlegacy Hc). clear Hc.
  assert (Hin : In (tooling "No linter detected. Consider adding ruff for code quality"
              WARNING (Some "quickforge add pre-commit (includes ruff)"))
              (recommendations r)).
  { rewrite Hlegacy. unfold _generate_code_quality_recommendations,
      _generate_tooling_recommendations.
    rewrite !in_app_iff. left. right. right. left.
    unfold linter_advice. rewrite Hfo. left. reflexivity. }
  split; [exact Hin|].
  rewrite Hs. apply in_split in Hin. destruct Hin as (a & b & ->).
  unfold _calculate_score. rewrite deduct_penalty_sum, map_app, penalty_sum_app.
  simpl map. cbn [penalty_sum tooling severity penalty].
  pose proof (penalty_sum_nonneg (map severity a)).
  pose proof (penalty_sum_nonneg (map severity b)). lia.
Qed.

Lemma missing_linter_is_always_reported_witness :
  exists r, audit_project Cases.libs Cases.neglected_tree Sample.root = Ok r
            /\ In (tooling "No linter detected. Consider adding ruff for code quality"
                     WARNING (Some "quickforge add pre-commit (includes ruff)"))
                  (recommendations r).
Proof.
  eexists. split; [vm_compute; reflexivity|].
  match goal with
  | |- In _ (recommendations ?r) =>
      destruct (missing_linter_is_always_reported
                  Cases.libs Cases.neglected_tree Sample.root r [])
        as (Hin & _); [vm_compute; reflexivity | vm_compute; reflexivity | exact Hin]
  end.
Defined.

(** *** Continuous integration *)

Lemma glob_spec (f : fs) (d p : path) (pat : string -> bool) :
  In p (glob f d pat)
  <-> is_Some (f !! p) /\ parent p = d /\ p <> [] /\ is_dir f d = true
      /\ pat (name p) = true.
Proof.
  unfold glob. rewrite List.filter_In, !andb_true_iff, negb_true_iff.
  rewrite !bool_decide_eq_true, bool_decide_eq_false.
  assert (Hin : In p (map fst (map_to_list f)) <-> is_Some (f !! p)).
  { rewrite in_map_iff. split.
    - intros ([q x] & <- & Hq). apply list_elem_of_In in Hq.
      apply elem_of_map_to_list in Hq. simpl. rewrite Hq. eauto.
    - intros [x Hx]. exists (p, x). split; [reflexivity|].
      apply list_elem_of_In. apply elem_of_map_to_list. exact Hx. }
  rewrite Hin. tauto.
Qed.

Lemma length_chars (s : string) :
  length (list_ascii_of_string s) = String.length s.
Proof. induction s as [|c s IH]; simpl; congruence. Qed.

Lemma endswith_length (s p : string) :
  endswith s p = true -> (String.length p <= String.length s)%nat.
Proof.
  unfold endswith.
  rewrite <- (length_chars s), <- (length_chars p).
  rewrite <- (length_rev (list_ascii_of_string s)), <- (length_rev (list_ascii_of_string p)).
  generalize (rev (list_ascii_of_string s)), (rev (list_ascii_of_string p)).
  intros rs rp. revert rs. induction rp as [|a rp IH]; intros rs H; [simpl; lia|].
  destruct rs as [|b rs]; [discriminate H|]. simpl in H.
  destruct (ascii_dec a b); [|discriminate H]. specialize (IH rs H). simpl. lia.
Qed.

(** X24. [detect_ci] answers GitHub Actions exactly when [.github/workflows]
    is a directory with an entry whose name ends in [.yml]; workflows named
    [*.yaml] do not count. *)
Theorem github_actions_needs_a_yml_workflow (f : fs) (root : path) :
  fst (detect_ci f root) = Some "github-actions"
  <-> is_dir f (child (child root ".github") "workflows") = true
      /\ exists p, yml_entry f (child (child root ".github") "workflows") p.
Proof.
  unfold detect_ci. cbv zeta.
  set (w := child (child root ".github") "workflows").
  assert (Hnonempty : negb (length (glob f w is_yml) =? 0)%nat = true
                      <-> is_dir f w = true /\ exists p, yml_entry f w p).
  { rewrite negb_true_iff, Nat.eqb_neq. split.
    - intros Hl. destruct (glob f w is_yml) as [|p l] eqn:E; [contradiction|].
      assert (Hp : In p (glob f w is_yml)) by (rewrite E; left; reflexivity).
      apply glob_spec in Hp. destruct Hp as (Hs & Hpar & Hne & Hd & Hy).
      split; [exact Hd|]. exists p. unfold yml_entry, is_yml in *.
      apply andb_true_iff in Hy. tauto.
    - intros (Hd & p & Hs & Hne & Hpar & Hy).
      assert (Hp : In p (glob f w is_yml)).
      { apply glob_spec. unfold is_yml. rewrite Hy.
        repeat split; try assumption.
        apply Nat.leb_le. apply (endswith_length _ _ Hy). }
      destruct (glob f w is_yml); [destruct Hp|discriminate]. }
  destruct (exists_ f w && negb (length (glob f w is_yml) =? 0)%nat) eqn:E.
  - apply andb_true_iff in E. destruct E as [_ E]. apply Hnonempty in E.
    cbn [fst]. tauto.
  - split.
    + intros H. exfalso.
      repeat match type of H with
             | fst (if ?c then _ else _) = _ => destruct c
             end; discriminate H.
    + intros H. exfalso. apply Hnonempty in H as H'.
      destruct H as [Hd _]. unfold is_dir in Hd. unfold exists_ in E.
      destruct (f !! w); [|discriminate Hd]. rewrite H' in E. discriminate E.
Qed.

(** A workflow called [ci.yaml] is not seen; called [ci.yml], it is. *)
Lemma github_actions_needs_a_yml_workflow_witness :
  fst (detect_ci (Cases.ci_tree "ci.yaml") Sample.root) = None
  /\ fst (detect_ci (Cases.ci_tree "ci.yml") Sample.root) = Some "github-actions"
  /\ exists p, yml_entry (Cases.ci_tree "ci.yml") Cases.workflows p.
Proof.
  split; [vm_compute; reflexivity|]. split; [vm_compute; reflexivity|].
  exact (proj2 (proj1 (github_actions_needs_a_yml_workflow (Cases.ci_tree "ci.yml")
                         Sample.root)
                  ltac:(vm_compute; reflexivity))).
Defined.

End AuditorInvariants.

(** ** Invariants of the upgrade *)

Module UpgraderInvariants.
Import Py St FS Ext Auditor Upgrader Props DictFacts UpgraderProps Invariants.

(** *** The plan *)

(** What [create_migration_plan] returns: the package-manager step of the
    source tool, then one step for each of four tests. *)
Lemma plan_inv (L : Libs) (f : fs) (root : path) (from_tool : option string)
    (steps : list MigrationStep) :
  create_migration_plan L f root from_tool = Ok steps ->
  exists (source_tool : option SourceTool) (b1 b2 b3 b4 : bool),
    (match from_tool with
     | None => detect_source_tool L f root
     | Some t => if String.eqb t "" then detect_source_tool L f root
                 else Ok (tool_map t)
     end) = Ok source_tool
    /\ steps =
       (match source_tool with
        | Some t => [package_manager_step root t]
        | None => []
        end)
       ++ (if b1 then [step FORMATTER "Migrate Black configuration to ruff format"
                         "black" "ruff" [child root "pyproject.toml"]] else [])
       ++ (if b2 then [step LINTER "Migrate isort configuration to ruff lint.isort"
                         "isort" "ruff"
                         [child root "pyproject.toml"; child root ".isort.cfg"]] else [])
       ++ (if b3 then [step LINTER "Migrate flake8 configuration to ruff lint"
                         "flake8" "ruff"
                         [child root "pyproject.toml"; child root ".flake8"]] else [])
       ++ (if b4 then [step TYPE_CHECKER "Migrate mypy configuration to basedpyright"
                         "mypy" "basedpyright"
                         [child root "pyproject.toml"; child root "mypy.ini"]] else []).
Proof.
  unfold create_migration_plan. intros H.
  match type of H with rbind ?c _ = _ => destruct c as [source_tool|e] end;
    [|discriminate H].
  cbn [rbind] in H.
  destruct (detect_formatter L f root) as [fo|]; [|discriminate H].
  cbn [rbind] in H.
  destruct (detect_import_sorter L f root) as [so|]; [|discriminate H].
  cbn [rbind] in H.
  destruct (detect_linter L f root) as [li|]; [|discriminate H].
  cbn [rbind] in H.
  destruct (detect_type_checker L f root) as [tc|]; [|discriminate H].
  cbn [rbind] in H. cbv zeta in H.
  exists source_tool, (is_tool (fst fo) "black"), (is_tool (fst so) "isort"),
    (is_tool (fst li) "flake8"), (is_tool (fst tc) "mypy").
  split; [reflexivity|].
  inversion H as [E]. clear H E.
  destruct (is_tool (fst fo) "black"), (is_tool (fst so) "isort"),
    (is_tool (fst li) "flake8"), (is_tool (fst tc) "mypy");
    rewrite ?app_nil_r, <- ?app_assoc; reflexivity.
Qed.



(** X10. A non-empty [from_tool] decides the package-manager step alone,
    without any detection: one of the four known names puts its step at the
    head of the plan, whatever the project uses; any other name gives a
    plan without a package-manager step. *)
Theorem override_decides_the_package_manager_step (L : Libs) (f : fs) (root : path)
    (t : string) (steps : list MigrationStep) :
  t <> "" ->
  create_migration_plan L f root (Some t) = Ok steps ->
  match tool_map t with
  | Some tool =>
      exists rest, steps = package_manager_step root tool :: rest
                   /\ Forall (fun s => is_package_manager_step s = false) rest
  | None => Forall (fun s => is_package_manager_step s = false) steps
  end.
Proof.
  intros Ht H.
  destruct (plan_inv _ _ _ _ _ H) as (st & b1 & b2 & b3 & b4 & Est & ->).
  apply String.eqb_neq in Ht. rewrite Ht in Est. inversion Est; subst st; clear Est.
  destruct (tool_map t) as [tool|].
  - eexists. split; [reflexivity|].
    destruct b1, b2, b3, b4; repeat constructor.
  - destruct b1, b2, b3, b4; repeat constructor.
Qed.

(** The legacy project uses pip; asked to migrate from Poetry the plan
    starts with the Poetry step, and asked to migrate from conda it has no
    package-manager step. *)
Lemma override_decides_the_package_manager_step_witness :
  (exists rest,
     create_migration_plan Sample.libs Sample.legacy_tree Sample.root (Some "poetry")
     = Ok (package_manager_step Sample.root POETRY :: rest))
  /\ (exists steps,
        create_migration_plan Sample.libs Sample.legacy_tree Sample.root (Some "conda")
        = Ok steps
        /\ Forall (fun s => is_package_manager_step s = false) steps).
Proof.
  split.
  - assert (exists steps,
              create_migration_plan Sample.libs Sample.legacy_tree Sample.root
                (Some "poetry") = Ok steps) as [steps E]
      by (eexists; vm_compute; reflexivity).
    destruct (override_decides_the_package_manager_step
                Sample.libs Sample.legacy_tree Sample.root "poetry" steps)
      as (rest & -> & _); [discriminate | exact E |].
    exists rest. exact E.
  - eexists. split; [vm_compute; reflexivity|].
    match goal with
    | |- Forall _ ?s =>
        exact (override_decides_the_package_manager_step
                 Sample.libs Sample.legacy_tree Sample.root "conda" s
                 ltac:(discriminate) ltac:(vm_compute; reflexivity))
    end.
Defined.

(** *** The loop over the steps *)

Lemma execute_spec (L : Libs) (root : path) (dr : bool)
    (steps : list MigrationStep) :
  forall (log : list string * list string) (w : world),
  exists (changes errors : list string) (w' : world),
    execute L root dr steps log w = (Ok (fst log ++ changes, snd log ++ errors), w')
    /\ (length errors <= length steps)%nat
    /\ Forall (step_error L steps) errors.
Proof.
  induction steps as [|st steps IH]; intros log w.
  - exists [], [], w. simpl. rewrite !app_nil_r. destruct log.
    split; [reflexivity|]. split; [lia|constructor].
  - cbn [execute]. unfold St.bind at 1. unfold try_catch, St.bind at 1.
    assert (Hmono : forall errs, Forall (step_error L steps) errs ->
                                 Forall (step_error L (st :: steps)) errs).
    { intros errs. apply List.Forall_impl. intros m (s0 & e0 & Hin & ->).
      exists s0, e0. split; [right; exact Hin|reflexivity]. }
    destruct (run_step L root dr st w) as [[ch|e] w1].
    + cbn [ret fst snd].
      destruct (IH (fst log ++ ch, snd log) w1) as (c & e & w' & E & Hl & Hf).
      cbn [fst snd] in E. rewrite E.
      exists (ch ++ c), e, w'. rewrite app_assoc.
      split; [reflexivity|]. split; [simpl; lia|]. apply Hmono, Hf.
    + cbn [ret fst snd].
      destruct (IH (fst log, snd log ++ ["Error during " +:+ description st
                                          +:+ ": " +:+ str_exn L e]) w1)
        as (c & e' & w' & E & Hl & Hf).
      cbn [fst snd] in E. rewrite E.
      eexists c, (_ :: e'), w'. rewrite <- app_assoc.
      split; [reflexivity|]. split; [simpl; lia|].
      constructor; [|apply Hmono, Hf].
      exists st, e. split; [left; reflexivity|reflexivity].
Qed.


(** *** The result *)

Lemma migrate_inv (L : Libs) (root : path) (from_tool : option string)
    (dr : bool) (bp : option path) (ch : list string) (f : fs) (r : UpgradeResult) :
  fst (migrate L root from_tool dr bp ch f) = Ok r ->
  exists steps more,
    create_migration_plan L f root from_tool = Ok steps
    /\ migration_steps r = steps
    /\ backup_path r = bp
    /\ Upgrader.project_path r = root
    /\ changes_made r = ch ++ more
    /\ (success r = true <-> errors r = [])
    /\ (length (errors r) <= length steps)%nat
    /\ Forall (step_error L steps) (errors r).
Proof.
  unfold migrate, St.bind, reads.
  destruct (create_migration_plan L f root from_tool) as [[|st steps]|e];
    cbv beta iota zeta; [| |simpl; discriminate].
  - simpl. intros H. inversion H. eexists [], _. cbn.
    repeat split; auto.
  - match goal with
    | |- context [execute L root dr ?ss ?log ?w] =>
        destruct (execute_spec L root dr ss log w)
          as (c & e & w' & E & Hl & Hf); rewrite E
    end.
    cbn [fst snd app] in *. destruct w' as [f' doc].
    assert (Hs : (length e =? 0)%nat = true <-> e = []).
    { destruct e; simpl; split; congruence. }
    destruct (negb dr && truthy doc); cbn [fst].
    + destruct (as_table doc) as [t|x]; cbn [fst]; [|discriminate].
      destruct (_write_toml_doc L (child root "pyproject.toml") t f') as [[u|x] f''];
        cbn [fst]; [|discriminate].
      intros H. inversion H; subst r; clear H. cbn.
      eexists _, _. rewrite <- app_assoc.
      repeat split; try reflexivity; try tauto; assumption.
    + intros H. inversion H; subst r; clear H. cbn.
      eexists _, _. repeat split; try reflexivity; try tauto; assumption.
Qed.

(** The three ways through [upgrade_project]. *)
Lemma upgrade_inv (L : Libs) (root : path) (from_tool : option string)
    (dr bk : bool) (f : fs) :
  (is_dir f root = false
   /\ exists msg, upgrade_project L root from_tool dr bk f = (Ok (failed root msg), f))
  \/ (is_dir f root = true /\ bk && negb dr = false
      /\ upgrade_project L root from_tool dr bk f = migrate L root from_tool dr None [] f)
  \/ (is_dir f root = true /\ bk && negb dr = true
      /\ ((exists e f1, create_backup L root f = (Raise e, f1)
                        /\ upgrade_project L root from_tool dr bk f = (Raise e, f1))
          \/ (exists b f1, create_backup L root f = (Ok b, f1)
                /\ upgrade_project L root from_tool dr bk f
                   = migrate L root from_tool dr (Some b)
                       ["Created backup at " +:+ path_str b] f1))).
Proof.
  unfold upgrade_project, St.bind, gets.
  destruct (exists_ f root) eqn:Hex; cbn [negb].
  - destruct (is_dir f root) eqn:Hdir; cbn [negb].
    + right. destruct (bk && negb dr) eqn:Hb.
      * right. repeat (split; [reflexivity|]).
        destruct (create_backup L root f) as [[b|e] f1]; [right|left];
          eexists _, _; split; reflexivity.
      * left. repeat (split; [reflexivity|]). reflexivity.
    + left. split; [reflexivity|]. eexists. reflexivity.
  - left. split.
    + unfold exists_ in Hex. unfold is_dir. destruct (f !! root); [discriminate|reflexivity].
    + eexists. reflexivity.
Qed.

Lemma create_backup_path (L : Libs) (root : path) (f f1 : fs) (b : path) :
  create_backup L root f = (Ok b, f1) -> b = backup_dir_of L root.
Proof.
  unfold create_backup. cbv zeta. unfold St.bind. intros Eb.
  destruct (mkdir_exist_ok (backup_dir_of L root) f) as [[u|x] f0]; [|discriminate Eb].
  destruct (for_each _ _ f0) as [[u'|x] f2]; [|discriminate Eb].
  inversion Eb. reflexivity.
Qed.

(** X12. Whatever [upgrade_project] returns is coherent: [success] is true
    exactly when [errors] is empty; there is at most one error per step of
    the plan (and exactly the one message of an invalid root when there is
    no plan); [backup_path] is set only for a real run with [backup], to
    the backup directory, and then the first change reported is the
    backup. *)
Theorem upgrade_result_is_consistent (L : Libs) (root : path)
    (from_tool : option string) (dr bk : bool) (f : fs) (r : UpgradeResult) :
  fst (upgrade_project L root from_tool dr bk f) = Ok r ->
  Upgrader.project_path r = root
  /\ (success r = true <-> errors r = [])
  /\ (length (errors r) <= Nat.max 1 (length (migration_steps r)))%nat
  /\ (bk && negb dr = false -> backup_path r = None)
  /\ (forall b, backup_path r = Some b ->
                b = backup_dir_of L root
                /\ head (changes_made r) = Some ("Created backup at " +:+ path_str b)).
Proof.
  intros H.
  destruct (upgrade_inv L root from_tool dr bk f)
    as [(_ & msg & E)|[(_ & Hb & E)|(_ & Hb & [(e & f1 & _ & E)|(b & f1 & Eb & E)])]];
    rewrite E in H; clear E.
  - inversion H; subst r. cbn.
    split; [reflexivity|]. split; [split; discriminate|]. split; [lia|].
    split; [reflexivity|]. discriminate.
  - destruct (migrate_inv _ _ _ _ _ _ _ _ H)
      as (steps & more & _ & Hst & Hbp & Hpp & _ & Hs & Hl & _).
    rewrite Hst, Hbp.
    split; [exact Hpp|]. split; [exact Hs|]. split; [lia|].
    split; [reflexivity|]. discriminate.
  - discriminate H.
  - destruct (migrate_inv _ _ _ _ _ _ _ _ H)
      as (steps & more & _ & Hst & Hbp & Hpp & Hch & Hs & Hl & _).
    apply create_backup_path in Eb. subst b.
    rewrite Hst, Hbp, Hch, Hb.
    split; [exact Hpp|]. split; [exact Hs|]. split; [lia|].
    split; [discriminate|].
    intros b' Hb'. inversion Hb'; subst b'. split; reflexivity.
Qed.

Lemma upgrade_result_is_consistent_witness :
  exists r,
    fst (upgrade_project Sample.libs Sample.root None false true Sample.modern_tree)
    = Ok r
    /\ success r = true /\ errors r = []
    /\ backup_path r = Some (backup_dir_of Sample.libs Sample.root).
Proof.
  eexists. split; [vm_compute; reflexivity|].
  match goal with
  | |- success ?r = true /\ _ =>
      destruct (upgrade_result_is_consistent Sample.libs Sample.root None false true
                  Sample.modern_tree r)
        as (_ & Hs & _ & _ & Hb); [vm_compute; reflexivity|]
  end.
  split; [apply Hs; reflexivity|]. split; [reflexivity|].
  destruct (Hb _ eq_refl) as [-> _]. reflexivity.
Defined.

(** X13. A dry run on a project directory whose plan can be made never
    raises: it returns a result that carries exactly that plan and no
    backup path, and every error in it names a step of the plan. *)
Theorem dry_run_reports_the_plan (L : Libs) (root : path)
    (from_tool : option string) (bk : bool) (f : fs) (steps : list MigrationStep) :
  is_dir f root = true ->
  create_migration_plan L f root from_tool = Ok steps ->
  exists r, fst (upgrade_project L root from_tool true bk f) = Ok r
            /\ migration_steps r = steps
            /\ backup_path r = None
            /\ Forall (step_error L steps) (errors r).
Proof.
  intros Hdir Hplan.
  destruct (upgrade_inv L root from_tool true bk f)
    as [(Hn & _)|[(_ & Hb & E)|(_ & Hb & _)]].
  - congruence.
  - rewrite E.
    assert (exists r, fst (migrate L root from_tool true None [] f) = Ok r) as [r Hr].
    { unfold migrate, St.bind, reads. rewrite Hplan.
      destruct steps as [|st steps]; cbv beta iota zeta; [eexists; reflexivity|].
      match goal with
      | |- context [execute L root true ?ss ?log ?w] =>
          destruct (execute_spec L root true ss log w)
            as (c & e & w' & Ex & _); rewrite Ex
      end.
      destruct w' as [f' doc]. cbn [negb andb fst]. eexists; reflexivity. }
    exists r. split; [exact Hr|].
    destruct (migrate_inv _ _ _ _ _ _ _ _ Hr)
      as (steps' & more & Hp' & Hst & Hbp & _ & _ & _ & _ & Hf).
    rewrite Hplan in Hp'. inversion Hp'; subst steps'. auto.
  - rewrite andb_false_r in Hb. discriminate.
Qed.

Lemma dry_run_reports_the_plan_witness :
  exists steps r,
    create_migration_plan Sample.libs Sample.legacy_tree Sample.root None = Ok steps
    /\ fst (upgrade_project Sample.libs Sample.root None true true Sample.legacy_tree)
       = Ok r
    /\ migration_steps r = steps
    /\ map source steps = ["pip"; "flake8"].
Proof.
  assert (exists steps,
            create_migration_plan Sample.libs Sample.legacy_tree Sample.root None
            = Ok steps /\ map source steps = ["pip"; "flake8"])
    as (steps & E & Hsrc)
    by (eexists; split; [vm_compute; reflexivity|reflexivity]).
  destruct (dry_run_reports_the_plan Sample.libs Sample.root None true
              Sample.legacy_tree steps)
    as (r & Hr & Hst & _); [vm_compute; reflexivity | exact E |].
  exists steps, r. auto.
Defined.

(** *** What an upgrade touches *)

Section Touch.
Context (P : path -> Prop).

Lemma changes_only_ret {A : Type} (a : A) : changes_only P (ret a).
Proof. intros f p _. reflexivity. Qed.

Lemma changes_only_gets {A : Type} (g : fs -> A) : changes_only P (gets g).
Proof. intros f p _. reflexivity. Qed.

Lemma changes_only_bind {A B : Type} (m : ST fs A) (k : A -> ST fs B) :
  changes_only P m -> (forall a, changes_only P (k a)) ->
  changes_only P (St.bind m k).
Proof.
  intros Hm Hk f p Hp. unfold St.bind.
  specialize (Hm f p Hp). destruct (m f) as [[a|e] f1]; simpl in *.
  - rewrite (Hk a f1 p Hp). exact Hm.
  - exact Hm.
Qed.

Lemma changes_only_for_each {A : Type} (l : list A) (body : A -> ST fs unit) :
  (forall x, changes_only P (body x)) -> changes_only P (for_each l body).
Proof.
  intros Hb. induction l as [|x l IH]; simpl.
  - apply changes_only_ret.
  - apply changes_only_bind; [apply Hb | intros _; exact IH].
Qed.

Lemma changes_only_write (q : path) (c : string) :
  P q -> changes_only P (write_file q c).
Proof.
  intros Hq f p Hp. unfold write_file.
  destruct (f !! q) as [[|]|]; try reflexivity;
    (destruct (check_parent f q); [|reflexivity]); simpl;
    apply lookup_insert_ne; intros ->; exact (Hp Hq).
Qed.

Lemma changes_only_mkdir (q : path) : P q -> changes_only P (mkdir_exist_ok q).
Proof.
  intros Hq f p Hp. unfold mkdir_exist_ok.
  destruct (f !! q) as [[|]|]; try reflexivity.
  destruct (check_parent f q); [|reflexivity]. simpl.
  apply lookup_insert_ne. intros ->. exact (Hp Hq).
Qed.

Lemma changes_only_copy2 (src dst : path) :
  P dst -> P (child dst (name src)) -> changes_only P (copy2 src dst).
Proof.
  intros H1 H2 f p Hp. unfold copy2.
  destruct (read_file f src); [|reflexivity].
  destruct (is_dir f dst); apply changes_only_write; assumption.
Qed.

End Touch.

Lemma inside_self (d : path) : inside d d.
Proof. exists []. symmetry. apply app_nil_r. Qed.

Lemma inside_child (d p : path) (n : string) : inside d p -> inside d (child p n).
Proof. intros [rest ->]. exists (rest ++ [n]). unfold child. symmetry. apply app_assoc. Qed.

Lemma create_backup_frame (L : Libs) (root : path) :
  changes_only (inside (backup_dir_of L root)) (create_backup L root).
Proof.
  unfold create_backup. cbv zeta.
  apply changes_only_bind; [apply changes_only_mkdir, inside_self|]. intros _.
  apply changes_only_bind; [|intros; apply changes_only_ret].
  apply changes_only_for_each. intros n.
  apply changes_only_bind; [apply changes_only_gets|]. intros [|].
  - apply changes_only_copy2;
      [apply inside_child, inside_self | apply inside_child, inside_child, inside_self].
  - apply changes_only_ret.
Qed.

(** X14. Whatever the flags, the plan and the outcome, [upgrade_project]
    leaves every path as it was, except the manifest, [poetry.lock],
    [.isort.cfg], [.flake8], [mypy.ini] and [.mypy.ini] of the root and,
    in a real run with [backup], what lies in the backup directory. In
    particular [requirements.txt], [Pipfile], [setup.py], [setup.cfg] and
    the sources are never rewritten or removed. *)
Theorem upgrade_touches_only_its_files (L : Libs) (root : path)
    (from_tool : option string) (dr bk : bool) (f : fs) (p : path) :
  ~ In p (migrated root) ->
  (bk && negb dr = true -> ~ inside (backup_dir_of L root) p) ->
  snd (upgrade_project L root from_tool dr bk f) !! p = f !! p.
Proof.
  intros Hp Hb.
  destruct (upgrade_inv L root from_tool dr bk f)
    as [(_ & msg & E)|[(_ & _ & E)|(_ & Hbk & [(e & f1 & Eb & E)|(b & f1 & Eb & E)])]];
    rewrite E; clear E.
  - reflexivity.
  - apply (Frame.keeps_migrate L root dr from_tool None [] f). right. exact Hp.
  - pose proof (create_backup_frame L root f p (Hb Hbk)) as H.
    rewrite Eb in H. exact H.
  - pose proof (create_backup_frame L root f p (Hb Hbk)) as H.
    rewrite Eb in H. cbn [snd] in *. rewrite <- H.
    apply (Frame.keeps_migrate L root dr from_tool (Some b)
             ["Created backup at " +:+ path_str b] f1).
    right. exact Hp.
Qed.

(** A real upgrade of the legacy project, with a backup, leaves its
    requirements file alone. *)
Lemma upgrade_touches_only_its_files_witness :
  snd (upgrade_project Sample.libs Sample.root None false true Sample.legacy_tree)
  !! child Sample.root "requirements.txt"
  = Some (File "requests>=2.28").
Proof.
  rewrite (upgrade_touches_only_its_files Sample.libs Sample.root None false true
             Sample.legacy_tree (child Sample.root "requirements.txt")).
  - vm_compute. reflexivity.
  - intros H. simpl in H.
    repeat (destruct H as [H|H]; [apply child_inj in H; discriminate H|]).
    destruct H.
  - intros _ [rest H]. unfold backup_dir_of, child in H.
    rewrite <- app_assoc in H. apply app_inv_head in H. discriminate H.
Defined.

(** *** Poetry *)

(** [_migrate_poetry_to_uv] up to the point where [dry_run] is read. *)
Lemma poetry_prefix (L : Libs) (root : path) (f : fs) :
  (exists msg, forall dr, _migrate_poetry_to_uv L root dr f = (Ok [msg], f))
  \/ (exists e, forall dr, _migrate_poetry_to_uv L root dr f = (Raise e, f))
  \/ (exists doc' announced,
        _migrate_poetry_to_uv L root true f = (Ok announced, f)
        /\ _migrate_poetry_to_uv L root false f
           = (_write_toml_doc L (child root "pyproject.toml") doc' ;;
              locked <- gets (fun f => exists_ f (child root "poetry.lock")) ;;
              if locked then
                unlink (child root "poetry.lock") ;;
                ret ((announced ++ ["Wrote updated pyproject.toml"])
                     ++ ["Removed poetry.lock"])
              else ret (announced ++ ["Wrote updated pyproject.toml"])) f).
Proof.
  unfold _migrate_poetry_to_uv. cbv zeta. unfold St.bind, gets, lift.
  destruct (exists_ f (child root "pyproject.toml")); cbn [negb];
    [|left; eexists; reflexivity].
  destruct (nonempty (_read_toml_doc L f (child root "pyproject.toml"))) as [doc|];
    [|left; eexists; reflexivity].
  destruct (poetry_to_pep621 L (exists_ f (child root "README.md")) doc)
    as [[[doc' announced]|]|e].
  - right. right. exists doc', announced. split; reflexivity.
  - left. eexists. reflexivity.
  - right. left. exists e. reflexivity.
Qed.

(** X15. The dry run of the Poetry migration is a rehearsal of the real
    one. Where the dry run raises, the real run raises the same exception
    and writes nothing. Where the dry run announces changes, a real run
    that returns either reports the same and touches nothing (there was
    nothing to migrate), or reports them followed by the write of the
    manifest and, if there was one, the removal of [poetry.lock]; the
    manifest is then a regular file and no [poetry.lock] is left. *)
Theorem dry_run_rehearses_the_poetry_migration (L : Libs) (root : path) (f : fs) :
  match fst (_migrate_poetry_to_uv L root true f) with
  | Raise e => _migrate_poetry_to_uv L root false f = (Raise e, f)
  | Ok announced =>
      forall (changes : list string) (f' : fs),
        _migrate_poetry_to_uv L root false f = (Ok changes, f') ->
        (changes = announced /\ f' = f)
        \/ (exists rest,
              changes = announced ++ "Wrote updated pyproject.toml" :: rest
              /\ (rest = [] \/ rest = ["Removed poetry.lock"])
              /\ (exists c, f' !! child root "pyproject.toml" = Some (File c))
              /\ f' !! child root "poetry.lock" = None)
  end.
Proof.
  destruct (poetry_prefix L root f)
    as [[msg E]|[[e E]|(doc' & announced & Ed & Er)]].
  - rewrite !E. cbn [fst]. intros c f' H. inversion H. left. split; reflexivity.
  - rewrite !E. reflexivity.
  - rewrite Ed, Er. cbn [fst]. clear Ed Er. intros c f' H. right.
    assert (Hneq : child root "poetry.lock" <> child root "pyproject.toml").
    { intros E. apply child_inj in E. discriminate. }
    unfold St.bind, _write_toml_doc, write_file, gets, exists_, unlink, ret in H.
    destruct (f !! child root "pyproject.toml") as [[|]|] eqn:Ep; try discriminate H;
    (destruct (check_parent f (child root "pyproject.toml")); [|discriminate H]);
    rewrite lookup_insert_ne in H by congruence;
    (destruct (f !! child root "poetry.lock") as [[|]|] eqn:El;
     cbn in H; rewrite ?lookup_insert_ne in H by congruence; rewrite ?El in H;
     try discriminate H; inversion H; subst c f'; clear H;
     eexists; rewrite <- ?app_assoc; (split; [reflexivity|]);
     (split; [tauto|]);
     (split;
      [eexists; rewrite ?lookup_delete_ne by congruence; apply lookup_insert_eq
      |first [apply lookup_delete_eq
             | rewrite lookup_insert_ne by congruence; exact El]])).
Qed.

(** On the Poetry project the real run reports what the dry run announced,
    then the write and the removal of the lock file. *)
Lemma dry_run_rehearses_the_poetry_migration_witness :
  exists announced,
    fst (_migrate_poetry_to_uv Sample.libs Sample.root true Sample.poetry_tree)
    = Ok announced
    /\ fst (_migrate_poetry_to_uv Sample.libs Sample.root false Sample.poetry_tree)
       = Ok (announced ++ ["Wrote updated pyproject.toml"; "Removed poetry.lock"])
    /\ snd (_migrate_poetry_to_uv Sample.libs Sample.root false Sample.poetry_tree)
       !! child Sample.root "poetry.lock" = None.
Proof.
  eexists.
  split; [vm_compute; reflexivity|]. split; [vm_compute; reflexivity|].
  pose proof (dry_run_rehearses_the_poetry_migration
                Sample.libs Sample.root Sample.poetry_tree) as H.
  match type of H with
  | match ?d with _ => _ end =>
      assert (Ed : exists a, d = Ok a) by (eexists; vm_compute; reflexivity);
      destruct Ed as [a Ed]; rewrite Ed in H
  end.
  match goal with
  | |- snd ?m !! _ = None =>
      assert (Er : exists c, m = (Ok c, snd m)
                             /\ c <> a);
      [ eexists; split;
        [ rewrite (surjective_pairing m) at 1; f_equal; vm_compute; reflexivity
        | intros Hc; rewrite <- Hc in Ed; vm_compute in Ed; discriminate Ed ]
      | destruct Er as (c & Er & Hne);
        destruct (H c (snd m) Er) as [[Hc _]|(rest & _ & _ & _ & Hlock)];
        [ contradiction | exact Hlock ] ]
  end.
Defined.

(** What one turn of the loop over the dependencies does to the list. *)
Lemma dependency_step (deps : list string) (nm : string) (spec : value)
    (deps' : list string) :
  dependency deps (nm, spec) = Ok deps' ->
  deps' = deps
  \/ (nm <> "python" /\ exists e, deps' = deps ++ [e] /\ startswith e nm = true).
Proof.
  unfold dependency.
  destruct (String.eqb nm "python") eqn:En; [intros H; inversion H; auto|].
  apply String.eqb_neq in En.
  assert (Hself : startswith nm nm = true) by apply prefix_refl.
  destruct spec as [s| | | | | |t]; try (intros H; inversion H; auto; fail).
  - destruct s as [|c s].
    + unfold pin. simpl. discriminate.
    + destruct (pin_total nm (String c s)) as (e & He & Hp); [discriminate|].
      rewrite He. cbn [rbind]. intros H. inversion H. right. eauto.
  - destruct (match assoc "version" t with Some x => x | None => VStr "" end)
      as [version| | | | | |]; try discriminate.
    destruct (startswith version "^" || startswith version "~").
    + intros H. inversion H. right. split; [exact En|].
      eexists. split; [reflexivity|]. apply prefix_app.
    + destruct (String.eqb version "") eqn:Ev; cbn [negb].
      * intros H. inversion H. right. eauto.
      * destruct version as [|c v]; [discriminate Ev|]. cbn [head1 rbind].
        intros H. inversion H. right. split; [exact En|].
        eexists. split; [reflexivity|].
        match goal with |- context [if ?b then _ else _] => destruct b end;
          apply prefix_app.
Qed.

Lemma dependency_loop (its : list (string * value)) :
  forall (acc deps : list string) (all : list (string * value)),
    foldM dependency its acc = Ok deps ->
    (forall it, In it its -> In it all) ->
    exists more, deps = acc ++ more
                 /\ (length more <= length its)%nat
                 /\ Forall (names_entry all) more.
Proof.
  induction its as [|[nm spec] its IH]; intros acc deps all H Hall.
  - inversion H. exists []. rewrite app_nil_r. repeat split; [simpl; lia|constructor].
  - cbn [foldM] in H.
    destruct (dependency acc (nm, spec)) as [acc'|] eqn:E; [|discriminate H].
    cbn [rbind] in H.
    destruct (IH acc' deps all H) as (more & -> & Hl & Hf).
    { intros it Hit. apply Hall. right. exact Hit. }
    destruct (dependency_step _ _ _ _ E) as [->|(Hn & e & -> & Hp)].
    + exists more. repeat split; [simpl; lia|exact Hf].
    + exists (e :: more). rewrite <- app_assoc. repeat split; [simpl; lia|].
      constructor; [|exact Hf].
      exists nm, spec. repeat split; [apply Hall; left; reflexivity|exact Hn|exact Hp].
Qed.

Lemma dependency_loop_raises (its : list (string * value)) (nm : string) :
  In (nm, VStr "") its -> nm <> "python" ->
  forall acc, is_ok (foldM dependency its acc) = false.
Proof.
  intros Hin Hn. induction its as [|it its IH]; [destruct Hin|].
  intros acc. cbn [foldM]. destruct Hin as [->|Hin].
  - unfold dependency. apply String.eqb_neq in Hn. rewrite Hn. reflexivity.
  - destruct (dependency acc it); [cbn [rbind]; apply IH, Hin|reflexivity].
Qed.

(** X16. When the loop over [tool.poetry.dependencies] returns, it has
    produced at most one requirement per entry, each one starting with the
    name of an entry that is not [python]; and no entry other than [python]
    had the empty string as its specification, for such an entry makes the
    loop raise. *)
Theorem poetry_dependencies_keep_their_names (its : list (string * value))
    (deps : list string) :
  foldM dependency its [] = Ok deps ->
  (length deps <= length its)%nat
  /\ Forall (names_entry its) deps
  /\ (forall nm, In (nm, VStr "") its -> nm = "python").
Proof.
  intros H.
  destruct (dependency_loop its [] deps its H (fun _ Hit => Hit))
    as (more & -> & Hl & Hf).
  repeat split; [exact Hl|exact Hf|].
  intros nm Hin. destruct (String.eq_dec nm "python") as [E|E]; [exact E|].
  pose proof (dependency_loop_raises its nm Hin E []) as Hr.
  rewrite H in Hr. discriminate Hr.
Qed.

Lemma poetry_dependencies_keep_their_names_witness :
  foldM dependency
    [("python", VStr "^3.11"); ("requests", VStr "^2.28");
     ("rich", VTable [("version", VStr "13.0")]); ("click", VStr "*")] []
  = Ok ["requests>=2.28"; "rich==13.0"; "click==*"]
  /\ Forall (names_entry
               [("python", VStr "^3.11"); ("requests", VStr "^2.28");
                ("rich", VTable [("version", VStr "13.0")]); ("click", VStr "*")])
            ["requests>=2.28"; "rich==13.0"; "click==*"].
Proof.
  split; [reflexivity|].
  apply (poetry_dependencies_keep_their_names
           [("python", VStr "^3.11"); ("requests", VStr "^2.28");
            ("rich", VTable [("version", VStr "13.0")]); ("click", VStr "*")]).
  reflexivity.
Defined.

(** *** Requirements *)

(** X17. On a project directory with a readable [requirements.txt] that
    holds at least one requirement, and without a manifest, the pip
    migration writes a new manifest and nothing else: the project is named
    after its directory, with version 0.1.0, Python 3.11 or later and the
    hatchling build system; its dependencies are the requirement lines in
    their order, and its [dev] extra the lines of [requirements-dev.txt],
    if any. [requirements.txt] stays as it is. *)
Theorem requirements_give_a_fresh_manifest (L : Libs) (f : fs) (root : path)
    (raw text : string) (deps dev_deps : list string) :
  is_dir f root = true ->
  f !! child root "pyproject.toml" = None ->
  f !! child root "requirements.txt" = Some (File raw) ->
  utf8_decode L raw = Some text ->
  requirement_lines text = deps ->
  deps <> [] ->
  dev_requirements L f root = Ok dev_deps ->
  _migrate_requirements_to_uv L root false f
  = (Ok (["Migrated " +:+ nat_str (length deps)
          +:+ " dependencies from requirements.txt"]
         ++ match dev_deps with
            | [] => []
            | _ => ["Migrated " +:+ nat_str (length dev_deps)
                    +:+ " dev dependencies from requirements-dev.txt"]
            end
         ++ ["Wrote pyproject.toml"]),
     <[child root "pyproject.toml" :=
         File (tomlkit_dumps L (fresh_manifest root deps dev_deps))]> f).
Proof.
  intros Hroot Hnone Hreq Hdec Hdeps Hne Hdev.
  assert (Hw : forall t, _write_toml_doc L (child root "pyproject.toml") t f
                         = (Ok tt, <[child root "pyproject.toml" :=
                                       File (tomlkit_dumps L t)]> f)).
  { intros t. unfold _write_toml_doc, write_file, check_parent.
    rewrite Hnone, parent_child.
    unfold is_dir in Hroot. destruct (f !! root) as [[|]|]; try discriminate.
    reflexivity. }
  assert (Hex : exists_ f (child root "requirements.txt") = true).
  { unfold exists_. rewrite Hreq. reflexivity. }
  assert (Htext : read_text L f (child root "requirements.txt") = Ok text).
  { unfold read_text, read_file. rewrite Hreq. cbn [rbind]. rewrite Hdec. reflexivity. }
  unfold _migrate_requirements_to_uv, St.bind, gets, reads, lift, ret.
  cbv beta iota zeta. rewrite Hex. cbn [negb]. rewrite Htext, Hdeps.
  destruct deps as [|d ds] eqn:Ed; [congruence|]. rewrite <- Ed in *. clear Hne.
  unfold _ensure_pyproject_exists, _read_toml_doc. rewrite Hnone. cbn [nonempty].
  cbv beta iota.
  cbn [update_at getitem assoc String.eqb Ascii.eqb Bool.eqb rbind setitem assoc_set
       ensure_table contains has_key].
  unfold dev_requirements in Hdev.
  destruct (exists_ f (child root "requirements-dev.txt")).
  - destruct (read_text L f (child root "requirements-dev.txt")) as [dev_text|];
      [|discriminate Hdev].
    cbn [rbind] in Hdev. inversion Hdev as [Hd]. clear Hdev.
    destruct (dev_requirement_lines dev_text) as [|v vs] eqn:Ev.
    + cbv beta iota. cbn [as_table]. rewrite Hw. reflexivity.
    + cbn [set_dev_group update_at getitem assoc String.eqb Ascii.eqb Bool.eqb
           rbind setitem assoc_set ensure_table contains has_key].
      cbv beta iota. cbn [as_table]. rewrite Hw. reflexivity.
  - inversion Hdev; subst dev_deps. cbv beta iota. cbn [as_table]. rewrite Hw.
    reflexivity.
Qed.

Lemma requirements_give_a_fresh_manifest_witness :
  _migrate_requirements_to_uv Sample.libs Sample.root false Sample.legacy_tree
  = (Ok ["Migrated 1 dependencies from requirements.txt"; "Wrote pyproject.toml"],
     <[child Sample.root "pyproject.toml" :=
         File (tomlkit_dumps Sample.libs
                 (fresh_manifest Sample.root ["requests>=2.28"] []))]>
       Sample.legacy_tree).
Proof.
  apply (requirements_give_a_fresh_manifest Sample.libs Sample.legacy_tree
           Sample.root "requests>=2.28" "requests>=2.28" ["requests>=2.28"] []).
  - vm_compute. reflexivity.
  - vm_compute. reflexivity.
  - vm_compute. reflexivity.
  - reflexivity.
  - vm_compute. reflexivity.
  - discriminate.
  - vm_compute. reflexivity.
Defined.

(** *** Settings kept outside the manifest *)

Section Unseen.
Context (R : fs -> fs -> Prop).

Lemma blind_ret {A : Type} (a : A) : blind R (ret a).
Proof. intros w1 w2 H. split; [reflexivity|exact H]. Qed.

Lemma blind_lift {A : Type} (r : result A) : blind R (lift r).
Proof. intros w1 w2 H. split; [reflexivity|exact H]. Qed.

Lemma blind_bind {A B : Type} (m : ST world A) (k : A -> ST world B) :
  blind R m -> (forall a, blind R (k a)) -> blind R (St.bind m k).
Proof.
  intros Hm Hk w1 w2 H. unfold St.bind.
  destruct (Hm w1 w2 H) as [Hr Hw].
  destruct (m w1) as [[a|e] w1'], (m w2) as [[a'|e'] w2']; simpl in *;
    try discriminate Hr.
  - inversion Hr; subst a'. apply Hk, Hw.
  - inversion Hr. split; [reflexivity|exact Hw].
Qed.

Lemma blind_doc_read {A : Type} (g : value -> result A) : blind R (doc_read g).
Proof.
  intros w1 w2 H. unfold doc_read. destruct H as [Hf Hd]. simpl.
  rewrite Hd. split; [reflexivity|]. split; assumption.
Qed.

Lemma blind_doc_update (g : value -> result value) : blind R (doc_update g).
Proof.
  intros w1 w2 H. unfold doc_update. destruct H as [Hf Hd]. rewrite Hd.
  destruct (g (snd w2)); simpl; (split; [reflexivity|]); split; simpl; auto.
Qed.

End Unseen.

Lemma same_exists (ps : list path) (f1 f2 : fs) (p : path) :
  same_but_content ps f1 f2 -> exists_ f1 p = exists_ f2 p.
Proof.
  intros H. unfold exists_.
  destruct (H p) as [->|(_ & c1 & c2 & -> & ->)]; reflexivity.
Qed.

(** Removing a file: between file systems that differ in content only, for
    any file. *)
Lemma blind_remove_file (ps : list path) (p : path) (dr : bool) (msg : string) :
  blind (same_but_content ps) (remove_file p dr msg).
Proof.
  intros [f1 d1] [f2 d2] [Hf Hd]. simpl in Hf, Hd. subst d2.
  unfold remove_file, St.bind, gets, fs_run, zoom, unlink, ret. cbn [fst snd].
  rewrite (same_exists ps f1 f2 p Hf).
  destruct (exists_ f2 p && negb dr);
    [|split; [reflexivity|split; [exact Hf|reflexivity]]].
  cbv beta iota zeta. cbn [fst snd].
  destruct (Hf p) as [E|(Hin & c1 & c2 & E1 & E2)].
  - rewrite E. destruct (f2 !! p) as [[c|]|] eqn:E2;
      (split; [reflexivity|]); split; simpl; try reflexivity; try exact Hf.
    intros q. destruct (decide (q = p)) as [->|Hne].
    + left. rewrite !lookup_delete_eq. reflexivity.
    + rewrite !lookup_delete_ne by congruence. apply Hf.
  - rewrite E1, E2. split; [reflexivity|]. split; simpl; [|reflexivity].
    intros q. destruct (decide (q = p)) as [->|Hne].
    + left. rewrite !lookup_delete_eq. reflexivity.
    + rewrite !lookup_delete_ne by congruence. apply Hf.
Qed.

(** Removing a file: between file systems that hold the same there. *)
Lemma blind_remove_same (p : path) (dr : bool) (msg : string) :
  blind (same_at p) (remove_file p dr msg).
Proof.
  intros [f1 d1] [f2 d2] [Hf Hd]. simpl in Hf, Hd. subst d2.
  unfold same_at in Hf.
  unfold remove_file, St.bind, gets, fs_run, zoom, unlink, ret, exists_.
  cbn [fst snd]. rewrite Hf.
  destruct (f2 !! p) as [[c|]|] eqn:E; cbn [andb]; destruct dr; cbn [negb];
    cbv beta iota zeta; cbn [fst snd]; rewrite ?Hf, ?E;
    (split; [reflexivity|]); split; simpl; try reflexivity;
    unfold same_at; rewrite ?lookup_delete_eq; congruence.
Qed.

Lemma blind_read_flake8 (L : Libs) (p : path) :
  blind (same_at p) (gets (fun w => read_flake8 L (fst w) p)).
Proof.
  intros [f1 d1] [f2 d2] [Hf Hd]. simpl in Hf, Hd. subst d2.
  unfold gets, read_flake8. cbn [fst snd]. unfold same_at in Hf. rewrite Hf.
  split; [reflexivity|]. split; [exact Hf|reflexivity].
Qed.

Ltac blind_step :=
  lazymatch goal with
  | |- blind _ (St.bind _ _) => apply blind_bind; [|intros]
  | |- blind _ (St.ret _) => apply blind_ret
  | |- blind _ (St.raise _) => intros ? ? ?; split; [reflexivity|assumption]
  | |- blind _ (St.lift _) => apply blind_lift
  | |- blind _ (doc_read _) => apply blind_doc_read
  | |- blind _ (doc_update _) => apply blind_doc_update
  | |- blind _ (ensure_at _ _) => apply blind_doc_update
  | |- blind _ (set_at _ _ _) => apply blind_doc_update
  | |- blind _ (in_at _ _) => apply blind_doc_read
  | |- blind (same_but_content _) (remove_file _ _ _) => apply blind_remove_file
  | |- blind (same_at _) (remove_file _ _ _) => apply blind_remove_same
  | |- blind (same_at _) (St.gets _) => apply blind_read_flake8
  | |- blind _ (if ?c then _ else _) => destruct c
  | |- blind _ (match ?x with _ => _ end) => destruct x
  end.

Ltac blind_auto := cbv zeta; repeat blind_step.

Lemma blind_drop_at (R : fs -> fs -> Prop) (alias : list string) (k msg : string) :
  blind R (drop_at alias k msg).
Proof. unfold drop_at. blind_auto. Qed.

Lemma blind_carry_isort (R : fs -> fs -> Prop) (cfg : value) (a b msg : string) :
  blind R (carry_isort cfg a b msg).
Proof. unfold carry_isort. blind_auto. Qed.

Lemma blind_mypy (L : Libs) (root : path) (dr : bool) (ps : list path) :
  blind (same_but_content ps) (_migrate_mypy_to_basedpyright L root dr).
Proof. unfold _migrate_mypy_to_basedpyright. blind_auto; apply blind_drop_at. Qed.

Lemma blind_isort (root : path) (dr : bool) (ps : list path) :
  blind (same_but_content ps) (_migrate_isort_to_ruff root dr).
Proof.
  unfold _migrate_isort_to_ruff. blind_auto;
    first [apply blind_carry_isort | apply blind_drop_at].
Qed.

Lemma blind_flake8 (L : Libs) (root : path) (dr : bool) :
  blind (same_at (child root ".flake8")) (_migrate_flake8_to_ruff L root dr).
Proof. unfold _migrate_flake8_to_ruff. blind_auto. Qed.

Lemma doc_only_update (g : value -> result value) : doc_only (doc_update g).
Proof. intros w. unfold doc_update. destruct (g (snd w)); reflexivity. Qed.

Lemma doc_only_read {A : Type} (g : value -> result A) : doc_only (doc_read g).
Proof. intros w. reflexivity. Qed.

Lemma doc_only_lift {A : Type} (r : result A) : doc_only (lift (S := world) r).
Proof. intros w. reflexivity. Qed.

Lemma doc_only_ret {A : Type} (a : A) : doc_only (ret (S := world) a).
Proof. intros w. reflexivity. Qed.

Lemma doc_only_bind {A B : Type} (m : ST world A) (k : A -> ST world B) :
  doc_only m -> (forall a, doc_only (k a)) -> doc_only (St.bind m k).
Proof.
  intros Hm Hk w. unfold St.bind. specialize (Hm w).
  destruct (m w) as [[a|e] w']; simpl in *; [rewrite Hk|]; exact Hm.
Qed.

Ltac doc_only_step :=
  lazymatch goal with
  | |- doc_only (St.bind _ _) => apply doc_only_bind; [|intros]
  | |- doc_only (St.ret _) => apply doc_only_ret
  | |- doc_only (St.lift _) => apply doc_only_lift
  | |- doc_only (doc_read _) => apply doc_only_read
  | |- doc_only (doc_update _) => apply doc_only_update
  | |- doc_only (ensure_at _ _) => apply doc_only_update
  | |- doc_only (set_at _ _ _) => apply doc_only_update
  | |- doc_only (in_at _ _) => apply doc_only_read
  | |- doc_only (if ?c then _ else _) => destruct c
  | |- doc_only (match ?x with _ => _ end) => destruct x
  end.

Lemma doc_only_drop_at (alias : list string) (k msg : string) :
  doc_only (drop_at alias k msg).
Proof. unfold drop_at. repeat doc_only_step. Qed.

Lemma doc_only_carry_isort (cfg : value) (a b msg : string) :
  doc_only (carry_isort cfg a b msg).
Proof. unfold carry_isort. repeat doc_only_step. Qed.

Lemma after_bind {A B : Type} (m : ST world A) (k : A -> ST world B) (f : fs)
    (Q : fs -> Prop) :
  doc_only m -> (forall a, after (k a) f Q) -> after (St.bind m k) f Q.
Proof.
  intros Hm Hk d b w'. unfold St.bind. specialize (Hm (f, d)).
  destruct (m (f, d)) as [[a|e] [f1 d1]]; simpl in Hm; [|discriminate].
  subst f1. apply Hk.
Qed.

Lemma after_remove_file {B : Type} (p : path) (msg : string)
    (k : list string -> ST world B) (f : fs) (Q : fs -> Prop) :
  (forall f1 : fs, f1 !! p = None ->
                   (forall q, q <> p -> f1 !! q = f !! q) ->
                   forall c, after (k c) f1 Q) ->
  after (St.bind (remove_file p false msg) k) f Q.
Proof.
  intros Hk d b w'. unfold St.bind at 1.
  unfold remove_file, St.bind, gets, fs_run, zoom, unlink, ret, exists_.
  cbv beta iota zeta. cbn [fst snd negb]. rewrite andb_true_r.
  destruct (f !! p) as [[c|]|] eqn:E; cbv beta iota zeta; cbn [fst snd];
    rewrite ?E; cbv beta iota zeta; cbn [fst snd].
  - apply Hk; [apply lookup_delete_eq|].
    intros q Hq. apply lookup_delete_ne. congruence.
  - discriminate.
  - apply Hk; [exact E|reflexivity].
Qed.

Lemma after_ret {A : Type} (a : A) (f : fs) (Q : fs -> Prop) :
  Q f -> after (ret a) f Q.
Proof. intros H d b w' E. inversion E. exact H. Qed.

Ltac after_step :=
  lazymatch goal with
  | |- after (St.bind (remove_file _ false _) _) _ _ =>
      apply after_remove_file; intros
  | |- after (St.bind _ _) _ _ => apply after_bind; [|intros]
  | |- after (St.ret _) _ _ => apply after_ret
  | |- after (if ?c then _ else _) _ _ => destruct c
  | |- after (match ?x with _ => _ end) _ _ => destruct x
  | |- doc_only (drop_at _ _ _) => apply doc_only_drop_at
  | |- doc_only (carry_isort _ _ _ _) => apply doc_only_carry_isort
  | |- doc_only _ => doc_only_step
  end.

Lemma mypy_files_removed (L : Libs) (root : path) (f : fs) :
  after (_migrate_mypy_to_basedpyright L root false) f
    (fun f' => f' !! child root "mypy.ini" = None
               /\ f' !! child root ".mypy.ini" = None).
Proof.
  unfold _migrate_mypy_to_basedpyright. cbv zeta. repeat after_step.
  split; [|assumption].
  match goal with
  | H : forall q, q <> child root ".mypy.ini" -> _ |- _ => rewrite H; [assumption|]
  end.
  intros E. apply child_inj in E. discriminate E.
Qed.

Lemma isort_file_removed (root : path) (f : fs) :
  after (_migrate_isort_to_ruff root false) f
    (fun f' => f' !! child root ".isort.cfg" = None).
Proof.
  unfold _migrate_isort_to_ruff. cbv zeta. repeat after_step; assumption.
Qed.

Lemma same_but_content_insert (ps : list path) (p : path) (c1 c2 : string) (f : fs) :
  In p ps -> same_but_content ps (<[p := File c1]> f) (<[p := File c2]> f).
Proof.
  intros Hp q. destruct (decide (q = p)) as [->|Hne].
  - right. split; [exact Hp|]. exists c1, c2. rewrite !lookup_insert_eq. auto.
  - left. rewrite !lookup_insert_ne by congruence. reflexivity.
Qed.

(** X22. The mypy migration never reads [mypy.ini] or [.mypy.ini]: run on
    two file systems that differ only in what these files contain, and on
    the same document, it returns or raises the same and leaves the same
    document. A real run that returns has removed both files: settings
    kept there are lost. *)
Theorem mypy_ini_is_removed_unread (L : Libs) (root : path) (dr : bool)
    (doc : value) (f1 f2 : fs) :
  same_but_content [child root "mypy.ini"; child root ".mypy.ini"] f1 f2 ->
  let run := fun dr f => _migrate_mypy_to_basedpyright L root dr (f, doc) in
  fst (run dr f1) = fst (run dr f2)
  /\ snd (snd (run dr f1)) = snd (snd (run dr f2))
  /\ (forall changes w', run false f1 = (Ok changes, w') ->
                         fst w' !! child root "mypy.ini" = None
                         /\ fst w' !! child root ".mypy.ini" = None).
Proof.
  intros H run.
  destruct (blind_mypy L root dr [child root "mypy.ini"; child root ".mypy.ini"]
              (f1, doc) (f2, doc)) as (Hr & _ & Hd).
  { split; [exact H|reflexivity]. }
  split; [exact Hr|]. split; [exact Hd|].
  intros changes w' E. exact (mypy_files_removed L root f1 doc changes w' E).
Qed.

(** X23. Likewise the isort migration never reads [.isort.cfg], and a real
    run that returns has removed it. *)
Theorem isort_cfg_is_removed_unread (root : path) (dr : bool)
    (doc : value) (f1 f2 : fs) :
  same_but_content [child root ".isort.cfg"] f1 f2 ->
  let run := fun dr f => _migrate_isort_to_ruff root dr (f, doc) in
  fst (run dr f1) = fst (run dr f2)
  /\ snd (snd (run dr f1)) = snd (snd (run dr f2))
  /\ (forall changes w', run false f1 = (Ok changes, w') ->
                         fst w' !! child root ".isort.cfg" = None).
Proof.
  intros H run.
  destruct (blind_isort root dr [child root ".isort.cfg"] (f1, doc) (f2, doc))
    as (Hr & _ & Hd).
  { split; [exact H|reflexivity]. }
  split; [exact Hr|]. split; [exact Hd|].
  intros changes w' E. exact (isort_file_removed root f1 doc changes w' E).
Qed.

Lemma mypy_ini_is_removed_unread_witness :
  fst (_migrate_mypy_to_basedpyright Sample.libs Sample.root false
         (Cases.with_file "mypy.ini" Cases.strict_mypy_ini, VTable []))
  = Ok ["Set typeCheckingMode to basic"; "Removed mypy.ini"].
Proof.
  destruct (mypy_ini_is_removed_unread Sample.libs Sample.root false (VTable [])
              (Cases.with_file "mypy.ini" Cases.strict_mypy_ini)
              (Cases.with_file "mypy.ini" ""))
    as (Hr & _).
  - apply same_but_content_insert. left. reflexivity.
  - etransitivity; [exact Hr|]. vm_compute. reflexivity.
Defined.

Lemma isort_cfg_is_removed_unread_witness :
  fst (_migrate_isort_to_ruff Sample.root false
         (Cases.with_file ".isort.cfg" Cases.isort_cfg, VTable []))
  = Ok ["Added I (isort) rules to ruff lint.select"; "Removed .isort.cfg file"].
Proof.
  destruct (isort_cfg_is_removed_unread Sample.root false (VTable [])
              (Cases.with_file ".isort.cfg" Cases.isort_cfg)
              (Cases.with_file ".isort.cfg" ""))
    as (Hr & _).
  - apply same_but_content_insert. left. reflexivity.
  - etransitivity; [exact Hr|]. vm_compute. reflexivity.
Defined.

(** X27. The flake8 migration reads the file system at [.flake8] and
    nowhere else: on two file systems that hold the same there, and on the
    same document, it returns or raises the same and leaves the same
    document. Settings that flake8 takes from [setup.cfg] or [tox.ini] are
    not migrated. *)
Theorem flake8_reads_only_its_own_file (L : Libs) (root : path) (dr : bool)
    (doc : value) (f1 f2 : fs) :
  f1 !! child root ".flake8" = f2 !! child root ".flake8" ->
  let run := fun f => _migrate_flake8_to_ruff L root dr (f, doc) in
  fst (run f1) = fst (run f2)
  /\ snd (snd (run f1)) = snd (snd (run f2)).
Proof.
  intros H run.
  destruct (blind_flake8 L root dr (f1, doc) (f2, doc)) as (Hr & _ & Hd).
  { split; [exact H|reflexivity]. }
  split; [exact Hr|exact Hd].
Qed.

(** A [flake8] section in [setup.cfg] changes nothing to what the
    migration does. *)
Lemma flake8_reads_only_its_own_file_witness :
  fst (_migrate_flake8_to_ruff Sample.libs Sample.root false
         (Cases.with_file "setup.cfg" Cases.flake8_section, VTable []))
  = Ok ["Added E, F, W rules to ruff lint.select"].
Proof.
  destruct (flake8_reads_only_its_own_file Sample.libs Sample.root false (VTable [])
              (Cases.with_file "setup.cfg" Cases.flake8_section)
              (Sample.tree []))
    as (Hr & _).
  - unfold Cases.with_file. apply lookup_insert_ne.
    intros E. apply child_inj in E. discriminate E.
  - etransitivity; [exact Hr|]. vm_compute. reflexivity.
Defined.

(** *** Setup scripts *)

(** X26. A project whose plan is the setuptools step alone, with a
    [setup.py] and neither [setup.cfg] nor [pyproject.toml], is not migrated
    at all: [upgrade_project] without backup leaves the file system as it
    was, and returns a successful result whose only changes are the two
    hints about a manual migration. *)
Theorem setup_py_alone_is_left_untouched (L : Libs) (f : fs) (root : path)
    (from_tool : option string) (dr : bool) :
  is_dir f root = true ->
  create_migration_plan L f root from_tool = Ok [package_manager_step root SETUPTOOLS] ->
  exists_ f (child root "setup.py") = true ->
  f !! child root "setup.cfg" = None ->
  f !! child root "pyproject.toml" = None ->
  upgrade_project L root from_tool dr false f
  = (Ok {| success := true; Upgrader.project_path := root;
           changes_made := ["Found setup.py - manual migration recommended";
                            "Tip: Run 'python setup.py egg_info' to extract metadata"];
           backup_path := None; errors := [];
           migration_steps := [package_manager_step root SETUPTOOLS] |}, f).
Proof.
  intros Hdir Hplan Hpy Hcfg Hman.
  assert (Hnc : exists_ f (child root "setup.cfg") = false).
  { unfold exists_. rewrite Hcfg. reflexivity. }
  assert (E1 : _migrate_setuptools_to_uv L root dr f
               = (Ok ["Found setup.py - manual migration recommended";
                      "Tip: Run 'python setup.py egg_info' to extract metadata"], f)).
  { unfold _migrate_setuptools_to_uv. cbv zeta. rewrite Hnc. cbv beta iota.
    rewrite Hpy, Hnc. reflexivity. }
  assert (E2 : forall d, reread L (child root "pyproject.toml") (f, d) = (Ok tt, (f, d))).
  { intros d. unfold reread, _read_toml_doc. cbn [fst]. rewrite Hman. reflexivity. }
  assert (E3 : forall d,
             run_step L root dr (package_manager_step root SETUPTOOLS) (f, d)
             = (Ok ["Found setup.py - manual migration recommended";
                    "Tip: Run 'python setup.py egg_info' to extract metadata"], (f, d))).
  { intros d. unfold run_step. cbn [package_manager_step step migration_type source].
    change ("setuptools" =? "poetry")%string with false.
    change ("setuptools" =? "pip")%string with false.
    change ("setuptools" =? "pipenv")%string with false.
    change ("setuptools" =? "setuptools")%string with true.
    cbv beta iota.
    unfold St.bind, fs_run, zoom. cbn [fst snd]. rewrite E1. cbv beta iota zeta.
    rewrite E2. reflexivity. }
  destruct (upgrade_inv L root from_tool dr false f)
    as [(Hn & _)|[(_ & _ & ->)|(_ & Hb & _)]]; [congruence| |discriminate Hb].
  unfold migrate, St.bind, reads. rewrite Hplan. cbv beta iota zeta.
  unfold _read_toml_doc. rewrite Hman. cbn [nonempty].
  cbn [execute]. unfold St.bind, try_catch. rewrite E3.
  cbv beta iota zeta. unfold ret. cbn [fst snd app truthy length Nat.eqb].
  rewrite andb_false_r. reflexivity.
Qed.

Lemma setup_py_alone_is_left_untouched_witness :
  exists r,
    upgrade_project Sample.libs Sample.root None false false Cases.setup_py_tree
    = (Ok r, Cases.setup_py_tree)
    /\ success r = true
    /\ map source (migration_steps r) = ["setuptools"].
Proof.
  eexists. split.
  - apply setup_py_alone_is_left_untouched; vm_compute; reflexivity.
  - split; reflexivity.
Defined.

End UpgraderInvariants.

(** ** Invariants of the configuration *)

Module ModelsInvariants.
Import Py FS Models Layout Invariants.

Lemma rstrip_no_trailing_space (s : string) : ends_with_space (rstrip s) = false.
Proof.
  induction s as [|c r IH]; [reflexivity|]. cbn [rstrip].
  destruct (rstrip r) as [|d r'] eqn:E.
  - destruct (is_space c) eqn:Hc; [reflexivity|]. simpl. exact Hc.
  - cbn [ends_with_space]. exact IH.
Qed.

Lemma name_char_facts (c : ascii) :
  name_char c = true ->
  is_space c = false /\ lower_char c = c
  /\ identifier_char (if Ascii.eqb c "-" then "_"%char else c) = true.
Proof.
  destruct c as [[] [] [] [] [] [] [] []]; vm_compute; intros H;
    try discriminate H; repeat split.
Qed.

Lemma letter_is_name_char (c : ascii) : in_range 97 122 c = true -> name_char c = true.
Proof. unfold name_char. intros ->. reflexivity. Qed.

Lemma newline_is_space (c : ascii) : (code c =? 10)%nat = true -> is_space c = true.
Proof.
  destruct c as [[] [] [] [] [] [] [] []]; vm_compute; intros H;
    try discriminate H; reflexivity.
Qed.

Lemma name_tail_all (t : string) :
  name_tail t = true -> ends_with_space t = false -> all_chars name_char t = true.
Proof.
  induction t as [|c r IH]; [reflexivity|]. cbn [name_tail all_chars].
  destruct (name_char c) eqn:Hc.
  - intros Ht He. apply IH; [exact Ht|]. destruct r; [reflexivity|exact He].
  - intros Ht He. apply andb_true_iff in Ht. destruct Ht as [Hn Hr].
    apply String.eqb_eq in Hr. subst r. simpl in He.
    rewrite (newline_is_space c Hn) in He. discriminate.
Qed.

Lemma all_name_chars_fixed (s : string) :
  all_chars name_char s = true -> lower s = s /\ lstrip s = s /\ rstrip s = s.
Proof.
  induction s as [|c r IH]; [repeat split|]. cbn [all_chars].
  intros H. apply andb_true_iff in H. destruct H as [Hc Hr].
  destruct (name_char_facts c Hc) as (Hs & Hl & _).
  destruct (IH Hr) as (IHl & _ & IHr).
  repeat split.
  - cbn [lower]. rewrite Hl, IHl. reflexivity.
  - cbn [lstrip]. rewrite Hs. reflexivity.
  - cbn [rstrip]. rewrite IHr, Hs. destruct r; reflexivity.
Qed.

(** What validation leaves of an accepted name. *)
Lemma validated_name (v w : string) :
  validate_project_name v = Ok w ->
  w = strip (lower v)
  /\ letter_then name_char w = true
  /\ existsb (String.eqb w) reserved = false.
Proof.
  unfold validate_project_name. cbv zeta.
  destruct (name_pattern (strip (lower v))) eqn:Hp; cbn [negb]; [|discriminate].
  destruct (existsb _ reserved) eqn:Hr; [discriminate|].
  intros H. inversion H; subst w; clear H.
  split; [reflexivity|]. split; [|exact Hr].
  pose proof (rstrip_no_trailing_space (lstrip (lower v))) as He.
  fold (strip (lower v)) in He.
  destruct (strip (lower v)) as [|c t]; [discriminate Hp|].
  cbn [name_pattern] in Hp. apply andb_true_iff in Hp. destruct Hp as [Hc Ht].
  cbn [letter_then]. rewrite Hc. cbn [andb].
  apply name_tail_all; [exact Ht|]. destruct t; [reflexivity|exact He].
Qed.

Lemma config_inv (nm : string) (ty : ProjectType) (dk dc : bool) (c : ProjectConfig) :
  new_ProjectConfig nm ty dk dc = Ok c ->
  validate_project_name nm = Ok (name c)
  /\ (String.length nm <= 100)%nat
  /\ project_type c = ty /\ docker c = dk /\ docs c = dc
  /\ (ty = SCRIPT -> dk = false /\ dc = false).
Proof.
  unfold new_ProjectConfig.
  destruct (String.length nm <? 1)%nat; [discriminate|].
  destruct (100 <? String.length nm)%nat eqn:Hl; [discriminate|].
  apply Nat.ltb_ge in Hl.
  destruct (validate_project_name nm) as [v|]; [|discriminate]. cbn [rbind].
  unfold validate_config_consistency. cbn [project_type docker docs].
  destruct ty, dk, dc; try discriminate; intros H; inversion H; subst c; cbn;
    repeat split; try assumption; try discriminate; reflexivity.
Qed.

Lemma length_lower (s : string) : String.length (lower s) = String.length s.
Proof. induction s as [|c r IH]; simpl; congruence. Qed.

Lemma length_lstrip (s : string) : (String.length (lstrip s) <= String.length s)%nat.
Proof.
  induction s as [|c r IH]; simpl; [lia|]. destruct (is_space c); simpl; lia.
Qed.

Lemma length_rstrip (s : string) : (String.length (rstrip s) <= String.length s)%nat.
Proof.
  induction s as [|c r IH]; simpl; [lia|].
  destruct (rstrip r); [destruct (is_space c)|]; simpl in *; lia.
Qed.

(** X18. The name of every configuration that [ProjectConfig] accepts is
    normalised: a lower-case letter followed by lower-case letters, digits,
    underscores and hyphens, of 1 to 100 characters, without white space or
    capitals; and building the configuration again from that name gives the
    same configuration. *)
Theorem accepted_names_are_normalised (nm : string) (ty : ProjectType)
    (dk dc : bool) (c : ProjectConfig) :
  new_ProjectConfig nm ty dk dc = Ok c ->
  letter_then name_char (name c) = true
  /\ (1 <= String.length (name c) <= 100)%nat
  /\ lower (name c) = name c
  /\ strip (name c) = name c
  /\ new_ProjectConfig (name c) ty dk dc = Ok c.
Proof.
  intros H.
  destruct (config_inv _ _ _ _ _ H) as (Hv & Hlen & Hty & Hdk & Hdc & Hscript).
  destruct (validated_name _ _ Hv) as (Hw & Hshape & Hres).
  assert (Hall : all_chars name_char (name c) = true).
  { destruct (name c) as [|a t]; [discriminate Hshape|].
    cbn [letter_then] in Hshape. apply andb_true_iff in Hshape.
    destruct Hshape as [Ha Ht]. cbn [all_chars].
    rewrite (letter_is_name_char a Ha), Ht. reflexivity. }
  destruct (all_name_chars_fixed _ Hall) as (Hlow & Hls & Hrs).
  assert (Hstrip : strip (name c) = name c).
  { unfold strip. rewrite Hls. exact Hrs. }
  assert (Hbound : (1 <= String.length (name c) <= 100)%nat).
  { split.
    - destruct (name c); [discriminate Hshape|simpl; lia].
    - rewrite Hw. unfold strip.
      pose proof (length_rstrip (lstrip (lower nm))).
      pose proof (length_lstrip (lower nm)).
      rewrite length_lower in *. lia. }
  repeat (split; [assumption|]).
  unfold new_ProjectConfig.
  destruct Hbound as [H1 H100].
  replace (String.length (name c) <? 1)%nat with false
    by (symmetry; apply Nat.ltb_ge; lia).
  replace (100 <? String.length (name c))%nat with false
    by (symmetry; apply Nat.ltb_ge; lia).
  assert (Hv' : validate_project_name (name c) = Ok (name c)).
  { unfold validate_project_name. cbv zeta. rewrite Hlow, Hstrip.
    assert (Hp : name_pattern (name c) = true).
    { unfold validate_project_name in Hv. cbv zeta in Hv. rewrite <- Hw in Hv.
      destruct (name_pattern (name c)); [reflexivity|discriminate Hv]. }
    rewrite Hp, Hres. reflexivity. }
  rewrite Hv'. cbn [rbind].
  unfold new_ProjectConfig in H.
  destruct (String.length nm <? 1)%nat; [discriminate|].
  destruct (100 <? String.length nm)%nat; [discriminate|].
  rewrite Hv in H. cbn [rbind] in H. exact H.
Qed.

Lemma accepted_names_are_normalised_witness :
  exists c, new_ProjectConfig "  My-Lib2 " LIBRARY false true = Ok c
            /\ name c = "my-lib2"
            /\ new_ProjectConfig (name c) LIBRARY false true = Ok c.
Proof.
  eexists. split; [reflexivity|]. split; [reflexivity|].
  match goal with
  | |- new_ProjectConfig (name ?c) _ _ _ = _ =>
      destruct (accepted_names_are_normalised "  My-Lib2 " LIBRARY false true c)
        as (_ & _ & _ & _ & H); [reflexivity | exact H]
  end.
Defined.

Lemma replace_char_all (s : string) :
  all_chars name_char s = true ->
  all_chars identifier_char (replace_char "-" "_" s) = true.
Proof.
  induction s as [|c r IH]; [reflexivity|]. cbn [all_chars replace_char].
  intros H. apply andb_true_iff in H. destruct H as [Hc Hr].
  destruct (name_char_facts c Hc) as (_ & _ & Hi).
  rewrite Hi, (IH Hr). reflexivity.
Qed.

Lemma replace_char_keeps (s k : string) :
  replace_char "-" "_" s = k ->
  all_chars (fun c => negb (Ascii.eqb c "_")) k = true ->
  s = k.
Proof.
  revert k. induction s as [|c r IH]; intros k H Hk; [exact H|].
  cbn [replace_char] in H. destruct k as [|d k']; [discriminate H|].
  inversion H as [[Hd Hr]]. clear H.
  cbn [all_chars] in Hk. apply andb_true_iff in Hk. destruct Hk as [Hd' Hk'].
  rewrite Hr. f_equal.
  - destruct (Ascii.eqb c "-"); [|reflexivity].
    subst d. discriminate Hd'.
  - rewrite <- Hr. apply IH; [reflexivity|]. rewrite Hr. exact Hk'.
Qed.

Lemma package_name_shape (nm : string) (ty : ProjectType)
    (dk dc : bool) (c : ProjectConfig) :
  new_ProjectConfig nm ty dk dc = Ok c ->
  letter_then identifier_char (package_name c) = true.
Proof.
  intros H.
  destruct (config_inv _ _ _ _ _ H) as (Hv & _).
  destruct (validated_name _ _ Hv) as (_ & Hshape & _).
  unfold package_name.
  destruct (name c) as [|a t]; [discriminate Hshape|].
  cbn [letter_then] in Hshape. apply andb_true_iff in Hshape.
  destruct Hshape as [Ha Ht]. cbn [replace_char letter_then].
  rewrite (replace_char_all t Ht), andb_true_r.
  destruct (Ascii.eqb a "-") eqn:E; [|exact Ha].
  apply Ascii.eqb_eq in E. subst a. discriminate Ha.
Qed.

(** X19. The package name of every accepted configuration can be imported:
    it is a lower-case letter followed by lower-case letters, digits and
    underscores, as long as the project name, and it is not a keyword of the
    language; it is the project name itself when that has no hyphen. *)
Theorem package_name_is_importable (nm : string) (ty : ProjectType)
    (dk dc : bool) (c : ProjectConfig) :
  new_ProjectConfig nm ty dk dc = Ok c ->
  letter_then identifier_char (package_name c) = true
  /\ String.length (package_name c) = String.length (name c)
  /\ ~ In (package_name c) python_keywords
  /\ (all_chars identifier_char (name c) = true -> package_name c = name c).
Proof.
  intros H.
  destruct (config_inv _ _ _ _ _ H) as (Hv & _).
  destruct (validated_name _ _ Hv) as (_ & Hshape & Hres).
  unfold package_name.
  split; [|split; [|split]].
  - exact (package_name_shape _ _ _ _ _ H).
  - generalize (name c). intros s. induction s; simpl; congruence.
  - intros Hin.
    assert (Hname : In (name c) python_keywords).
    { simpl in Hin.
      repeat (destruct Hin as [Hk|Hin];
              [symmetry in Hk; apply replace_char_keeps in Hk;
               [rewrite Hk; simpl; tauto | reflexivity]|]).
      destruct Hin. }
    clear Hin. simpl in Hname.
    repeat (destruct Hname as [Hk|Hname];
            [rewrite <- Hk in Hshape, Hres;
             first [discriminate Hshape | discriminate Hres]|]).
    destruct Hname.
  - generalize (name c). intros s. induction s as [|a t IH]; [reflexivity|].
    cbn [all_chars replace_char]. intros Ha. apply andb_true_iff in Ha.
    destruct Ha as [Ha Ht]. rewrite (IH Ht).
    destruct (Ascii.eqb a "-") eqn:E; [|reflexivity].
    apply Ascii.eqb_eq in E. subst a. discriminate Ha.
Qed.

Lemma package_name_is_importable_witness :
  exists c, new_ProjectConfig "My-Cool-Project" CLI false false = Ok c
            /\ package_name c = "my_cool_project"
            /\ get_src_path c = ["src"; "my_cool_project"]
            /\ ~ In (package_name c) python_keywords.
Proof.
  eexists. split; [reflexivity|]. split; [reflexivity|]. split; [reflexivity|].
  match goal with
  | |- ~ In (package_name ?c) _ =>
      destruct (package_name_is_importable "My-Cool-Project" CLI false false c)
        as (_ & _ & H & _); [reflexivity | exact H]
  end.
Defined.

End ModelsInvariants.

(** ** The directories of a generated project *)

Module GeneratorProps.
Import Py St FS Models Layout Generator Invariants UpgraderProps.

Lemma mkdir_p_taken (f : fs) (p : path) (x : node) :
  f !! p = Some x -> mkdir_p p f = (Raise FileExistsError, f).
Proof.
  intros H. unfold mkdir_p.
  destruct (length p); cbn [mkdir_parents]; unfold os_mkdir; rewrite H; reflexivity.
Qed.

Lemma mkdir_p_fresh (f : fs) (d : path) (n : string) :
  f !! d = Some Dir -> f !! child d n = None ->
  mkdir_p (child d n) f = (Ok tt, <[child d n := Dir]> f).
Proof.
  intros Hd Hp. unfold mkdir_p.
  destruct (length (child d n)); cbn [mkdir_parents]; unfold os_mkdir, check_parent;
    rewrite Hp, parent_child, Hd; reflexivity.
Qed.

Lemma mkdir_p_fresh2 (f : fs) (d : path) (a b : string) :
  f !! d = Some Dir -> f !! child d a = None -> f !! child (child d a) b = None ->
  mkdir_p (child (child d a) b) f
  = (Ok tt, <[child (child d a) b := Dir]> (<[child d a := Dir]> f)).
Proof.
  intros Hd Ha Hb. unfold mkdir_p.
  assert (Hl : exists n, length (child (child d a) b) = S (S n)).
  { unfold child. rewrite !length_app. simpl. exists (length d). lia. }
  destruct Hl as [n ->].
  cbn [mkdir_parents]. unfold os_mkdir at 1, check_parent.
  rewrite Hb, !parent_child, Ha.
  unfold os_mkdir at 1, check_parent. rewrite Ha, parent_child, Hd.
  unfold mkdir, os_mkdir, check_parent.
  assert (Hne : child d a <> child (child d a) b).
  { unfold child. intros E. apply (f_equal (@length string)) in E.
    rewrite !length_app in E. simpl in E. lia. }
  rewrite lookup_insert_ne by exact Hne. rewrite Hb, parent_child.
  rewrite lookup_insert_eq. reflexivity.
Qed.

Section Relative.
Context (pd : path).

Lemma rel_neq (a b : list string) : a <> b -> pd ++ a <> pd ++ b.
Proof. intros H E. apply app_inv_head in E. exact (H E). Qed.

Lemma lookup_insert_rel (m : fs) (a b : list string) (x : node) :
  a <> b -> (<[pd ++ a := x]> m) !! (pd ++ b) = m !! (pd ++ b).
Proof. intros H. apply lookup_insert_ne, rel_neq, H. Qed.

Lemma lookup_insert_rel_top (m : fs) (a : list string) (x : node) :
  a <> [] -> (<[pd ++ a := x]> m) !! pd = m !! pd.
Proof.
  intros H. apply lookup_insert_ne. rewrite <- (app_nil_r pd) at 2.
  apply rel_neq, H.
Qed.

Lemma lookup_insert_top (m : fs) (x : node) : (<[pd ++ [] := x]> m) !! pd = Some x.
Proof. rewrite app_nil_r. apply lookup_insert_eq. Qed.

Lemma mkdir_rel1 (m : fs) (n : string) :
  m !! (pd ++ []) = Some Dir -> m !! (pd ++ [n]) = None ->
  mkdir_p (pd ++ [n]) m = (Ok tt, <[pd ++ [n] := Dir]> m).
Proof. rewrite app_nil_r. apply mkdir_p_fresh. Qed.

Lemma mkdir_rel2 (m : fs) (a b : string) :
  m !! (pd ++ []) = Some Dir -> m !! (pd ++ [a]) = None -> m !! (pd ++ [a; b]) = None ->
  mkdir_p (pd ++ [a; b]) m
  = (Ok tt, <[pd ++ [a; b] := Dir]> (<[pd ++ [a] := Dir]> m)).
Proof.
  rewrite app_nil_r. intros Hd Ha Hb.
  change (pd ++ [a; b]) with (pd ++ ([a] ++ [b])) in *. rewrite app_assoc in *.
  apply (mkdir_p_fresh2 m pd a b Hd Ha Hb).
Qed.

End Relative.

(** Two relative paths differ: by their shape, or by what is known of the
    package name. *)
Ltac rel_differ :=
  let E := fresh "E" in
  intros E; inversion E; subst;
  first [ congruence
        | match goal with
          | H : forall s, _ <> String "."%char s |- _ => eapply H; eauto
          end ].

(** A lookup below the project directory, after the directories made so
    far. *)
Ltac rel_lookup pd Hrel :=
  repeat first [ rewrite lookup_insert_eq; reflexivity
               | rewrite (lookup_insert_top pd); reflexivity
               | rewrite (lookup_insert_rel pd) by rel_differ
               | rewrite (lookup_insert_rel_top pd) by discriminate
               | apply Hrel ].

Lemma directories_made (f : fs) (t : Target) :
  fresh_location f t ->
  letter_then identifier_char (package_name (config t)) = true ->
  clashes t = false ->
  exists f' : fs,
    create_directory_structure t f = (Ok (planned_dirs t), f')
    /\ Forall (fun d => f' !! d = Some Dir) (planned_dirs t)
    /\ (forall p, ~ inside (project_dir t) p -> f' !! p = f !! p).
Proof.
  intros [Hout Hfree] Hletter Hclash.
  unfold create_directory_structure, planned_dirs. cbv zeta.
  set (pd := project_dir t) in *.
  set (pkg := package_name (config t)) in *.
  assert (Hrel : forall rel, f !! (pd ++ rel) = None).
  { intros rel. apply Hfree. exists rel. reflexivity. }
  assert (Hpd : f !! pd = None) by (rewrite <- (app_nil_r pd); apply Hrel).
  assert (Hdot : forall s, pkg <> String "." s).
  { intros s E. rewrite E in Hletter. discriminate Hletter. }
  assert (Htests : uses_src_layout (project_type (config t)) = false -> pkg <> "tests").
  { intros Hl E. unfold clashes in Hclash. fold pkg in Hclash.
    rewrite Hl, E in Hclash. discriminate Hclash. }
  assert (Hdocs : uses_src_layout (project_type (config t)) = false ->
                  docs (config t) = true -> pkg <> "docs").
  { intros Hl Hd E. unfold clashes in Hclash. fold pkg in Hclash.
    rewrite Hl, Hd, E in Hclash. discriminate Hclash. }
  clear Hclash Hletter.
  unfold St.bind at 1, gets, exists_. rewrite Hpd.
  unfold St.bind at 1.
  assert (E1 : mkdir_p pd f = (Ok tt, <[pd ++ [] := Dir]> f)).
  { rewrite app_nil_r. apply mkdir_p_fresh; [exact Hout|exact Hpd]. }
  rewrite E1. clear E1.
  unfold get_src_path, get_test_path. fold pkg.
  unfold child. rewrite <- !app_assoc. cbn [app].
  assert (Hframe : forall (m : fs) (rel : list string) (p : path),
             ~ inside pd p -> (<[pd ++ rel := Dir]> m) !! p = m !! p).
  { intros m rel p Hp. apply lookup_insert_ne. intros E. apply Hp.
    exists rel. symmetry. exact E. }
  destruct (uses_src_layout (project_type (config t))) eqn:Hlay;
    [clear Htests Hdocs | specialize (Htests eq_refl); specialize (Hdocs eq_refl)];
    destruct (docs (config t)) eqn:Hd; try specialize (Hdocs eq_refl);
    destruct (github_actions t), (vscode t);
    unfold optional_dir, optional, St.bind, ret; cbv beta iota;
    repeat (first [ rewrite (mkdir_rel1 pd) by rel_lookup pd Hrel
                  | rewrite (mkdir_rel2 pd) by rel_lookup pd Hrel ];
            cbv beta iota);
    (eexists; split; [reflexivity|]; split;
     [ repeat apply List.Forall_cons; try apply List.Forall_nil;
       rel_lookup pd Hrel
     | intros p Hp; rewrite !Hframe by exact Hp; reflexivity ]).
Qed.

(** X20. In an existing output directory where nothing is in the way, and
    for a package name that starts with a letter and does not clash with a
    sibling directory, [create_directory_structure] returns the project
    directory, the source directory of the layout, [tests] and the
    directories of the enabled features, in that order; each of them is a
    directory afterwards, and nothing outside the project directory has
    changed. *)
Theorem fresh_project_gets_its_directories (f : fs) (t : Target) :
  fresh_location f t ->
  letter_then identifier_char (package_name (config t)) = true ->
  clashes t = false ->
  exists f' : fs,
    create_directory_structure t f = (Ok (planned_dirs t), f')
    /\ Forall (fun d => f' !! d = Some Dir) (planned_dirs t)
    /\ (forall p, ~ inside (project_dir t) p -> f' !! p = f !! p).
Proof. exact (directories_made f t). Qed.

Lemma home_is_fresh (t : Target) (nm : string) :
  output_dir t = ["home"] -> name (config t) = nm -> nm <> "" ->
  fresh_location Cases.home t.
Proof.
  intros Ho Hn Hne. split.
  - rewrite Ho. reflexivity.
  - intros p [rest ->]. unfold project_dir. rewrite Ho, Hn.
    unfold Cases.home. cbn [list_to_map foldr child app].
    rewrite !lookup_insert_ne by discriminate. apply lookup_empty.
Qed.

Lemma fresh_project_gets_its_directories_witness :
  exists f' : fs,
    create_directory_structure Cases.library_target Cases.home
    = (Ok [["home"; "my-lib"]; ["home"; "my-lib"; "src"; "my_lib"];
           ["home"; "my-lib"; "tests"]; ["home"; "my-lib"; ".github"; "workflows"];
           ["home"; "my-lib"; ".vscode"]; ["home"; "my-lib"; "docs"]], f')
    /\ f' !! ["home"; "my-lib"; "src"; "my_lib"] = Some Dir.
Proof.
  destruct (fresh_project_gets_its_directories Cases.home Cases.library_target)
    as (f' & E & Hdirs & _).
  - apply (home_is_fresh _ "my-lib"); [reflexivity|reflexivity|discriminate].
  - reflexivity.
  - reflexivity.
  - exists f'. split; [exact E|].
    apply List.Forall_inv_tail in Hdirs. apply List.Forall_inv in Hdirs. exact Hdirs.
Defined.

Lemma generation_stopped (f : fs) (t : Target) :
  fresh_location f t ->
  clashes t = true ->
  exists f' : fs,
    create_directory_structure t f = (Raise FileExistsError, f')
    /\ f' !! project_dir t = Some Dir
    /\ (forall p, ~ inside (project_dir t) p -> f' !! p = f !! p).
Proof.
  intros [Hout Hfree] Hclash.
  unfold create_directory_structure. cbv zeta.
  set (pd := project_dir t) in *.
  set (pkg := package_name (config t)) in *.
  assert (Hrel : forall rel, f !! (pd ++ rel) = None).
  { intros rel. apply Hfree. exists rel. reflexivity. }
  assert (Hpd : f !! pd = None) by (rewrite <- (app_nil_r pd); apply Hrel).
  unfold clashes in Hclash. fold pkg in Hclash.
  apply andb_true_iff in Hclash. destruct Hclash as [Hlay Hclash].
  apply negb_true_iff in Hlay.
  unfold St.bind at 1, gets, exists_. rewrite Hpd.
  unfold St.bind at 1.
  assert (E1 : mkdir_p pd f = (Ok tt, <[pd ++ [] := Dir]> f)).
  { rewrite app_nil_r. apply mkdir_p_fresh; [exact Hout|exact Hpd]. }
  rewrite E1. clear E1.
  unfold get_src_path, get_test_path. fold pkg. rewrite Hlay.
  unfold child. rewrite <- !app_assoc. cbn [app].
  assert (Hframe : forall (m : fs) (rel : list string) (p : path),
             ~ inside pd p -> (<[pd ++ rel := Dir]> m) !! p = m !! p).
  { intros m rel p Hp. apply lookup_insert_ne. intros E. apply Hp.
    exists rel. symmetry. exact E. }
  assert (Htaken : forall (m : fs) (rel : list string),
             m !! (pd ++ rel) = Some Dir ->
             mkdir_p (pd ++ rel) m = (Raise FileExistsError, m)).
  { intros m rel. apply mkdir_p_taken. }
  apply orb_true_iff in Hclash. destruct Hclash as [Hp|Hp].
  - apply String.eqb_eq in Hp. rewrite Hp.
    unfold St.bind, ret. cbv beta iota.
    rewrite (mkdir_rel1 pd) by rel_lookup pd Hrel. cbv beta iota.
    rewrite Htaken by rel_lookup pd Hrel.
    eexists. split; [reflexivity|]. split; [rel_lookup pd Hrel|].
    intros p Hq. rewrite !Hframe by exact Hq. reflexivity.
  - apply andb_true_iff in Hp. destruct Hp as [Hd Hp].
    apply String.eqb_eq in Hp. rewrite Hp, Hd.
    destruct (github_actions t), (vscode t);
      unfold optional_dir, St.bind, ret; cbv beta iota;
      repeat (first [ rewrite (mkdir_rel1 pd) by rel_lookup pd Hrel
                    | rewrite (mkdir_rel2 pd) by rel_lookup pd Hrel ];
              cbv beta iota);
      rewrite Htaken by rel_lookup pd Hrel;
      (eexists; split; [reflexivity|]; split; [rel_lookup pd Hrel|];
       intros p Hq; rewrite !Hframe by exact Hq; reflexivity).
Qed.

(** X21. In the flat layout the package directory is a sibling of [tests]
    and [docs]: for a package called [tests], or called [docs] when the
    documentation feature is on, [create_directory_structure] raises
    [FileExistsError] half-way, and leaves the project directory
    behind. *)
Theorem clashing_package_name_stops_the_generation (f : fs) (t : Target) :
  fresh_location f t ->
  clashes t = true ->
  exists f' : fs,
    create_directory_structure t f = (Raise FileExistsError, f')
    /\ f' !! project_dir t = Some Dir
    /\ (forall p, ~ inside (project_dir t) p -> f' !! p = f !! p).
Proof. exact (generation_stopped f t). Qed.

(** The configuration of an application called [tests] is accepted, and its
    generation stops with the project directory made. *)
Lemma clashing_package_name_stops_the_generation_witness :
  new_ProjectConfig "tests" APP false false = Ok (config Cases.tests_target)
  /\ exists f' : fs,
       create_directory_structure Cases.tests_target Cases.home
       = (Raise FileExistsError, f')
       /\ f' !! ["home"; "tests"] = Some Dir.
Proof.
  split; [reflexivity|].
  destruct (clashing_package_name_stops_the_generation Cases.home Cases.tests_target)
    as (f' & E & Hdir & _).
  - apply (home_is_fresh _ "tests"); [reflexivity|reflexivity|discriminate].
  - reflexivity.
  - exists f'. split; [exact E|exact Hdir].
Defined.

(** X28. Validation does not look at the layout: for every configuration
    that [ProjectConfig] accepts, in an existing output directory where
    nothing is in the way, [create_directory_structure] returns the planned
    directories unless the package name clashes with a sibling directory,
    and raises [FileExistsError] if it does. A project of a type with the
    [src] layout never clashes. *)
Theorem accepted_project_is_generated_unless_it_clashes (nm : string)
    (ty : ProjectType) (dk dc : bool) (f : fs) (t : Target) :
  new_ProjectConfig nm ty dk dc = Ok (config t) ->
  fresh_location f t ->
  fst (create_directory_structure t f)
  = (if clashes t then Raise FileExistsError else Ok (planned_dirs t))
  /\ (uses_src_layout ty = true -> clashes t = false).
Proof.
  intros Hc Hf. split.
  - destruct (clashes t) eqn:E.
    + destruct (generation_stopped f t Hf E) as (f' & -> & _). reflexivity.
    + destruct (directories_made f t Hf) as (f' & -> & _);
        [exact (ModelsInvariants.package_name_shape _ _ _ _ _ Hc)|exact E|reflexivity].
  - intros Hl. destruct (ModelsInvariants.config_inv _ _ _ _ _ Hc) as (_ & _ & Ht & _).
    unfold clashes. rewrite Ht, Hl. reflexivity.
Qed.

(** An application called [docs] is generated without the documentation
    feature, and not with it. *)
Lemma accepted_project_is_generated_unless_it_clashes_witness :
  fst (create_directory_structure (Cases.docs_target false) Cases.home)
  = Ok [["home"; "docs"]; ["home"; "docs"; "docs"]; ["home"; "docs"; "tests"]]
  /\ fst (create_directory_structure (Cases.docs_target true) Cases.home)
     = Raise FileExistsError.
Proof.
  split.
  - apply (accepted_project_is_generated_unless_it_clashes "docs" APP false false
             Cases.home (Cases.docs_target false)).
    + reflexivity.
    + apply (home_is_fresh _ "docs"); [reflexivity|reflexivity|discriminate].
  - apply (accepted_project_is_generated_unless_it_clashes "docs" APP false true
             Cases.home (Cases.docs_target true)).
    + reflexivity.
    + apply (home_is_fresh _ "docs"); [reflexivity|reflexivity|discriminate].
Defined.

End GeneratorProps.
